(** * The local document-processing pipeline of papermark

    A shallow embedding of the conversion and rasterization code:
    - [lib/mupdf/pdf-utils.ts]                      ([convertPdfPageToImage])
    - [lib/local-processing/pdf-to-image.ts]        ([convertPdfToImage])
    - [lib/local-processing/convert-cad-to-pdf.ts]  ([convertCadToPdf])
    - the two office converters ([convertOfficeToPdf], one posting to a
      conversion service, one running libreoffice-convert)
    - [lib/local-processing/optimize-video.ts]      ([optimizeVideo])
    - [lib/files/put-file-server.ts]                ([putFileServer])

    The asynchronous functions are sequential once awaited, so each one is
    a state transformer over a [World]: the Prisma tables, the S3 bucket
    and a journal of what the run reported and called.  What the network,
    MuPDF, ffmpeg and the object store answer is not decided by the code;
    it is handed to each function as an environment record.  JavaScript
    numbers are integers ([Z]) where the code counts, and exact rationals
    ([Q]) where it divides or scales. *)

From Stdlib Require Import ZArith QArith Qround Qabs Lia List String Ascii.
From stdpp Require Import base option gmap strings list pretty.

Open Scope Z_scope.

(** ** Values *)

(** A JavaScript [Error]; only its message is ever inspected. *)
Record Error := { message : string }.

(** A settled promise. *)
Inductive outcome (A : Type) : Type :=
| Fulfilled (value : A)
| Rejected (error : Error).
Arguments Fulfilled {A} value.
Arguments Rejected {A} error.

Definition isFulfilled {A} (o : outcome A) : bool :=
  match o with Fulfilled _ => true | Rejected _ => false end.

(** [!s] for a value that is a string, [null] or [undefined]. *)
Definition falsy (s : option string) : bool :=
  match s with
  | None => true
  | Some s => String.eqb s EmptyString
  end.

(** [a || b] on such values. *)
Definition orElse (s : option string) (d : string) : string :=
  match s with
  | None => d
  | Some s => if String.eqb s EmptyString then d else s
  end.

(** [Math.round]: to the nearest integer, halves upwards. *)
Definition jsRound (x : Q) : Z := Qfloor (x + (1 # 2)).

(** ** The metadata store (Prisma) *)

Inductive DocumentStorageType := S3_PATH | VERCEL_BLOB.

(** Columns of [DocumentVersion]; the key [id] is the key of the table. *)
Record DocumentVersion := {
  v_documentId : string;
  v_file : string;
  v_originalFile : option string;
  v_type : string;
  v_storageType : DocumentStorageType;
  v_numPages : option Z;
  v_hasPages : bool;
  v_isPrimary : bool;
  v_versionNumber : Z;
  v_isVertical : bool;
  v_length : option Z;
  v_contentType : option string;
  v_fileSize : option Z
}.

(** The [data] argument of [documentVersion.update]: the columns to
    write; a column left out keeps its value. *)
Record VersionData := {
  d_file : option string;
  d_type : option string;
  d_storageType : option DocumentStorageType;
  d_numPages : option Z;
  d_hasPages : option bool;
  d_isPrimary : option bool;
  d_isVertical : option bool;
  d_length : option Z
}.

Definition writeData (d : VersionData) (v : DocumentVersion) : DocumentVersion :=
  {| v_documentId := v_documentId v;
     v_file := default (v_file v) (d_file d);
     v_originalFile := v_originalFile v;
     v_type := default (v_type v) (d_type d);
     v_storageType := default (v_storageType v) (d_storageType d);
     v_numPages := match d_numPages d with Some n => Some n | None => v_numPages v end;
     v_hasPages := default (v_hasPages v) (d_hasPages d);
     v_isPrimary := default (v_isPrimary v) (d_isPrimary d);
     v_versionNumber := v_versionNumber v;
     v_isVertical := default (v_isVertical v) (d_isVertical d);
     v_length := match d_length d with Some n => Some n | None => v_length v end;
     v_contentType := v_contentType v;
     v_fileSize := v_fileSize v |}.

Record PageLink := { href : string; coords : string }.

Record PageMetadata := {
  originalWidth : Q;
  originalHeight : Q;
  width : Q;
  height : Q;
  scaleFactor : Z
}.

Record DocumentPage := {
  p_id : string;
  p_versionId : string;
  p_pageNumber : Z;
  p_file : string;
  p_storageType : DocumentStorageType;
  p_pageLinks : list PageLink;
  p_metadata : PageMetadata
}.

Record Document := { doc_name : string }.

(** ** The object store *)

Record File := { name : string; type : string; buffer : list Byte.byte }.

Record S3Object := { Body : list Byte.byte; ContentType : string }.

(** ** What a run reports and calls *)

Inductive Stage := PdfToImage | OfficeToPdf | CadToPdf | VideoOptimization.

#[export] Instance Stage_eq_dec : EqDecision Stage.
Proof. solve_decision. Defined.

Inductive Event :=
| Progress (stage : Stage) (progress : Z) (text : string)
| CountPages (url : string)
| ConvertPage (pageNumber : Z)
| Submit
| Sleep (delay : Z)
| Transcode (scale : bool) (maxBitrate keyframeInterval : Z).

Record World := {
  teams : gset string;
  documents : gmap string Document;
  versions : gmap string DocumentVersion;
  pages : list DocumentPage;
  bucket : gmap string S3Object;
  journal : list Event
}.

Definition withVersions (vs : gmap string DocumentVersion) (w : World) : World :=
  {| teams := teams w; documents := documents w; versions := vs;
     pages := pages w; bucket := bucket w; journal := journal w |}.

Definition withPages (ps : list DocumentPage) (w : World) : World :=
  {| teams := teams w; documents := documents w; versions := versions w;
     pages := ps; bucket := bucket w; journal := journal w |}.

Definition withBucket (b : gmap string S3Object) (w : World) : World :=
  {| teams := teams w; documents := documents w; versions := versions w;
     pages := pages w; bucket := b; journal := journal w |}.

Definition withJournal (j : list Event) (w : World) : World :=
  {| teams := teams w; documents := documents w; versions := versions w;
     pages := pages w; bucket := bucket w; journal := j |}.

(** ** Awaited code: a state and error monad over the world *)

Definition task (A : Type) : Type := World -> World * outcome A.

Definition resolve {A} (a : A) : task A := fun w => (w, Fulfilled a).

Definition throw {A} (e : Error) : task A := fun w => (w, Rejected e).

Definition andThen {A B} (t : task A) (k : A -> task B) : task B :=
  fun w =>
    match t w with
    | (w', Fulfilled a) => k a w'
    | (w', Rejected e) => (w', Rejected e)
    end.

#[export] Instance task_ret : MRet task := @resolve.
#[export] Instance task_bind : MBind task := fun A B k t => andThen t k.

(** [await] of a promise that the environment has settled. *)
Definition await {A} (o : outcome A) : task A := fun w => (w, o).

(** [try { t } catch (error) { ... }]: hands the settled result to the
    handler, the effects of [t] up to the throw stay. *)
Definition tryCatch {A} (t : task A) : task (outcome A) :=
  fun w => let '(w', r) := t w in (w', Fulfilled r).

Definition record (e : Event) : task unit :=
  fun w => (withJournal (journal w ++ [e]) w, Fulfilled tt).

(** [updateProgress] of a stage.  It prints the update and hands it to
    [progressCallback] when that is set; the journal keeps each update in
    the order of the calls. *)
Definition updateProgress (stage : Stage) (progress : Z) (text : string) : task unit :=
  record (Progress stage progress text).

(** The percentages a stage reported, oldest first. *)
Definition percentages (stage : Stage) (j : list Event) : list Z :=
  omap (fun e =>
          match e with
          | Progress s p _ => if decide (s = stage) then Some p else None
          | _ => None
          end) j.

(** ** Prisma operations *)

(** [documentVersion.findUnique({ where: { id } })]. *)
Definition findVersion (id : string) : task (option DocumentVersion) :=
  fun w => (w, Fulfilled (versions w !! id)).

(** [documentVersion.update({ where: { id }, data })]; Prisma rejects
    when no row has the id. *)
Definition updateVersion (id : string) (d : VersionData) : task DocumentVersion :=
  fun w =>
    match versions w !! id with
    | Some v =>
        (withVersions (<[id := writeData d v]> (versions w)) w,
         Fulfilled (writeData d v))
    | None => (w, Rejected {| message := "Record to update not found." |})
    end.

(** [documentVersion.updateMany({ where, data })]. *)
Definition updateManyVersions (where_ : DocumentVersion -> bool) (d : VersionData)
  : task unit :=
  fun w =>
    (withVersions ((fun v => if where_ v then writeData d v else v) <$> versions w) w,
     Fulfilled tt).

(** [documentPage.findUnique({ where: { pageNumber_versionId } })]. *)
Definition findPage (pageNumber : Z) (versionId : string) : task (option DocumentPage) :=
  fun w =>
    (w, Fulfilled (List.find (fun p => Z.eqb (p_pageNumber p) pageNumber
                                       && String.eqb (p_versionId p) versionId)
                             (pages w))).

(** [documentPage.create({ data })]; the store hands out the id. *)
Definition createPage (p : DocumentPage) : task DocumentPage :=
  fun w => (withPages (pages w ++ [p]) w, Fulfilled p).

(** ** [url.match(/(doc_[^\/]+)\//)]

    The first place where [doc_] is followed by one or more characters
    other than a slash and then by a slash; the capture is [doc_] with
    those characters. *)

Definition isSlash (c : ascii) : bool := Ascii.eqb c "/"%char.

Fixpoint spanNoSlash (s : string) : string * string :=
  match s with
  | EmptyString => (EmptyString, EmptyString)
  | String c rest =>
      if isSlash c then (EmptyString, s)
      else let '(run, tail) := spanNoSlash rest in (String c run, tail)
  end.

Definition dropPrefix (p s : string) : option string :=
  if String.prefix p s
  then Some (String.substring (String.length p)
                              (String.length s - String.length p)%nat s)
  else None.

Definition matchDocAt (s : string) : option string :=
  match dropPrefix "doc_" s with
  | Some after =>
      match spanNoSlash after with
      | (String c run, String _ _) => Some ("doc_" +:+ String c run)
      | _ => None
      end
  | None => None
  end.

Fixpoint matchDocId (url : string) : option string :=
  match matchDocAt url with
  | Some id => Some id
  | None =>
      match url with
      | EmptyString => None
      | String _ rest => matchDocId rest
      end
  end.

(** ** lib/files/put-file-server.ts and lib/mupdf/pdf-utils.ts *)

(** What the object store does with one [putFileServer] call. *)
Record S3Env := {
  newId : string;             (* newId("doc") *)
  send : outcome unit          (* s3Client.send(new PutObjectCommand(..)) *)
}.

(** What MuPDF gives for one page of the fetched PDF: its bounds, its
    links (each already as [{ href: getURI(), coords: getBounds().join(",") }])
    and the pixmap drawn at the scale the code asks for. *)
Record Pixmap := {
  asPNG : list Byte.byte;
  asJPEG : list Byte.byte      (* asJPEG(80, false) *)
}.

Record PdfPage := {
  getBounds : Q * Q * Q * Q;
  getLinks : outcome (list PageLink);
  toPixmap : outcome Pixmap
}.

(** What one [convertPdfPageToImage] call meets. *)
Record PageEnv := {
  loadPage : outcome PdfPage;  (* fetch, new PDFDocument, loadPage *)
  pageS3 : S3Env;
  createdId : string           (* the id of the row, should one be created *)
}.

Section Pipeline.

(** [slugify] of @sindresorhus/slugify and [path.parse] of node:path
    (as the pair of [name] and [ext]) are libraries. *)
Variable slugify : string -> string.
Variable pathParse : string -> string * string.

Definition putFileInS3Server (env : S3Env) (file : File) (teamId : string)
    (docId : option string) : task (DocumentStorageType * string) :=
  let documentId := default (newId env) docId in
  let '(name_, ext) := pathParse (name file) in
  let key := teamId +:+ "/" +:+ documentId +:+ "/" +:+ slugify name_ +:+ ext in
  fun w =>
    match send env with
    | Fulfilled _ =>
        (withBucket (<[key := {| Body := buffer file; ContentType := type file |}]>
                       (bucket w)) w,
         Fulfilled (S3_PATH, key))
    | Rejected err => (w, Rejected err)
    end.

Definition putFileServer := putFileInS3Server.

(** The choice between the two encodings: the PNG bytes when they are
    fewer than the JPEG bytes, the JPEG bytes otherwise; with the format. *)
Definition chooseEncoding (pngBuffer jpegBuffer : list Byte.byte)
  : list Byte.byte * string :=
  let pngSize := Z.of_nat (length pngBuffer) in
  let jpegSize := Z.of_nat (length jpegBuffer) in
  if pngSize <? jpegSize then (pngBuffer, "png") else (jpegBuffer, "jpeg").

(** The [data] of the update that page 1 makes. *)
Definition orientationData (isVertical : bool) : VersionData :=
  {| d_file := None; d_type := None; d_storageType := None;
     d_numPages := None; d_hasPages := None; d_isPrimary := None;
     d_isVertical := Some isVertical; d_length := None |}.

Definition convertPdfPageToImage (env : PageEnv) (documentVersionId : string)
    (pageNumber : Z) (url teamId : string) : task string :=
  page ← await (loadPage env);
  let '(ulx, uly, lrx, lry) := getBounds page in
  let widthInPoints := Qabs (lrx - ulx) in
  let heightInPoints := Qabs (lry - uly) in
  (if pageNumber =? 1
   then
     let isVertical := negb (Qle_bool heightInPoints widthInPoints) in
     _ ← updateVersion documentVersionId (orientationData isVertical);
     mret tt
   else mret tt);;
  let scaleFactor := if Qle_bool 1600 widthInPoints then 2 else 3 in
  embeddedLinks ← await (getLinks page);
  let metadata :=
    {| originalWidth := widthInPoints;
       originalHeight := heightInPoints;
       width := widthInPoints * inject_Z scaleFactor;
       height := heightInPoints * inject_Z scaleFactor;
       scaleFactor := scaleFactor |} in
  scaledPixmap ← await (toPixmap page);
  let '(chosenBuffer, chosenFormat) :=
    chooseEncoding (asPNG scaledPixmap) (asJPEG scaledPixmap) in
  let docId := matchDocId url in
  '(type_, data) ← putFileServer (pageS3 env)
      {| name := "page-" +:+ pretty pageNumber +:+ "." +:+ chosenFormat;
         type := "image/" +:+ chosenFormat;
         buffer := chosenBuffer |}
      teamId docId;
  (* [!data || !type]: [type] is the constant S3_PATH *)
  if String.eqb data EmptyString
  then throw {| message := "Failed to upload document page " +:+ pretty pageNumber |}
  else
    existingPage ← findPage pageNumber documentVersionId;
    match existingPage with
    | None =>
        documentPage ← createPage
          {| p_id := createdId env;
             p_versionId := documentVersionId;
             p_pageNumber := pageNumber;
             p_file := data;
             p_storageType := type_;
             p_pageLinks := embeddedLinks;
             p_metadata := metadata |};
        mret (p_id documentPage)
    | Some existing => mret (p_id existing)
    end.

(** ** lib/local-processing/pdf-to-image.ts *)

Record ConvertPdfToImagePayload := {
  documentId : string;
  documentVersionId : string;
  teamId : string;
  versionNumber : option Z
}.

(** The object a stage returns; a bare [return;] is [None]. *)
Record Result := {
  success : bool;
  resultMessage : string;
  totalPages : option Z
}.

(** What one [convertPdfToImage] run meets. *)
Record RasterEnv := {
  getFile : outcome (option string);   (* the signed url *)
  getPdfPageCount : outcome Z;
  pageEnv : Z -> PageEnv;              (* by page number *)
  revalidate : outcome unit            (* fetch of /api/revalidate *)
}.

Record LoopVars := { currentPage : Z; conversionWithoutError : bool }.

(** [Math.round((currentPage / numPages) * 100)]. *)
Definition pagePercentage (currentPage numPages : Z) : Z :=
  jsRound (inject_Z currentPage / inject_Z numPages * 100).

(** The [for] loop over the pages, from counter [i] on; each turn of
    the loop uses one unit of [fuel]. *)
Fixpoint pageLoop (env : RasterEnv) (documentVersionId signedUrl teamId : string)
    (numPages : Z) (fuel : nat) (i : Z) (vars : LoopVars) : task LoopVars :=
  match fuel with
  | O => mret vars
  | S fuel =>
      if negb (i <? numPages) then mret vars
      else if negb (conversionWithoutError vars) then mret vars
      else
        let currentPage := i + 1 in
        record (ConvertPage currentPage);;
        converted ← tryCatch (convertPdfPageToImage (pageEnv env currentPage)
                                documentVersionId currentPage signedUrl teamId);
        updateProgress PdfToImage (pagePercentage currentPage numPages)
          (pretty currentPage +:+ " / " +:+ pretty numPages +:+ " pages processed");;
        pageLoop env documentVersionId signedUrl teamId numPages fuel (i + 1)
          {| currentPage := currentPage;
             conversionWithoutError := isFulfilled converted |}
  end.

(** The [data] of the update that enables the pages. *)
Definition enablePagesData (numPages : Z) : VersionData :=
  {| d_file := None; d_type := None; d_storageType := None;
     d_numPages := Some numPages; d_hasPages := Some true;
     d_isPrimary := Some true; d_isVertical := None; d_length := None |}.

(** The [where] and the [data] of the [updateMany] on the other
    versions: same document, another version number. *)
Definition otherVersions (documentId : string) (versionNumber : Z)
    (v : DocumentVersion) : bool :=
  String.eqb (v_documentId v) documentId
  && negb (v_versionNumber v =? versionNumber).

Definition notPrimaryData : VersionData :=
  {| d_file := None; d_type := None; d_storageType := None;
     d_numPages := None; d_hasPages := None;
     d_isPrimary := Some false; d_isVertical := None; d_length := None |}.

(** Step 5, once every page went through. *)
Definition enablePages (env : RasterEnv) (payload : ConvertPdfToImagePayload)
    (numPages : Z) : task (option Result) :=
  updateVersion (documentVersionId payload) (enablePagesData numPages);;
  updateProgress PdfToImage 90 "Enabling pages...";;
  match versionNumber payload with
  | Some versionNumber =>
      (* [if (versionNumber)] *)
      if versionNumber =? 0 then mret tt
      else updateManyVersions (otherVersions (documentId payload) versionNumber)
             notPrimaryData
  | None => mret tt
  end;;
  updateProgress PdfToImage 95 "Revalidating link...";;
  await (revalidate env);;
  updateProgress PdfToImage 100 "Processing complete";;
  mret (Some {| success := true;
                resultMessage := "Successfully converted PDF to images";
                totalPages := Some numPages |}).

(** Step 4, the pages, and what follows them. *)
Definition convertPages (env : RasterEnv) (payload : ConvertPdfToImagePayload)
    (signedUrl : string) (numPages : Z) : task (option Result) :=
  updateProgress PdfToImage 20 "Converting document...";;
  vars ← pageLoop env (documentVersionId payload) signedUrl (teamId payload)
           numPages (Z.to_nat numPages) 0
           {| currentPage := 0; conversionWithoutError := true |};
  if negb (conversionWithoutError vars)
  then
    updateProgress PdfToImage (pagePercentage (currentPage vars) numPages)
      ("Error processing page " +:+ pretty (currentPage vars) +:+ " of "
         +:+ pretty numPages);;
    mret None
  else enablePages env payload numPages.

(** Step 3: [getPdfPageCount], then the pages. *)
Definition countThenConvert (env : RasterEnv) (payload : ConvertPdfToImagePayload)
    (signedUrl : string) : task (option Result) :=
  record (CountPages signedUrl);;
  counted ← tryCatch (await (getPdfPageCount env));
  match counted with
  | Fulfilled numPagesResult =>
      if numPagesResult <? 1
      then updateProgress PdfToImage 0 "Failed to get number of pages";; mret None
      else convertPages env payload signedUrl numPagesResult
  | Rejected _ => throw {| message := "Failed to get number of pages" |}
  end.

Definition convertPdfToImage (env : RasterEnv) (payload : ConvertPdfToImagePayload)
  : task (option Result) :=
  updateProgress PdfToImage 0 "Initializing...";;
  documentVersion ← findVersion (documentVersionId payload);
  match documentVersion with
  | None => updateProgress PdfToImage 0 "Document not found";; mret None
  | Some documentVersion =>
      updateProgress PdfToImage 10 "Retrieving file...";;
      signedUrl ← await (getFile env);
      match signedUrl with
      | None => updateProgress PdfToImage 0 "Failed to retrieve document";; mret None
      | Some signedUrl =>
          if String.eqb signedUrl EmptyString
          then updateProgress PdfToImage 0 "Failed to retrieve document";; mret None
          else
            (* [!numPages || numPages === 1] *)
            match v_numPages documentVersion with
            | None => countThenConvert env payload signedUrl
            | Some numPages =>
                if (numPages =? 0) || (numPages =? 1)
                then countThenConvert env payload signedUrl
                else convertPages env payload signedUrl numPages
            end
      end
  end.

(** ** The upload of a new version

    The POST handler of /api/teams/:teamId/documents/:id/versions, in the
    same source file: the new row and the demotion of the other versions
    of the document.  The conversions it then starts are not awaited and
    run on their own. *)

(** The body of the request. *)
Record VersionUpload := {
  uploadUrl : string;
  uploadType : string;
  uploadNumPages : option Z;
  uploadStorageType : DocumentStorageType;
  uploadContentType : option string;
  uploadFileSize : option Z
}.

(** What the handler meets: the number of the latest version of the
    document, whether the document has the advanced sheet mode, and the
    id the store gives the new row.  The columns the handler does not
    set start from the defaults of the schema: no pages yet, not
    vertical, no length. *)
Record UploadEnv := {
  currentVersionNumber : Z;
  advancedExcelEnabled : bool;
  createdVersionId : string
}.

(** [documentVersion.create({ data })]; the store rejects an id that is
    taken. *)
Definition createVersion (id : string) (v : DocumentVersion) : task DocumentVersion :=
  fun w =>
    match versions w !! id with
    | Some _ => (w, Rejected {| message := "Unique constraint failed on the fields: (id)" |})
    | None => (withVersions (<[id := v]> (versions w)) w, Fulfilled v)
    end.

(** [documentVersion.updateMany] where [documentId] is the document and
    [id] is not the new version, with [isPrimary: false]. *)
Definition demoteOthers (documentId versionId : string) : task unit :=
  fun w =>
    (withVersions
       (map_imap (fun id v =>
                    Some (if String.eqb (v_documentId v) documentId
                             && negb (String.eqb id versionId)
                          then writeData notPrimaryData v else v))
                 (versions w)) w,
     Fulfilled tt).

Definition uploadVersion (env : UploadEnv) (documentId : string) (body : VersionUpload)
  : task string :=
  version ← createVersion (createdVersionId env)
    {| v_documentId := documentId;
       v_file := uploadUrl body;
       v_originalFile := Some (uploadUrl body);
       v_type := uploadType body;
       v_storageType := uploadStorageType body;
       v_numPages := if advancedExcelEnabled env then Some 1 else uploadNumPages body;
       v_hasPages := false;
       v_isPrimary := true;
       v_versionNumber := currentVersionNumber env + 1;
       v_isVertical := false;
       v_length := None;
       v_contentType := uploadContentType body;
       v_fileSize := uploadFileSize body |};
  demoteOthers documentId (createdVersionId env);;
  demoteOthers documentId (createdVersionId env);;
  mret (createdVersionId env).

(** ** The conversion request with its retry loop

    The same text in [convertCadToPdf] and in the [convertOfficeToPdf]
    that posts to the conversion service. *)

(** A [fetch] response.  [json] is [body.message] once the body has
    been parsed, and rejects when the body is not JSON. *)
Record Response := {
  status : Z;
  statusText : string;
  json : outcome (option string);
  arrayBuffer : outcome (list Byte.byte)
}.

(** [response.ok]: a status in the range 200-299. *)
Definition ok (r : Response) : bool := (200 <=? status r) && (status r <=? 299).

Definition maxRetries : Z := 3.

(** [Math.min(1000 * Math.pow(2, retryCount), 30000)]. *)
Definition backoff (retryCount : Z) : Z := Z.min (1000 * 2 ^ retryCount) 30000.

(** The [while (retryCount < maxRetries)] loop.  [fetchAt n] is what
    the n-th request (from 0) meets; a rejection is a network error.
    Each turn of the loop uses one unit of [fuel]. *)
Fixpoint submitLoop (fetchAt : nat -> outcome Response) (fuel : nat) (request : nat)
    (retryCount : Z) (conversionResponse : option Response)
  : task (option Response) :=
  match fuel with
  | O => mret conversionResponse
  | S fuel =>
      if negb (retryCount <? maxRetries) then mret conversionResponse
      else
        record Submit;;
        fetched ← tryCatch (await (fetchAt request));
        match fetched with
        | Fulfilled response =>
            if ok response then mret (Some response)
            else if (500 <=? status response) && (status response <? 600)
            then
              let retryCount := retryCount + 1 in
              record (Sleep (backoff retryCount));;
              submitLoop fetchAt fuel (S request) retryCount (Some response)
            else mret (Some response)
        | Rejected error =>
            let retryCount := retryCount + 1 in
            if maxRetries <=? retryCount then throw error
            else
              record (Sleep (backoff retryCount));;
              submitLoop fetchAt fuel (S request) retryCount conversionResponse
        end
  end.

(** The loop, then the check of what it left: the response to go on
    with, or the "Conversion failed" error. *)
Definition submitConversion (stage : Stage) (fetchAt : nat -> outcome Response)
  : task Response :=
  conversionResponse ← submitLoop fetchAt (Z.to_nat maxRetries) 0%nat 0 None;
  match conversionResponse with
  | Some response =>
      if ok response then mret response
      else
        bodyMessage ← await (json response);
        let message :=
          "Conversion failed: " +:+ orElse bodyMessage "Unknown error" +:+ " "
            +:+ (if status response =? 0 then "unknown status"
                 else pretty (status response)) in
        updateProgress stage 0 "Conversion failed";;
        throw {| message := message |}
  | None =>
      updateProgress stage 0 "Conversion failed";;
      throw {| message := "Conversion failed: Network error unknown status" |}
  end.

(** What one conversion run meets. *)
Record ConvertEnv := {
  sourceUrl : outcome string;            (* getFile of the original file *)
  fetchAt : nat -> outcome Response;     (* the conversion requests *)
  convertS3 : S3Env;
  rasterEnv : RasterEnv                  (* for the convertPdfToImage it starts *)
}.

(** [team.findUnique({ where: { id } })], as whether a team came back. *)
Definition findTeam (id : string) : task bool :=
  fun w => (w, Fulfilled (bool_decide (id ∈ teams w))).

(** [document.findUnique] with the one version selected:
    [document.versions[0]] is the version with the id, when it is a
    version of this document. *)
Definition documentWithVersion (w : World) (documentId documentVersionId : string)
  : option (Document * option DocumentVersion) :=
  match documents w !! documentId with
  | None => None
  | Some d =>
      Some (d, match versions w !! documentVersionId with
               | Some v => if String.eqb (v_documentId v) documentId
                           then Some v else None
               | None => None
               end)
  end.

Definition findDocumentWithVersion (documentId documentVersionId : string)
  : task (option (Document * option DocumentVersion)) :=
  fun w => (w, Fulfilled (documentWithVersion w documentId documentVersionId)).

(** The guard on the document: name and original file, when the
    document, the version, its original file and its content type are
    all there. *)
Definition sourceOf (found : option (Document * option DocumentVersion))
  : option (string * string) :=
  match found with
  | Some (d, Some v) =>
      if falsy (v_originalFile v) || falsy (v_contentType v) then None
      else Some (doc_name d, default EmptyString (v_originalFile v))
  | _ => None
  end.

(** The [data] of the update after a conversion. *)
Definition convertedData (data : string) (storageType : DocumentStorageType)
  : VersionData :=
  {| d_file := Some data; d_type := Some "pdf";
     d_storageType := Some storageType;
     d_numPages := None; d_hasPages := None; d_isPrimary := None;
     d_isVertical := None; d_length := None |}.

(** Saving the PDF and starting the rasterization, from
    [putFileServer] on; the same text in the three converters but for
    the stage, the percentage [previews] reported before the
    rasterization and the message [done] of the result. *)
Definition savePdf (stage : Stage) (previews : Z) (done : string)
    (s3 : S3Env) (raster : RasterEnv) (documentId documentVersionId teamId : string)
    (fileName originalFile : string) (conversionBuffer : list Byte.byte)
  : task (option Result) :=
  let docId := matchDocId originalFile in
  '(storageType, data) ← putFileServer s3
      {| name := fileName; type := "application/pdf"; buffer := conversionBuffer |}
      teamId docId;
  if String.eqb data EmptyString
  then updateProgress stage 0 "Failed to save converted file";; mret None
  else
    updateVersion documentVersionId (convertedData data storageType);;
    updateProgress stage previews "Generating page previews...";;
    tryCatch (convertPdfToImage raster
                {| documentId := documentId;
                   documentVersionId := documentVersionId;
                   teamId := teamId;
                   versionNumber := None |});;
    updateProgress stage 100 "Conversion complete";;
    mret (Some {| success := true; resultMessage := done; totalPages := None |}).

(** ** lib/local-processing/convert-cad-to-pdf.ts *)

Definition convertCadToPdf (env : ConvertEnv) (documentId documentVersionId teamId : string)
  : task (option Result) :=
  updateProgress CadToPdf 0 "Initializing...";;
  team ← findTeam teamId;
  if negb team
  then updateProgress CadToPdf 0 "Team not found";; mret None
  else
      (found ← findDocumentWithVersion documentId documentVersionId;
       match sourceOf found with
       | None => updateProgress CadToPdf 0 "Document not found";; mret None
       | Some (documentName, originalFile) =>
           updateProgress CadToPdf 10 "Retrieving file...";;
           await (sourceUrl env);;
           updateProgress CadToPdf 20 "Converting document...";;
           conversionResponse ← submitConversion CadToPdf (fetchAt env);
           updateProgress CadToPdf 40 "Processing converted document...";;
           conversionBuffer ← await (arrayBuffer conversionResponse);
           updateProgress CadToPdf 60 "Saving document...";;
           savePdf CadToPdf 80 "Successfully converted CAD file to PDF"
             (convertS3 env) (rasterEnv env) documentId documentVersionId teamId
             (documentName +:+ ".pdf") originalFile conversionBuffer
       end).

(** ** [convertOfficeToPdf], posting to the conversion service *)

Definition convertOfficeToPdfRemote (env : ConvertEnv)
    (documentId documentVersionId teamId : string) : task (option Result) :=
  updateProgress OfficeToPdf 0 "Initializing...";;
  team ← findTeam teamId;
  if negb team
  then updateProgress OfficeToPdf 0 "Team not found";; mret None
  else
      (found ← findDocumentWithVersion documentId documentVersionId;
       match sourceOf found with
       | None => updateProgress OfficeToPdf 0 "Document not found";; mret None
       | Some (documentName, originalFile) =>
           updateProgress OfficeToPdf 10 "Retrieving file...";;
           await (sourceUrl env);;
           updateProgress OfficeToPdf 20 "Converting document...";;
           conversionResponse ← submitConversion OfficeToPdf (fetchAt env);
           conversionBuffer ← await (arrayBuffer conversionResponse);
           updateProgress OfficeToPdf 30 "Saving converted file...";;
           savePdf OfficeToPdf 40 "Successfully converted Office document to PDF"
             (convertS3 env) (rasterEnv env) documentId documentVersionId teamId
             (documentName +:+ ".pdf") originalFile conversionBuffer
       end).

(** ** lib/local-processing/convert-office-to-pdf.ts (libreoffice-convert) *)

Definition isDot (c : ascii) : bool := Ascii.eqb c "."%char.

Fixpoint hasDot (s : string) : bool :=
  match s with
  | EmptyString => false
  | String c rest => isDot c || hasDot rest
  end.

(** [name.replace] of [/\.[^.]+$/] by the empty string: drops the last
    dot and what follows it, when something follows it. *)
Fixpoint stripExtension (s : string) : string :=
  match s with
  | EmptyString => EmptyString
  | String c rest =>
      if isDot c && negb (hasDot rest) && negb (String.eqb rest EmptyString)
      then EmptyString
      else String c (stripExtension rest)
  end.

(** What one run of this converter meets. *)
Record OfficeEnv := {
  officeSourceUrl : outcome string;          (* getFile of the original file *)
  officeMkdir : outcome unit;                (* fs.mkdir of the temp directory *)
  officeDownload : outcome Response;         (* fetch(fileUrl) *)
  officeWriteFile : outcome unit;            (* fs.writeFile of the input *)
  libreConvert : outcome (list Byte.byte);   (* libreConvertAsync(buffer, ".pdf") *)
  officeS3 : S3Env;
  officeRasterEnv : RasterEnv
}.

(** The removal of the temp directory sits in a [try] of its own and
    leaves no trace in the world. *)
Definition convertOfficeToPdf (env : OfficeEnv)
    (documentId documentVersionId teamId : string) : task (option Result) :=
  updateProgress OfficeToPdf 0 "Initializing...";;
  team ← findTeam teamId;
  if negb team
  then updateProgress OfficeToPdf 0 "Team not found";; mret None
  else
    found ← findDocumentWithVersion documentId documentVersionId;
    match sourceOf found with
    | None => updateProgress OfficeToPdf 0 "Document not found";; mret None
    | Some (documentName, originalFile) =>
        updateProgress OfficeToPdf 10 "Retrieving file...";;
        await (officeSourceUrl env);;
        await (officeMkdir env);;
        updateProgress OfficeToPdf 20 "Downloading file...";;
        response ← await (officeDownload env);
        if negb (ok response)
        then throw {| message := "Failed to download file: " +:+ statusText response |}
        else
          fileBuffer ← await (arrayBuffer response);
          await (officeWriteFile env);;
          updateProgress OfficeToPdf 30 "Converting document...";;
          converted ← tryCatch (
            pdfBuffer ← await (libreConvert env);
            updateProgress OfficeToPdf 70 "Conversion complete, saving result...";;
            savePdf OfficeToPdf 80 "Successfully converted Office document to PDF"
              (officeS3 env) (officeRasterEnv env) documentId documentVersionId teamId
              (stripExtension documentName +:+ ".pdf") originalFile pdfBuffer);
          match converted with
          | Fulfilled result => mret result
          | Rejected error =>
              updateProgress OfficeToPdf 0 "Conversion failed";;
              throw {| message := "Document conversion failed: " +:+ message error |}
          end
    end.

(** ** lib/local-processing/optimize-video.ts *)

(** The video stream ffprobe found; [frameRate] is
    [r_frame_rate || avg_frame_rate] split at the slash into numbers. *)
Record VideoStream := {
  streamWidth : option Z;
  streamHeight : option Z;
  frameRate : option (Q * Q)
}.

Record ProbeData := {
  videoStream : option VideoStream;    (* streams.find(codec_type === "video") *)
  formatDuration : option Q            (* format.duration *)
}.

Record VideoMetadata := {
  videoWidth : Z;
  videoHeight : Z;
  fps : Q;
  duration : Z
}.

(** What one [optimizeVideo] run meets. *)
Record VideoEnv := {
  videoFileUrl : outcome string;       (* getFile *)
  videoMkdir : outcome unit;
  videoHasBody : outcome bool;         (* fetch(fileUrl), and whether it has a body *)
  videoDownload : outcome unit;        (* pipeline to the input file *)
  ffprobe : outcome ProbeData;
  removeTemp : outcome unit;           (* fs.rm of the temp directory *)
  ffmpegPercents : list Q;             (* progress.percent of each "progress" *)
  ffmpegEnd : outcome unit;            (* "end", or "error" *)
  streamFileServer : outcome (DocumentStorageType * option string)
}.

(** [n || d] on a number that may be missing. *)
Definition orNumber (n : option Z) (d : Z) : Z :=
  match n with
  | None => d
  | Some n => if n =? 0 then d else n
  end.

(** The callback handed to [ffprobe]. *)
Definition probeMetadata (probed : outcome ProbeData) : outcome VideoMetadata :=
  match probed with
  | Rejected err => Rejected err
  | Fulfilled data =>
      match videoStream data with
      | None => Rejected {| message := "No video stream found" |}
      | Some stream =>
          let '(num, den) := default (0, 1)%Q (frameRate stream) in
          Fulfilled
            {| videoWidth := orNumber (streamWidth stream) 1920;
               videoHeight := orNumber (streamHeight stream) 1080;
               fps := (num / (if Qeq_bool den 0 then 1 else den))%Q;
               duration := jsRound (default 0%Q (formatDuration data)) |}
      end
  end.

(** The "progress" events of ffmpeg, mapped into the range 40-80. *)
Fixpoint reportPercents (percents : list Q) : task unit :=
  match percents with
  | [] => mret tt
  | percent :: rest =>
      (if Qeq_bool percent 0 then mret tt
       else
         let scaledProgress := (40 + percent * (4 # 10))%Q in
         updateProgress VideoOptimization (jsRound scaledProgress)
           ("Processing: " +:+ pretty (jsRound percent) +:+ "%"));;
      reportPercents rest
  end.

Definition fiveHundredMiB : Z := 500 * 1024 * 1024.

(** The [data] of the two updates of the optimizer. *)
Definition durationData (length_ : Z) : VersionData :=
  {| d_file := None; d_type := None; d_storageType := None;
     d_numPages := None; d_hasPages := None; d_isPrimary := None;
     d_isVertical := None; d_length := Some length_ |}.

Definition optimizedData (data : option string) : VersionData :=
  {| d_file := data; d_type := None; d_storageType := None;
     d_numPages := None; d_hasPages := None; d_isPrimary := None;
     d_isVertical := None; d_length := None |}.

(** From the size guard on: the version already carries the probed
    duration when this starts. *)
Definition guardAndEncode (env : VideoEnv) (teamId docId documentVersionId : string)
    (fileSize : Z) (metadata : VideoMetadata) : task (option Result) :=
  if fiveHundredMiB <? fileSize
  then
    await (removeTemp env);;
    updateProgress VideoOptimization 100 "Completed (skipped large file)";;
    mret (Some {| success := true;
                  resultMessage := "File size is too large, skipping optimization";
                  totalPages := None |})
  else
    let keyframeInterval := jsRound (fps metadata * 2) in
    let maxBitrate := 6000 * 2 in
    let scaleFilter := 1920 <? videoWidth metadata in
    updateProgress VideoOptimization 40 "Processing video...";;
    record (Transcode scaleFilter maxBitrate keyframeInterval);;
    reportPercents (ffmpegPercents env);;
    await (ffmpegEnd env);;
    updateProgress VideoOptimization 80 "Uploading optimized video...";;
    '(type_, data) ← await (streamFileServer env);
    if falsy data
    then throw {| message := "Upload failed: No file path returned" |}
    else
      updateProgress VideoOptimization 90 "Finalizing...";;
      updateVersion documentVersionId (optimizedData data);;
      await (removeTemp env);;
      updateProgress VideoOptimization 100 "Optimization complete";;
      mret (Some {| success := true;
                    resultMessage := "Successfully optimized video";
                    totalPages := None |}).

(** The duration goes to the version as soon as it is probed. *)
Definition persistDuration (documentVersionId : string) (metadata : VideoMetadata)
  : task DocumentVersion :=
  updateVersion documentVersionId (durationData (duration metadata)).

Definition optimizeVideo (env : VideoEnv) (videoUrl teamId docId documentVersionId : string)
    (fileSize : Z) : task (option Result) :=
  updateProgress VideoOptimization 0 "Initializing...";;
  await (videoFileUrl env);;
  updateProgress VideoOptimization 10 "Fetching video file...";;
  await (videoMkdir env);;
  hasBody ← await (videoHasBody env);
  if negb hasBody
  then throw {| message := "Failed to fetch video stream" |}
  else
    updateProgress VideoOptimization 20 "Downloading video...";;
    await (videoDownload env);;
    updateProgress VideoOptimization 30 "Analyzing video...";;
    metadata ← await (probeMetadata (ffprobe env));
    persistDuration documentVersionId metadata;;
    guardAndEncode env teamId docId documentVersionId fileSize metadata.

(** ** lib/files/delete-team-files-server.ts, and the deletion and the
    copy of a file in the same directory

    These functions do nothing but send commands to the object store
    and look at what comes back.  A run is the list of the commands
    sent so far, and the store is whatever answers the next command
    given the ones before it.  The client is the one [getS3Client]
    gives; a configuration without one is not a run of these
    functions. *)

Inductive S3Command :=
| ListObjectsV2 (prefix : string)
| DeleteObjects (keys : list string)
| CopyObject (copySource key : string).

(** What the code reads of the output of a ListObjectsV2 command: the
    keys of [Contents] (which is missing when nothing matches) and
    [IsTruncated].  The output of the other commands is not read. *)
Record Listing := { Contents : option (list string); IsTruncated : bool }.

Definition Store : Type := list S3Command -> S3Command -> outcome Listing.

(** [await s3Client.send(command)]. *)
Definition sendCommand (store : Store) (command : S3Command) (sent : list S3Command)
  : list S3Command * outcome Listing :=
  (sent ++ [command], store sent command).

(** [!listedObjects.Contents || listedObjects.Contents.length === 0]. *)
Definition nothingListed (listed : Listing) : bool :=
  match Contents listed with
  | None | Some [] => true
  | Some _ => false
  end.

(** The loop that cuts [Contents] into chunks:
    [for (i = 0; i < length; i += 1000) chunks.push(slice(i, i + 1000))].
    Each turn uses one unit of [fuel]. *)
Fixpoint chunksFrom (fuel i : nat) (contents : list string) : list (list string) :=
  match fuel with
  | O => []
  | S fuel =>
      if (i <? length contents)%nat
      then take 1000 (drop i contents) :: chunksFrom fuel (i + 1000) contents
      else []
  end.

Definition chunksOf (contents : list string) : list (list string) :=
  chunksFrom (length contents) 0 contents.

(** [for (const chunk of chunks) await send(new DeleteObjectsCommand(..))]:
    the first command that is rejected ends the loop. *)
Fixpoint deleteChunks (store : Store) (chunks : list (list string))
    (sent : list S3Command) : list S3Command * outcome unit :=
  match chunks with
  | [] => (sent, Fulfilled tt)
  | chunk :: rest =>
      match sendCommand store (DeleteObjects chunk) sent with
      | (sent, Fulfilled _) => deleteChunks store rest sent
      | (sent, Rejected error) => (sent, Rejected error)
      end
  end.

(** The function calls itself when the listing was truncated; [fuel]
    bounds the depth of these calls, and [None] is a run that would go
    deeper.  The promise is never rejected: the body is one [try] whose
    [catch] returns [false]. *)
Fixpoint deleteTeamFilesFromS3Server (store : Store) (fuel : nat) (teamId : string)
    (sent : list S3Command) : list S3Command * option bool :=
  match fuel with
  | O => (sent, None)
  | S fuel =>
      match sendCommand store (ListObjectsV2 (teamId +:+ "/")) sent with
      | (sent, Rejected _) => (sent, Some false)
      | (sent, Fulfilled listedObjects) =>
          if nothingListed listedObjects then (sent, Some true)
          else
            match deleteChunks store
                    (chunksOf (default [] (Contents listedObjects))) sent with
            | (sent, Rejected _) => (sent, Some false)
            | (sent, Fulfilled _) =>
                if IsTruncated listedObjects
                then
                  (* [await deleteTeamFilesFromS3Server(teamId)]: what it
                     returns is not looked at *)
                  match deleteTeamFilesFromS3Server store fuel teamId sent with
                  | (sent, Some _) => (sent, Some true)
                  | (sent, None) => (sent, None)
                  end
                else (sent, Some true)
            end
      end
  end.

Definition deleteTeamFilesServer := deleteTeamFilesFromS3Server.

(** [deleteFileFromS3]: one listing under the prefix [data], one
    command that deletes what was listed. *)
Definition deleteFileFromS3 (store : Store) (data : string) (sent : list S3Command)
  : list S3Command * bool :=
  if String.eqb data EmptyString then (sent, false)
  else
    match sendCommand store (ListObjectsV2 data) sent with
    | (sent, Rejected _) => (sent, false)
    | (sent, Fulfilled listedObjects) =>
        if nothingListed listedObjects then (sent, false)
        else
          match sendCommand store
                  (DeleteObjects (default [] (Contents listedObjects))) sent with
          | (sent, Fulfilled _) => (sent, true)
          | (sent, Rejected _) => (sent, false)
          end
    end.

Definition deleteFileServer := deleteFileFromS3.

Fixpoint hasSlash (s : string) : bool :=
  match s with
  | EmptyString => false
  | String c rest => isSlash c || hasSlash rest
  end.

(** [sourceKey.split("/").pop()]: what follows the last slash, the
    whole key when it has none. *)
Fixpoint lastSegment (s : string) : string :=
  match s with
  | EmptyString => EmptyString
  | String c rest => if isSlash c || hasSlash rest then lastSegment rest else s
  end.

(** [copyFileInS3Server]; [uploadBucket] is NEXT_PRIVATE_UPLOAD_BUCKET
    and [documentId] the [newId("doc")] of this call. *)
Definition copyFileInS3Server (store : Store) (uploadBucket documentId : string)
    (teamId filePath : string) (sent : list S3Command)
  : list S3Command * outcome (DocumentStorageType * (string * string)) :=
  let sourceKey := filePath in
  let destinationKey := teamId +:+ "/" +:+ documentId +:+ "/" +:+ lastSegment sourceKey in
  match sendCommand store
          (CopyObject (uploadBucket +:+ "/" +:+ sourceKey) destinationKey) sent with
  | (sent, Fulfilled _) => (sent, Fulfilled (S3_PATH, (sourceKey, destinationKey)))
  | (sent, Rejected _) => (sent, Rejected {| message := "Failed to copy file in S3" |})
  end.

Definition copyFileServer := copyFileInS3Server.

(** ** The rate limiter over Redis ([ratelimit])

    A sliding window kept in one sorted set per identifier.  A sorted
    set is its members with their scores, each member once; the order
    Redis keeps them in plays no part in the commands used here. *)

(** ZREMRANGEBYSCORE key min max: both bounds are inclusive. *)
Definition zRemRangeByScore (min max : Z) (set : list (string * Z)) : list (string * Z) :=
  List.filter (fun entry => negb ((min <=? snd entry) && (snd entry <=? max))) set.

(** ZADD key score value: a member that is there gets the new score. *)
Definition zAdd (score : Z) (value : string) (set : list (string * Z)) : list (string * Z) :=
  List.filter (fun entry => negb (String.eqb (fst entry) value)) set
    ++ [(value, score)].

(** ZCARD key. *)
Definition zCard (set : list (string * Z)) : Z := Z.of_nat (length set).

(** A key: its sorted set and the time to live EXPIRE gave it, in
    seconds.  The time to live is kept as written and is not run down:
    a key is given a new one, of at least the window, by every request,
    so it goes only when every member is older than the window, and
    those members are the ones the next request removes itself. *)
Record RedisKey := { zset : list (string * Z); expire : option Z }.

(** What [multi.exec()] comes back with: the replies of a transaction
    that was executed, [null], or an error.  A transaction that was
    not executed leaves the keys as they were. *)
Inductive ExecReply := Executed | NullReply | ExecError (error : Error).

Record RatelimitResponse := {
  rl_success : bool;
  rl_limit : Z;
  rl_remaining : Z;
  rl_reset : Z
}.

(** [ratelimit(requests, duration).limit(identifier)] at [now]
    ([Date.now()]); [duration] is a whole number of seconds. *)
Definition limit (requests duration : Z) (reply : ExecReply) (identifier : string)
    (now : Z) (redis : gmap string RedisKey)
  : gmap string RedisKey * RatelimitResponse :=
  let key := "papermark:rl:" +:+ identifier in
  let windowMs := duration * 1000 in
  let answer (count : Z) :=
    {| rl_success := count <=? requests;
       rl_limit := requests;
       rl_remaining := Z.max 0 (requests - count);
       rl_reset := now + windowMs |} in
  match reply with
  | Executed =>
      let set :=
        zAdd now (pretty now)
          (zRemRangeByScore 0 (now - windowMs)
             (default [] (zset <$> redis !! key))) in
      (<[key := {| zset := set;
                   expire := Some (Qceiling (inject_Z duration * (3 # 2))) |}]> redis,
       answer (orNumber (Some (zCard set)) 0))
  | NullReply => (redis, answer 0)
  | ExecError _ =>
      (redis,
       {| rl_success := true; rl_limit := requests; rl_remaining := 1;
          rl_reset := now + windowMs |})
  end.

(** [ratelimit(requests = 10, duration = 10)]. *)
Definition ratelimit (requests duration : option Z)
  : ExecReply -> string -> Z -> gmap string RedisKey
    -> gmap string RedisKey * RatelimitResponse :=
  limit (default 10 requests) (default 10 duration).

(** The state after requests at the given times, each one executed. *)
Fixpoint replay (requests duration : Z) (identifier : string) (times : list Z)
    (redis : gmap string RedisKey) : gmap string RedisKey :=
  match times with
  | [] => redis
  | now :: later =>
      replay requests duration identifier later
        (fst (limit requests duration Executed identifier now redis))
  end.

(** ** Sending webhooks ([sendWebhooks]) *)

Record Webhook := { pId : string; webhookUrl : string; secret : string }.

(** What one [sendWebhooks] call meets: the payload that
    [prepareWebhookPayload] builds for the trigger and the data (as its
    JSON text), the signature of a payload under a secret, and what the
    endpoint of a webhook answers to the signed POST that the limiter
    lets through.  [firstRejection] is the rejection that reaches
    [Promise.all] first when several of its promises are rejected,
    which is a matter of timing. *)
Record WebhookEnv := {
  prepareWebhookPayload : outcome string;
  createWebhookSignature : string -> string -> outcome string;
  postTo : Webhook -> string -> string -> outcome Response;
  firstRejection : list Error -> Error
}.

(** What [sendWebhookDirectly] returns: [{ success, status, url }], or
    [{ success: false, error, url }] from its [catch]. *)
Record Delivery := {
  deliverySuccess : bool;
  deliveryStatus : option Z;
  deliveryError : option string;
  deliveryUrl : string
}.

(** The signature is made before the [try]; the [catch] is for the
    request only. *)
Definition sendWebhookDirectly (env : WebhookEnv) (payload : string)
    (webhook : Webhook) : outcome Delivery :=
  match createWebhookSignature env (secret webhook) payload with
  | Rejected error => Rejected error
  | Fulfilled signature =>
      match postTo env webhook signature payload with
      | Fulfilled response =>
          Fulfilled {| deliverySuccess := ok response;
                       deliveryStatus := Some (status response);
                       deliveryError := None;
                       deliveryUrl := webhookUrl webhook |}
      | Rejected error =>
          Fulfilled {| deliverySuccess := false;
                       deliveryStatus := None;
                       deliveryError := Some (message error);
                       deliveryUrl := webhookUrl webhook |}
      end
  end.

(** [Promise.all]: the values in the order of the promises, or the
    first rejection. *)
Definition promiseAll {A} (first : list Error -> Error) (settled : list (outcome A))
  : outcome (list A) :=
  match omap (fun o => match o with Rejected error => Some error | Fulfilled _ => None end)
             settled with
  | [] => Fulfilled (omap (fun o => match o with
                                    | Fulfilled a => Some a
                                    | Rejected _ => None
                                    end) settled)
  | errors => Rejected (first errors)
  end.

(** A bare [return;] is [None]. *)
Definition sendWebhooks (env : WebhookEnv) (webhooks : list Webhook)
  : outcome (option (list Delivery)) :=
  match webhooks with
  | [] => Fulfilled None
  | _ =>
      match prepareWebhookPayload env with
      | Rejected error => Rejected error
      | Fulfilled payload =>
          match promiseAll (firstRejection env)
                  (sendWebhookDirectly env payload <$> webhooks) with
          | Fulfilled deliveries => Fulfilled (Some deliveries)
          | Rejected error => Rejected error
          end
      end
  end.

(** ** The handler of /api/teams/:teamId/documents/:id/versions

    The whole of the handler whose writes are [uploadVersion] above.
    The conversions it starts are not awaited: they are the jobs the
    handler leaves behind, each with the payload it was started with.
    The handler has made all its writes when it starts them. *)

Inductive Job :=
| ConvertOfficeToPdfJob (documentId documentVersionId teamId : string)
| OptimizeVideoJob (videoUrl teamId : string) (docId : option string)
    (documentVersionId : string) (fileSize : Z)
| ConvertPdfToImageJob (payload : ConvertPdfToImagePayload).

(** [s.split("/")]. *)
Fixpoint splitSlash (s : string) : list string :=
  match s with
  | EmptyString => [EmptyString]
  | String c rest =>
      if isSlash c then EmptyString :: splitSlash rest
      else match splitSlash rest with
           | first :: more => String c first :: more
           | [] => [String c EmptyString]
           end
  end.

(** What the handler answers: the status, the [Allow] header when it
    is set, and the body. *)
Inductive VersionsBody :=
| Ended (text : string)                 (* res.end(text) *)
| NewVersion (id : string)              (* json({ id }) *)
| InternalServerError (error : string). (* json({ message, error }) *)

Record VersionsReply := {
  replyStatus : Z;
  replyAllow : option (list string);
  replyBody : VersionsBody
}.

(** The document of [getTeamWithUsersAndDocument]: whether it has the
    advanced sheet mode, and the versions selected with it, the newest
    first and one at most, by their numbers. *)
Record DocumentInfo := {
  infoAdvancedExcelEnabled : bool;
  infoVersions : option (list Z)
}.

(** What one request meets. *)
Record VersionsEnv := {
  sessionUser : option string;                        (* getServerSession *)
  teamWithDocument : outcome (option DocumentInfo);   (* getTeamWithUsersAndDocument *)
  newVersionId : string;                              (* the id of the created row *)
  copyFileToBucketServer : outcome unit
}.

(** [document?.versions ? document.versions[0].versionNumber : 1];
    reading [versionNumber] of the first element of an empty list is a
    TypeError. *)
Definition latestVersionNumber (document : option DocumentInfo) : outcome Z :=
  match document with
  | Some info =>
      match infoVersions info with
      | Some (latest :: _) => Fulfilled latest
      | Some [] =>
          Rejected {| message :=
                        "Cannot read properties of undefined (reading 'versionNumber')" |}
      | None => Fulfilled 1
      end
  | None => Fulfilled 1
  end.

(** The conversions started for a new version, by the type of the
    upload. *)
Definition startedJobs (teamId documentId : string) (body : VersionUpload)
    (versionId : string) (versionNumber : Z) : list Job :=
  (if String.eqb (uploadType body) "docs" || String.eqb (uploadType body) "slides"
   then [ConvertOfficeToPdfJob documentId versionId teamId] else [])
  ++ (if String.eqb (uploadType body) "video"
      then [OptimizeVideoJob (uploadUrl body) teamId (splitSlash (uploadUrl body) !! 1%nat)
              versionId (orNumber (uploadFileSize body) 0)]
      else [])
  ++ (if String.eqb (uploadType body) "pdf"
      then [ConvertPdfToImageJob {| documentId := documentId;
                                    documentVersionId := versionId;
                                    teamId := teamId;
                                    versionNumber := Some versionNumber |}]
      else []).

Definition versionsHandle (env : VersionsEnv) (method teamId documentId : string)
    (body : VersionUpload) : task (VersionsReply * list Job) :=
  if negb (String.eqb method "POST")
  then mret ({| replyStatus := 405; replyAllow := Some ["GET"];
                replyBody := Ended ("Method " +:+ method +:+ " Not Allowed") |}, [])
  else
    match sessionUser env with
    | None => mret ({| replyStatus := 401; replyAllow := None;
                       replyBody := Ended "Unauthorized" |}, [])
    | Some userId =>
        created ← tryCatch (
          document ← await (teamWithDocument env);
          currentVersionNumber ← await (latestVersionNumber document);
          let advanced :=
            match document with
            | Some info => infoAdvancedExcelEnabled info
            | None => false
            end in
          uploadVersion {| currentVersionNumber := currentVersionNumber;
                           advancedExcelEnabled := advanced;
                           createdVersionId := newVersionId env |}
            documentId body;;
          mret (advanced, currentVersionNumber + 1));
        match created with
        | Rejected error =>
            mret ({| replyStatus := 500; replyAllow := None;
                     replyBody := InternalServerError (message error) |}, [])
        | Fulfilled (advanced, versionNumber) =>
            let jobs := startedJobs teamId documentId body (newVersionId env)
                          versionNumber in
            copied ← tryCatch (
              if String.eqb (uploadType body) "sheet" && advanced
              then await (copyFileToBucketServer env)
              else mret tt);
            match copied with
            | Fulfilled _ =>
                mret ({| replyStatus := 200; replyAllow := None;
                         replyBody := NewVersion documentId |}, jobs)
            | Rejected error =>
                mret ({| replyStatus := 500; replyAllow := None;
                         replyBody := InternalServerError (message error) |}, jobs)
            end
        end
    end.

(** ** The handler of /api/teams/:teamId/datarooms/:id/documents

    The tables it reads and writes are not those of the pipeline: the
    users of the teams, the folders of the datarooms by their path, and
    the documents placed in the datarooms.  As in the pipeline, a read
    of the store gives what the tables hold; the errors the handler
    catches are those of the write and of [getFeatureFlags]. *)

Record DataroomDocument := {
  placedId : string;
  placedDocumentId : string;
  placedDataroomId : string;
  placedFolderId : option string
}.

Record Datarooms := {
  teamUsers : gset (string * string);                (* team id, user id *)
  dataroomFolders : gmap (string * string) string;   (* dataroom id, path: folder id *)
  dataroomDocuments : list DataroomDocument
}.

(** The payload of [sendDataroomChangeNotification]. *)
Record ChangeNotification := {
  notifiedDataroomId : string;
  notifiedDataroomDocumentId : string;
  notifiedSenderUserId : string;
  notifiedTeamId : string
}.

(** [scheduleTask(task, payload, delayMs)], as the handler uses it: the
    task is left to run after the delay and nothing waits for it. *)
Record Scheduled := { scheduledPayload : ChangeNotification; delayMs : Z }.

Inductive DataroomBody :=
| EndedWith (text : string)
| Documents (documents : list DataroomDocument)
| Placed (document : DataroomDocument)
| Handled (error : Error).                (* errorhandler(error, res) *)

Record DataroomReply := {
  dataroomStatus : option Z;                 (* what errorhandler sets is its own *)
  dataroomAllow : option (list string);
  dataroomBody : DataroomBody
}.

(** What one request meets: the session, the order [findMany] and
    [sortItemsByIndexAndName] give the documents, the id of the created
    row or the error of the store, and the feature flag of the team. *)
Record DataroomEnv := {
  dataroomSession : option string;
  sortItemsByIndexAndName : list DataroomDocument -> list DataroomDocument;
  createdDataroomDocumentId : outcome string;
  roomChangeNotifications : outcome bool
}.

(** The body of a POST: [folderPathName] may be missing. *)
Record PlaceDocument := {
  bodyDocumentId : string;
  folderPathName : option string
}.

(** ["/" + folderPathName]: a missing name is the text "undefined". *)
Definition folderPath (folderPathName : option string) : string :=
  "/" +:+ default "undefined" folderPathName.

Definition dataroomDocumentsHandle (env : DataroomEnv) (method teamId dataroomId : string)
    (body : PlaceDocument) (store : Datarooms)
  : Datarooms * (DataroomReply * list Scheduled) :=
  let unauthorized :=
    {| dataroomStatus := Some 401; dataroomAllow := None;
       dataroomBody := EndedWith "Unauthorized" |} in
  if String.eqb method "GET"
  then
    match dataroomSession env with
    | None => (store, (unauthorized, []))
    | Some userId =>
        if negb (bool_decide ((teamId, userId) ∈ teamUsers store))
        then (store, (unauthorized, []))
        else
          let documents :=
            List.filter (fun document =>
                           String.eqb (placedDataroomId document) dataroomId
                           && match placedFolderId document with
                              | None => true
                              | Some _ => false
                              end)
                        (dataroomDocuments store) in
          (store, ({| dataroomStatus := Some 200; dataroomAllow := None;
                      dataroomBody := Documents (sortItemsByIndexAndName env documents) |},
                   []))
    end
  else if String.eqb method "POST"
  then
    match dataroomSession env with
    | None => (store, (unauthorized, []))
    | Some userId =>
        if negb (bool_decide ((teamId, userId) ∈ teamUsers store))
        then (store, (unauthorized, []))
        else
          let folder := dataroomFolders store !! (dataroomId, folderPath (folderPathName body)) in
          match createdDataroomDocumentId env with
          | Rejected error =>
              (store, ({| dataroomStatus := None; dataroomAllow := None;
                          dataroomBody := Handled error |}, []))
          | Fulfilled id =>
              let document :=
                {| placedId := id;
                   placedDocumentId := bodyDocumentId body;
                   placedDataroomId := dataroomId;
                   placedFolderId := folder |} in
              let store :=
                {| teamUsers := teamUsers store;
                   dataroomFolders := dataroomFolders store;
                   dataroomDocuments := dataroomDocuments store ++ [document] |} in
              match roomChangeNotifications env with
              | Rejected error =>
                  (store, ({| dataroomStatus := None; dataroomAllow := None;
                              dataroomBody := Handled error |}, []))
              | Fulfilled flag =>
                  (store,
                   ({| dataroomStatus := Some 201; dataroomAllow := None;
                       dataroomBody := Placed document |},
                    if flag
                    then [{| scheduledPayload :=
                               {| notifiedDataroomId := dataroomId;
                                  notifiedDataroomDocumentId := id;
                                  notifiedSenderUserId := userId;
                                  notifiedTeamId := teamId |};
                             delayMs := 10 * 60 * 1000 |}]
                    else []))
              end
          end
    end
  else
    (store, ({| dataroomStatus := Some 405; dataroomAllow := Some ["GET"; "POST"];
                dataroomBody := EndedWith ("Method " +:+ method +:+ " Not Allowed") |},
             [])).

(** * Reading a run *)

(** ** Reading the journal *)


Definition isSubmit (e : Event) : bool :=
  match e with Submit => true | _ => false end.

Definition isTranscode (e : Event) : bool :=
  match e with Transcode _ _ _ => true | _ => false end.


(** The requests a run made. *)
Definition requests (j : list Event) : nat := length (filter isSubmit j).

(** Every wait of a run. *)
Definition waits (j : list Event) : list Z :=
  omap (fun e => match e with Sleep d => Some d | _ => None end) j.

(** The waits that a request followed: the waits before a retry. *)
Fixpoint retryWaits (j : list Event) : list Z :=
  match j with
  | [] => []
  | Sleep d :: rest =>
      if existsb isSubmit rest then d :: retryWaits rest else retryWaits rest
  | _ :: rest => retryWaits rest
  end.

(** The pages a run handed to [convertPdfPageToImage]. *)
Definition pagesTried (j : list Event) : list Z :=
  omap (fun e => match e with ConvertPage n => Some n | _ => None end) j.

(** The row of a page, as [findPage] sees it. *)
Definition pageOf (pageNumber : Z) (versionId : string) (ps : list DocumentPage)
  : option DocumentPage :=
  List.find (fun p => Z.eqb (p_pageNumber p) pageNumber
                      && String.eqb (p_versionId p) versionId) ps.


(** Everything a version carries apart from its orientation. *)
Definition levelled (v : DocumentVersion) : DocumentVersion :=
  writeData (orientationData false) v.

(** ** Reading the worlds of a run *)

(** Whether the environment lets a page call through. *)
Definition pageSucceeds (env : PageEnv) : bool :=
  match loadPage env with
  | Fulfilled page =>
      isFulfilled (getLinks page) && isFulfilled (toPixmap page)
      && isFulfilled (send (pageS3 env))
  | Rejected _ => false
  end.

(** The rows of the page table for one page of one version. *)
Definition rowsOf (pageNumber : Z) (versionId : string) (ps : list DocumentPage)
  : list DocumentPage :=
  List.filter (fun p => Z.eqb (p_pageNumber p) pageNumber
                        && String.eqb (p_versionId p) versionId) ps.

(** Events of a rasterization run, and those of its page loop. *)
Definition rasterEvent (e : Event) : bool :=
  match e with
  | Progress PdfToImage _ _ | ConvertPage _ | CountPages _ => true
  | _ => false
  end.

Definition pageEvent (e : Event) : bool :=
  match e with
  | Progress PdfToImage _ _ | ConvertPage _ => true
  | _ => false
  end.


(** A task that only adds events of one kind to the journal. *)
Definition emits {A} (allowed : Event -> bool) (t : task A) : Prop :=
  forall w, exists evs,
    journal (fst (t w)) = journal w ++ evs /\ forallb allowed evs = true.

(** What a rasterization run never takes back: teams and documents
    stay, the page table only grows. *)
Definition extends (w w' : World) : Prop :=
  teams w' = teams w
  /\ documents w' = documents w
  /\ (exists more, pages w' = pages w ++ more).

(** The versions as [enablePages] leaves them: the version of the run
    enabled, then the others of that document demoted when a version
    number came with the payload. *)
Definition demoted (payload : ConvertPdfToImagePayload)
    (vs : gmap string DocumentVersion) : gmap string DocumentVersion :=
  match versionNumber payload with
  | Some n =>
      if n =? 0 then vs
      else (fun v => if otherVersions (documentId payload) n v
                     then writeData notPrimaryData v else v) <$> vs
  | None => vs
  end.




(** Whether the environment lets a run get to the probe: the url, the
    temp directory, a response with a body, the download. *)
Definition downloads (env : VideoEnv) : bool :=
  isFulfilled (videoFileUrl env) && isFulfilled (videoMkdir env)
  && match videoHasBody env with Fulfilled hasBody => hasBody | Rejected _ => false end
  && isFulfilled (videoDownload env).

(** The world the size guard starts from: four updates reported, the
    duration written to the version. *)
Definition probed (w : World) (documentVersionId : string) (v : DocumentVersion)
    (metadata : VideoMetadata) : World :=
  withVersions
    (<[documentVersionId := writeData (durationData (duration metadata)) v]>
       (versions w))
    (withJournal
       (journal w ++ [Progress VideoOptimization 0 "Initializing...";
                      Progress VideoOptimization 10 "Fetching video file...";
                      Progress VideoOptimization 20 "Downloading video...";
                      Progress VideoOptimization 30 "Analyzing video..."]) w).

Definition anyEvent (e : Event) : bool := true.




(** ** Reading strings *)

(** Whether [doc_] occurs somewhere in a string. *)
Fixpoint mentionsDoc (s : string) : bool :=
  match s with
  | EmptyString => false
  | String _ rest => String.prefix "doc_" s || mentionsDoc rest
  end.

(** ** Reading the versions after a conversion *)

(** The columns that a conversion writes and a rasterization leaves
    alone: where the file is, and what it is. *)
Definition filed (v : DocumentVersion) : string * string * DocumentStorageType :=
  (v_file v, v_type v, v_storageType v).

(** The key [putFileInS3Server] builds. *)
Definition storageKey (teamId documentId fileName : string) : string :=
  teamId +:+ "/" +:+ documentId +:+ "/"
    +:+ slugify (fst (pathParse fileName)) +:+ snd (pathParse fileName).

(** ** Reading the commands sent to the store *)

(** What [deleteTeamFilesFromS3Server] may send for a team: listings
    under the prefix of the team, and deletions of 1 to 1000 keys. *)
Definition teamCommand (teamId : string) (command : S3Command) : Prop :=
  match command with
  | ListObjectsV2 prefix => prefix = teamId +:+ "/"
  | DeleteObjects keys => (1 <= length keys <= 1000)%nat
  | CopyObject _ _ => False
  end.

(** ** Reading the clock *)

(** Times that go up strictly. *)
Fixpoint increasing (times : list Z) : bool :=
  match times with
  | earlier :: (later :: _) as rest => (earlier <? later) && increasing rest
  | _ => true
  end.

(** How many of the times lie after [bound]. *)
Definition countAfter (bound : Z) (times : list Z) : Z :=
  Z.of_nat (length (List.filter (fun t => bound <? t) times)).

(** ** Reading who is primary *)

(** What a rasterization run for [payload] may do to a version, read
    from the version after the run back to the one before: the version
    was there, of the same document and with the same number, and it
    is primary as before, or it is the version of the run and now
    primary, or it is not primary any more and is one of the versions
    the run demotes. *)
Definition promotes (payload : ConvertPdfToImagePayload)
    (before after : gmap string DocumentVersion) : Prop :=
  forall id v', after !! id = Some v' ->
    exists v, before !! id = Some v
      /\ v_documentId v' = v_documentId v
      /\ v_versionNumber v' = v_versionNumber v
      /\ (v_isPrimary v' = v_isPrimary v
          \/ (id = documentVersionId payload /\ v_isPrimary v' = true)
          \/ (v_isPrimary v' = false
              /\ exists n, versionNumber payload = Some n
                           /\ otherVersions (documentId payload) n v = true)).

(** ** Sample worlds and environments

    The inputs of the concrete runs at the end of the file. *)

(** A slug function that leaves names made of lower-case letters, digits
    and dashes as they are, and the split of a file name at its last dot,
    which is what [slugify] and [path.parse] do on the names below. *)
Definition plainSlug (s : string) : string := s.

Definition splitExtension (s : string) : string * string :=
  let base := stripExtension s in
  (base, String.substring (String.length base)
                          (String.length s - String.length base) s).

(** A version as the upload handler creates it, page count unknown. *)
Definition uploaded (type_ : string) (number : Z) (primary : bool)
  : DocumentVersion :=
  {| v_documentId := "doc_1";
     v_file := "team_1/doc_1/report.pdf";
     v_originalFile := Some "team_1/doc_1/report.pdf";
     v_type := type_;
     v_storageType := S3_PATH;
     v_numPages := None;
     v_hasPages := false;
     v_isPrimary := primary;
     v_versionNumber := number;
     v_isVertical := false;
     v_length := None;
     v_contentType := Some "application/pdf";
     v_fileSize := Some 1000 |}.

Definition oneVersion : World :=
  {| teams := {["team_1"]};
     documents := {["doc_1" := {| doc_name := "report.pdf" |}]};
     versions := {["ver_1" := uploaded "pdf" 2 true]};
     pages := []; bucket := ∅; journal := [] |}.

(** An office document just uploaded as the second version of its
    document, and the upload of a PDF as the next version. *)
Definition officeVersion : World :=
  {| teams := {["team_1"]};
     documents := {["doc_1" := {| doc_name := "report.pdf" |}]};
     versions := {["ver_1" := uploaded "docs" 2 true]};
     pages := []; bucket := ∅; journal := [] |}.

Definition nextUpload : UploadEnv :=
  {| currentVersionNumber := 2; advancedExcelEnabled := false;
     createdVersionId := "ver_2" |}.

Definition pdfUpload : VersionUpload :=
  {| uploadUrl := "team_1/doc_1/report.pdf";
     uploadType := "pdf";
     uploadNumPages := None;
     uploadStorageType := S3_PATH;
     uploadContentType := Some "application/pdf";
     uploadFileSize := Some 1000 |}.

(** Two versions of one document, the newer one primary: what that
    upload leaves. *)
Definition twoVersions : World :=
  {| teams := {["team_1"]};
     documents := {["doc_1" := {| doc_name := "report.pdf" |}]};
     versions := {["ver_1" := uploaded "docs" 2 false;
                   "ver_2" := uploaded "pdf" 3 true]};
     pages := []; bucket := ∅; journal := [] |}.

(** A US-letter page whose two encodings have the same length. *)
Definition tiedPixmap : Pixmap :=
  {| asPNG := [Byte.x89; Byte.x50]; asJPEG := [Byte.xff; Byte.xd8] |}.

Definition letterPage : PdfPage :=
  {| getBounds := (0, 0, 612, 792)%Q;
     getLinks := Fulfilled [];
     toPixmap := Fulfilled tiedPixmap |}.

Definition goodPage (n : Z) : PageEnv :=
  {| loadPage := Fulfilled letterPage;
     pageS3 := {| newId := "doc_new"; send := Fulfilled tt |};
     createdId := "page_" +:+ pretty n |}.

Definition badPage (n : Z) : PageEnv :=
  {| loadPage := Rejected {| message := "cannot load page" |};
     pageS3 := {| newId := "doc_new"; send := Fulfilled tt |};
     createdId := "page_" +:+ pretty n |}.

Definition signedUrl : string := "https://bucket.example/team_1/doc_1/report.pdf".

(** A document of [n] pages that all render. *)
Definition rendering (n : Z) : RasterEnv :=
  {| getFile := Fulfilled (Some signedUrl);
     getPdfPageCount := Fulfilled n;
     pageEnv := goodPage;
     revalidate := Fulfilled tt |}.

(** A document of five pages whose third page fails. *)
Definition thirdPageFails : RasterEnv :=
  {| getFile := Fulfilled (Some signedUrl);
     getPdfPageCount := Fulfilled 5;
     pageEnv := fun n => if n =? 3 then badPage n else goodPage n;
     revalidate := Fulfilled tt |}.

Definition pdfPayload (versionNumber : option Z) : ConvertPdfToImagePayload :=
  {| documentId := "doc_1"; documentVersionId := "ver_1"; teamId := "team_1";
     versionNumber := versionNumber |}.

(** The conversion service: unreachable, answering 503, answering 400. *)
Definition answer (status_ : Z) (text : string) : Response :=
  {| status := status_; statusText := text;
     json := Fulfilled (Some text); arrayBuffer := Fulfilled [Byte.x25] |}.

Definition service (answers : nat -> outcome Response) : ConvertEnv :=
  {| sourceUrl := Fulfilled signedUrl;
     fetchAt := answers;
     convertS3 := {| newId := "doc_new"; send := Fulfilled tt |};
     rasterEnv := rendering 1 |}.


Definition overloaded : ConvertEnv :=
  service (fun _ => Fulfilled (answer 503 "Service Unavailable")).



(** A 720p clip of 12.5 seconds. *)
Definition clip : VideoEnv :=
  {| videoFileUrl := Fulfilled signedUrl;
     videoMkdir := Fulfilled tt;
     videoHasBody := Fulfilled true;
     videoDownload := Fulfilled tt;
     ffprobe := Fulfilled
                  {| videoStream := Some {| streamWidth := Some 1280;
                                            streamHeight := Some 720;
                                            frameRate := Some (30, 1)%Q |};
                     formatDuration := Some (125 # 10)%Q |};
     removeTemp := Fulfilled tt;
     ffmpegPercents := [50; 100]%Q;
     ffmpegEnd := Fulfilled tt;
     streamFileServer := Fulfilled (S3_PATH, Some "team_1/doc_1/optimized.mp4") |}.

Definition clipMetadata : VideoMetadata :=
  {| videoWidth := 1280; videoHeight := 720; fps := (30 / 1)%Q; duration := 13 |}.

Definition optimize (fileSize : Z) : World * outcome (option Result) :=
  optimizeVideo clip "team_1/doc_1/clip.mp4" "team_1" "doc_1" "ver_1" fileSize oneVersion.

(** A PDF to store, and the store that takes it. *)
Definition reportFile : File :=
  {| name := "report.pdf"; type := "application/pdf"; buffer := [Byte.x25] |}.

Definition takingStore : S3Env := {| newId := "doc_new"; send := Fulfilled tt |}.

(** A document whose pages cannot be counted. *)
Definition uncountable : RasterEnv :=
  {| getFile := Fulfilled (Some signedUrl);
     getPdfPageCount := Rejected {| message := "cannot open document" |};
     pageEnv := goodPage;
     revalidate := Fulfilled tt |}.

(** The conversion service at work. *)
Definition converting : ConvertEnv :=
  service (fun _ => Fulfilled (answer 200 "OK")).

(** libreoffice-convert without its binary. *)
Definition brokenLibreOffice : OfficeEnv :=
  {| officeSourceUrl := Fulfilled signedUrl;
     officeMkdir := Fulfilled tt;
     officeDownload := Fulfilled (answer 200 "OK");
     officeWriteFile := Fulfilled tt;
     libreConvert := Rejected {| message := "Could not find soffice binary" |};
     officeS3 := {| newId := "doc_new"; send := Fulfilled tt |};
     officeRasterEnv := rendering 1 |}.

(** A file with a sound track only. *)
Definition soundOnly : VideoEnv :=
  {| videoFileUrl := Fulfilled signedUrl;
     videoMkdir := Fulfilled tt;
     videoHasBody := Fulfilled true;
     videoDownload := Fulfilled tt;
     ffprobe := Fulfilled {| videoStream := None;
                             formatDuration := Some (125 # 10)%Q |};
     removeTemp := Fulfilled tt;
     ffmpegPercents := [];
     ffmpegEnd := Fulfilled tt;
     streamFileServer := Fulfilled (S3_PATH, Some "team_1/doc_1/optimized.mp4") |}.

(** An object store that holds 2500 keys of team_1 and lists them 1000
    at a time, from the start each time: it takes the first deletion
    and refuses every later one. *)
Definition teamKey (n : nat) : string := "team_1/doc_1/" +:+ pretty n.

Definition refusingLater : Store :=
  fun sent command =>
    match command with
    | ListObjectsV2 _ =>
        Fulfilled {| Contents := Some (teamKey <$> seq 0 1000); IsTruncated := true |}
    | DeleteObjects _ =>
        if (length sent <=? 1)%nat
        then Fulfilled {| Contents := None; IsTruncated := false |}
        else Rejected {| message := "SlowDown" |}
    | CopyObject _ _ => Fulfilled {| Contents := None; IsTruncated := false |}
    end.

(** Two endpoints, the second one down. *)
Definition upHook : Webhook :=
  {| pId := "wh_1"; webhookUrl := "https://up.example/hook"; secret := "s1" |}.

Definition downHook : Webhook :=
  {| pId := "wh_2"; webhookUrl := "https://down.example/hook"; secret := "s2" |}.

Definition hooks : WebhookEnv :=
  {| prepareWebhookPayload := Fulfilled "link.created";
     createWebhookSignature := fun secret payload => Fulfilled (secret +:+ payload);
     postTo := fun webhook _ _ =>
                 if String.eqb (pId webhook) "wh_2"
                 then Rejected {| message := "ECONNREFUSED" |}
                 else Fulfilled (answer 200 "OK");
     firstRejection := fun errors => default {| message := "rejected" |} (head errors) |}.

(** The upload of a third version by a user of the team. *)
Definition uploader : VersionsEnv :=
  {| sessionUser := Some "user_1";
     teamWithDocument :=
       Fulfilled (Some {| infoAdvancedExcelEnabled := false;
                          infoVersions := Some [2] |});
     newVersionId := "ver_2";
     copyFileToBucketServer := Fulfilled tt |}.

Definition videoUpload : VersionUpload :=
  {| uploadUrl := "team_1/doc_1/clip.mp4";
     uploadType := "video";
     uploadNumPages := None;
     uploadStorageType := S3_PATH;
     uploadContentType := Some "video/mp4";
     uploadFileSize := None |}.

(** A dataroom with one folder, and a member of its team. *)
Definition room : Datarooms :=
  {| teamUsers := {[("team_1", "user_1")]};
     dataroomFolders := {[("room_1", "/contracts") := "folder_1"]};
     dataroomDocuments := [] |}.

Definition placing (flags : outcome bool) : DataroomEnv :=
  {| dataroomSession := Some "user_1";
     sortItemsByIndexAndName := fun documents => documents;
     createdDataroomDocumentId := Fulfilled "placed_1";
     roomChangeNotifications := flags |}.

(** * Properties *)

(** ** Percentages and keys *)


Lemma percentages_progress stage p text j :
  percentages stage (Progress stage p text :: j) = p :: percentages stage j.
Proof.
  unfold percentages. simpl. destruct (decide (stage = stage)); [reflexivity|].
  contradiction.
Qed.

Lemma append_slash_nonempty a b :
  String.eqb (a +:+ "/" +:+ b) EmptyString = false.
Proof. destruct a; reflexivity. Qed.

(** ** One page *)

#[local] Arguments Qabs : simpl never.
#[local] Arguments Qle_bool : simpl never.
#[local] Arguments Qeq_bool : simpl never.
#[local] Arguments Qplus : simpl never.
#[local] Arguments Qopp : simpl never.
#[local] Arguments Qmult : simpl never.
#[local] Arguments Qdiv : simpl never.
#[local] Arguments Qinv : simpl never.
#[local] Arguments Qfloor : simpl never.
#[local] Arguments inject_Z : simpl never.
#[local] Arguments jsRound : simpl never.
#[local] Arguments pretty : simpl never.
#[local] Arguments String.append : simpl never.
#[local] Arguments matchDocId : simpl never.
#[local] Arguments stripExtension : simpl never.
#[local] Arguments Z.mul : simpl never.
#[local] Arguments Z.pow : simpl never.

Ltac step :=
  unfold mbind, task_bind, andThen, mret, task_ret, resolve, await, throw,
    tryCatch, record, updateProgress, findVersion, updateVersion,
    updateManyVersions, findPage, createPage, findTeam,
    findDocumentWithVersion in *;
  simpl in *.

Lemma levelled_writeVertical b v :
  levelled (writeData (orientationData b) v) = levelled v.
Proof. reflexivity. Qed.

Lemma levelled_insert_vertical (vs : gmap string DocumentVersion) id v b :
  vs !! id = Some v ->
  levelled <$> <[id := writeData (orientationData b) v]> vs = levelled <$> vs.
Proof.
  intros Hv. rewrite fmap_insert, levelled_writeVertical.
  apply insert_id. rewrite lookup_fmap, Hv. reflexivity.
Qed.

(** What a page call leaves alone, and what it does to the page table. *)
Lemma convertPdfPageToImage_frame env vid n url team w :
  let run := convertPdfPageToImage env vid n url team w in
  journal (fst run) = journal w
  /\ teams (fst run) = teams w
  /\ documents (fst run) = documents w
  /\ levelled <$> versions (fst run) = levelled <$> versions w
  /\ match snd run with
     | Fulfilled id =>
         match pageOf n vid (pages w) with
         | Some existing => pages (fst run) = pages w /\ id = p_id existing
         | None =>
             exists p, pages (fst run) = pages w ++ [p] /\ p_id p = id
                       /\ p_versionId p = vid /\ p_pageNumber p = n
         end
     | Rejected _ => pages (fst run) = pages w
     end.
Proof.
  unfold convertPdfPageToImage, putFileServer, putFileInS3Server, chooseEncoding, pageOf.
  step.
  destruct (loadPage env) as [page|]; simpl; [|by auto].
  destruct (getBounds page) as [[[ulx uly] lrx] lry].
  repeat (case_match; simpl in *; simplify_eq);
    try rewrite append_slash_nonempty in *; simplify_eq;
    repeat split; eauto using levelled_insert_vertical.
Qed.

(** A page call is fulfilled when the environment lets it through and,
    for page 1, the version is there to take the orientation. *)
Lemma convertPdfPageToImage_fulfilled env vid n url team w :
  isFulfilled (snd (convertPdfPageToImage env vid n url team w))
  = pageSucceeds env
    && (negb (n =? 1) || bool_decide (is_Some (versions w !! vid))).
Proof.
  unfold convertPdfPageToImage, putFileServer, putFileInS3Server, chooseEncoding,
    pageSucceeds.
  step.
  destruct (loadPage env) as [page|]; simpl; [|done].
  destruct (getBounds page) as [[[ulx uly] lrx] lry].
  destruct (versions w !! vid) as [v|] eqn:Hv.
  - rewrite bool_decide_true by eauto.
    repeat (case_match; simpl in *; simplify_eq);
      try rewrite append_slash_nonempty in *; simplify_eq; try done.
  - rewrite bool_decide_false by (intros [? ?]; done).
    repeat (case_match; simpl in *; simplify_eq);
      try rewrite append_slash_nonempty in *; simplify_eq; try done.
    by rewrite andb_false_r.
Qed.

(** The object a fulfilled page call has put in the bucket. *)
Lemma convertPdfPageToImage_stored env vid n url team w page pixmap id :
  loadPage env = Fulfilled page ->
  toPixmap page = Fulfilled pixmap ->
  snd (convertPdfPageToImage env vid n url team w) = Fulfilled id ->
  exists key,
    bucket (fst (convertPdfPageToImage env vid n url team w))
    = <[key := {| Body := fst (chooseEncoding (asPNG pixmap) (asJPEG pixmap));
                  ContentType := "image/" +:+
                    snd (chooseEncoding (asPNG pixmap) (asJPEG pixmap)) |}]>
        (bucket w).
Proof.
  unfold convertPdfPageToImage, putFileServer, putFileInS3Server, chooseEncoding.
  step. intros -> . simpl.
  destruct (getBounds page) as [[[ulx uly] lrx] lry]. intros -> .
  repeat (case_match; simpl in *; simplify_eq);
    try rewrite append_slash_nonempty in *; simplify_eq; intros; simplify_eq;
    eexists; reflexivity.
Qed.

Lemma find_app_none {A} (f : A -> bool) l l' :
  List.find f l = None -> List.find f (l ++ l') = List.find f l'.
Proof.
  induction l as [|a l IH]; simpl; [done|].
  destruct (f a); [done|]. exact IH.
Qed.

Lemma find_none_filter {A} (f : A -> bool) l :
  List.find f l = None -> List.filter f l = [].
Proof.
  induction l as [|a l IH]; simpl; [done|].
  destruct (f a); [done|]. exact IH.
Qed.

(** ** Encoding selection and idempotence of a page call *)

Lemma chooseEncoding_smaller png jpeg :
  chooseEncoding png jpeg
  = if (length png <? length jpeg)%nat then (png, "png") else (jpeg, "jpeg").
Proof.
  unfold chooseEncoding.
  destruct (Nat.ltb_spec (length png) (length jpeg));
    destruct (Z.ltb_spec (Z.of_nat (length png)) (Z.of_nat (length jpeg)));
    (reflexivity || lia).
Qed.

(** C1, as the code has it: the bytes a fulfilled page call has put in
    the bucket are the PNG encoding when it is strictly shorter than
    the JPEG encoding, and the JPEG encoding otherwise; their length is
    the smaller of the two lengths, and on equal lengths it is the
    JPEG (lossy) encoding that is stored. *)
Theorem encoding_selection_stores_smaller_jpeg_on_tie
    env vid n url team w page pixmap id :
  loadPage env = Fulfilled page ->
  toPixmap page = Fulfilled pixmap ->
  snd (convertPdfPageToImage env vid n url team w) = Fulfilled id ->
  exists key stored,
    bucket (fst (convertPdfPageToImage env vid n url team w)) !! key = Some stored
    /\ Body stored = (if (length (asPNG pixmap) <? length (asJPEG pixmap))%nat
                      then asPNG pixmap else asJPEG pixmap)
    /\ ContentType stored = (if (length (asPNG pixmap) <? length (asJPEG pixmap))%nat
                             then "image/png" else "image/jpeg")
    /\ length (Body stored)
       = Nat.min (length (asPNG pixmap)) (length (asJPEG pixmap))
    /\ (length (asPNG pixmap) = length (asJPEG pixmap) ->
        Body stored = asJPEG pixmap).
Proof.
  intros Hpage Hpix Hok.
  destruct (convertPdfPageToImage_stored env vid n url team w page pixmap id
              Hpage Hpix Hok) as [key Hbucket].
  exists key. eexists. rewrite Hbucket, lookup_insert_eq.
  split; [reflexivity|]. simpl.
  rewrite chooseEncoding_smaller.
  destruct (Nat.ltb_spec (length (asPNG pixmap)) (length (asJPEG pixmap))); simpl.
  - repeat split; try lia. 
  - repeat split; try lia. 
Qed.

(** C6: a page call for a pair that already has a row leaves the page
    table as it is and returns the id of that row; and of two calls in
    a row for the same pair the second returns the id of the first and
    adds nothing, so that a pair with no row before has exactly one
    row after both. *)
Theorem page_rasterization_idempotent env1 env2 vid n url team w :
  let first := convertPdfPageToImage env1 vid n url team w in
  let again := convertPdfPageToImage env2 vid n url team (fst first) in
  (forall existing,
      pageOf n vid (pages w) = Some existing ->
      pages (fst first) = pages w
      /\ forall id, snd first = Fulfilled id -> id = p_id existing)
  /\ (forall id1,
        snd first = Fulfilled id1 ->
        pages (fst again) = pages (fst first)
        /\ (forall id2, snd again = Fulfilled id2 -> id2 = id1)
        /\ (pageOf n vid (pages w) = None ->
            exists p, rowsOf n vid (pages (fst again)) = [p]
                      /\ pages (fst again) = pages w ++ [p])).
Proof.
  intros first again.
  pose proof (convertPdfPageToImage_frame env1 vid n url team w)
    as (_ & _ & _ & _ & H1).
  pose proof (convertPdfPageToImage_frame env2 vid n url team (fst first))
    as (_ & _ & _ & _ & H2).
  fold first in H1. fold first again in H2.
  split.
  - intros existing Hex. rewrite Hex in H1.
    destruct (snd first) as [id|err].
    + destruct H1 as [Hp Hid]. split; [exact Hp|]. intros ? [= <-]. exact Hid.
    + split; [exact H1|]. intros ? [=].
  - intros id1 Hfirst. rewrite Hfirst in H1.
    assert (exists p, pageOf n vid (pages (fst first)) = Some p /\ p_id p = id1
                      /\ (pageOf n vid (pages w) = None ->
                          pages (fst first) = pages w ++ [p]
                          /\ rowsOf n vid (pages (fst first)) = [p]))
      as (p & Hfound & Hid & Hnew).
    { destruct (pageOf n vid (pages w)) as [existing|] eqn:Hex.
      - destruct H1 as [Hp ->]. exists existing. rewrite Hp.
        split; [exact Hex|]. split; [reflexivity|]. intros [=].
      - destruct H1 as (p & Hp & Hid & Hv & Hn). exists p. rewrite Hp.
        assert ((p_pageNumber p =? n) && String.eqb (p_versionId p) vid = true)
          as Hmatch.
        { rewrite Hn, Hv, Z.eqb_refl, String.eqb_refl. reflexivity. }
        split; [|split; [exact Hid|intros _; split; [reflexivity|]]].
        + unfold pageOf in *. rewrite find_app_none by exact Hex.
          simpl. rewrite Hmatch. reflexivity.
        + unfold rowsOf, pageOf in *. rewrite List.filter_app.
          rewrite find_none_filter by exact Hex. simpl. rewrite Hmatch.
          reflexivity. }
    rewrite Hfound in H2.
    destruct (snd again) as [id2|err].
    + destruct H2 as [Hp Hid2]. split; [exact Hp|]. split.
      * intros ? [= <-]. congruence.
      * intros Hnone. destruct (Hnew Hnone) as [Happ Hrows].
        exists p. rewrite Hp. split; assumption.
    + split; [exact H2|]. split; [intros ? [=]|].
      intros Hnone. destruct (Hnew Hnone) as [Happ Hrows].
      exists p. rewrite H2. split; assumption.
Qed.

(** ** The page loop *)



Lemma emits_quiet {A} allowed (t : task A) :
  (forall w, journal (fst (t w)) = journal w) -> emits allowed t.
Proof. intros H w. exists []. rewrite app_nil_r. auto. Qed.

Lemma emits_record allowed e : allowed e = true -> emits allowed (record e).
Proof. intros He w. exists [e]. simpl. rewrite He. auto. Qed.

Lemma emits_bind {A B} allowed (t : task A) (k : A -> task B) :
  emits allowed t -> (forall a, emits allowed (k a)) -> emits allowed (t ≫= k).
Proof.
  intros Ht Hk w. unfold mbind, task_bind, andThen.
  destruct (Ht w) as (evs1 & Hj1 & Ha1).
  destruct (t w) as [w1 [a|err]]; simpl in *.
  - destruct (Hk a w1) as (evs2 & Hj2 & Ha2).
    exists (evs1 ++ evs2).
    rewrite Hj2, Hj1, app_assoc, forallb_app, Ha1, Ha2. auto.
  - exists evs1. auto.
Qed.

Lemma emits_tryCatch {A} allowed (t : task A) :
  emits allowed t -> emits allowed (tryCatch t).
Proof.
  intros Ht w. unfold tryCatch. destruct (Ht w) as (evs & Hj & Ha).
  destruct (t w) as [w1 r]. exists evs. auto.
Qed.

Lemma emits_mono {A} (allowed allowed' : Event -> bool) (t : task A) :
  (forall e, allowed e = true -> allowed' e = true) ->
  emits allowed t -> emits allowed' t.
Proof.
  intros Hsub Ht w. destruct (Ht w) as (evs & Hj & Ha).
  exists evs. split; [exact Hj|].
  rewrite forallb_forall in *. auto.
Qed.

Lemma emits_page_call allowed env vid n url team :
  emits allowed (convertPdfPageToImage env vid n url team).
Proof.
  apply emits_quiet. intros w.
  apply (convertPdfPageToImage_frame env vid n url team w).
Qed.

(** Stepping through a task for [emits]. *)
Ltac emits_step :=
  lazymatch goal with
  | |- emits _ (mbind _ _) => apply emits_bind; [|intros ?]
  | |- emits _ (tryCatch _) => apply emits_tryCatch
  | |- emits _ (convertPdfPageToImage _ _ _ _ _) => apply emits_page_call
  | |- emits _ (record _) => apply emits_record; reflexivity
  | |- emits _ (updateProgress _ _ _) =>
      unfold updateProgress; apply emits_record; reflexivity
  | |- emits _ (mret _) => apply emits_quiet; reflexivity
  | |- emits _ (throw _) => apply emits_quiet; reflexivity
  | |- emits _ (await _) => apply emits_quiet; reflexivity
  | |- emits _ (findVersion _) => apply emits_quiet; reflexivity
  | |- emits _ (findTeam _) => apply emits_quiet; reflexivity
  | |- emits _ (findDocumentWithVersion _ _) => apply emits_quiet; reflexivity
  | |- emits _ (updateManyVersions _ _) => apply emits_quiet; reflexivity
  | |- emits _ (updateVersion _ _) =>
      apply emits_quiet; intros ?; unfold updateVersion; case_match; reflexivity
  end.



Lemma extends_refl w : extends w w.
Proof. repeat split. exists []. rewrite app_nil_r. reflexivity. Qed.

Lemma extends_trans w1 w2 w3 : extends w1 w2 -> extends w2 w3 -> extends w1 w3.
Proof.
  intros (Ht & Hd & [m Hm]) (Ht' & Hd' & [m' Hm']).
  repeat split; try congruence.
  exists (m ++ m'). rewrite Hm', Hm, app_assoc. reflexivity.
Qed.

Lemma extends_log w j : extends w (withJournal j w).
Proof. exact (extends_refl w). Qed.

Lemma extends_page_call env vid n url team w :
  extends w (fst (convertPdfPageToImage env vid n url team w)).
Proof.
  pose proof (convertPdfPageToImage_frame env vid n url team w)
    as (Hj & Ht & Hd & _ & Hp).
  repeat split; try assumption.
  destruct (snd (convertPdfPageToImage env vid n url team w)).
  - destruct (pageOf n vid (pages w)).
    + exists []. rewrite app_nil_r. tauto.
    + destruct Hp as (p & Hp & _). exists [p]. exact Hp.
  - exists []. rewrite app_nil_r. exact Hp.
Qed.

#[local] Arguments convertPdfPageToImage : simpl never.
#[local] Arguments pagePercentage : simpl never.

(** One turn of the loop. *)
Lemma pageLoop_turn env vid url team numPages fuel i vars w :
  i < numPages ->
  conversionWithoutError vars = true ->
  pageLoop env vid url team numPages (S fuel) i vars w
  = let call := convertPdfPageToImage (pageEnv env (i + 1)) vid (i + 1) url team
                  (withJournal (journal w ++ [ConvertPage (i + 1)]) w) in
    pageLoop env vid url team numPages fuel (i + 1)
      {| currentPage := i + 1; conversionWithoutError := isFulfilled (snd call) |}
      (withJournal
         (journal (fst call)
            ++ [Progress PdfToImage (pagePercentage (i + 1) numPages)
                  (pretty (i + 1) +:+ " / " +:+ pretty numPages
                     +:+ " pages processed")])
         (fst call)).
Proof.
  intros Hi Hok. simpl.
  destruct (Z.ltb_spec i numPages); [|lia]. rewrite Hok. simpl. step.
  destruct (convertPdfPageToImage _ _ _ _ _ _) as [w1 r1]. reflexivity.
Qed.

(** The loop is over when the counter has reached the count, or after
    a page that failed. *)
Lemma pageLoop_over env vid url team numPages fuel i vars w :
  numPages <= i \/ conversionWithoutError vars = false ->
  pageLoop env vid url team numPages fuel i vars w = (w, Fulfilled vars).
Proof.
  intros Hover. destruct fuel as [|fuel]; [reflexivity|]. simpl.
  destruct (Z.ltb_spec i numPages); [|reflexivity]. simpl.
  destruct Hover as [?| ->]; [lia|reflexivity].
Qed.

(** The fuel of the loop is the page count: it never runs out before
    the counter reaches the count, and more fuel changes nothing. *)
Lemma pageLoop_fuel env vid url team numPages fuel :
  forall i vars w,
    (Z.to_nat (numPages - i) <= fuel)%nat ->
    pageLoop env vid url team numPages fuel i vars w
    = pageLoop env vid url team numPages (Z.to_nat (numPages - i)) i vars w.
Proof.
  induction fuel as [|fuel IH]; intros i vars w Hfuel.
  - replace (Z.to_nat (numPages - i)) with 0%nat by lia. reflexivity.
  - destruct (Z.ltb_spec i numPages) as [Hi|Hi];
      [destruct (conversionWithoutError vars) eqn:Hok|].
    + replace (Z.to_nat (numPages - i))
        with (S (Z.to_nat (numPages - (i + 1)))) by lia.
      rewrite !pageLoop_turn by assumption. cbv zeta.
      apply IH. lia.
    + rewrite !pageLoop_over by auto. reflexivity.
    + rewrite !pageLoop_over by auto. reflexivity.
Qed.

Lemma pageLoop_frame env vid url team numPages fuel :
  forall i vars w,
    let run := pageLoop env vid url team numPages fuel i vars w in
    (exists vars', snd run = Fulfilled vars')
    /\ extends w (fst run)
    /\ levelled <$> versions (fst run) = levelled <$> versions w.
Proof.
  induction fuel as [|fuel IH]; intros i vars w.
  - split; [simpl; eauto|]. split; [apply extends_refl|reflexivity].
  - destruct (Z.ltb_spec i numPages) as [Hi|Hi];
      [destruct (conversionWithoutError vars) eqn:Hok|].
    + rewrite pageLoop_turn by assumption. cbv zeta.
      set (w0 := withJournal (journal w ++ [ConvertPage (i + 1)]) w).
      set (call := convertPdfPageToImage _ _ _ _ _ w0).
      set (w1 := withJournal _ (fst call)).
      destruct (IH (i + 1) {| currentPage := i + 1;
                              conversionWithoutError := isFulfilled (snd call) |} w1)
        as (Hres & Hext & Hlev).
      split; [exact Hres|]. split.
      * apply (extends_trans _ w1); [|exact Hext].
        apply (extends_trans _ w0); [apply extends_log|].
        apply (extends_trans _ (fst call)); [apply extends_page_call|].
        apply extends_log.
      * rewrite Hlev. subst w1. simpl.
        pose proof (convertPdfPageToImage_frame (pageEnv env (i + 1)) vid (i + 1)
                      url team w0) as (_ & _ & _ & Hv & _).
        exact Hv.
    + rewrite pageLoop_over by auto.
      split; [simpl; eauto|]. split; [apply extends_refl|reflexivity].
    + rewrite pageLoop_over by auto.
      split; [simpl; eauto|]. split; [apply extends_refl|reflexivity].
Qed.


(** ** The versions after a run *)

Lemma levelled_lookup (vs vs' : gmap string DocumentVersion) id v' :
  levelled <$> vs' = levelled <$> vs ->
  vs' !! id = Some v' ->
  exists v, vs !! id = Some v /\ levelled v = levelled v'.
Proof.
  intros Hsame Hv'.
  assert ((levelled <$> vs') !! id = (levelled <$> vs) !! id) as Hid
    by (rewrite Hsame; reflexivity).
  rewrite !lookup_fmap, Hv' in Hid. simpl in Hid.
  destruct (vs !! id) as [v|]; simpl in Hid; [|discriminate].
  exists v. split; [reflexivity|]. congruence.
Qed.

Lemma levelled_columns v v' :
  levelled v = levelled v' ->
  v_documentId v = v_documentId v'
  /\ v_versionNumber v = v_versionNumber v'
  /\ v_isPrimary v = v_isPrimary v'
  /\ v_numPages v = v_numPages v'
  /\ v_hasPages v = v_hasPages v'.
Proof.
  intros H.
  pose proof (f_equal v_documentId H). pose proof (f_equal v_versionNumber H).
  pose proof (f_equal v_isPrimary H). pose proof (f_equal v_numPages H).
  pose proof (f_equal v_hasPages H). auto.
Qed.

Lemma enablePages_versions env payload numPages w res :
  snd (enablePages env payload numPages w) = Fulfilled (Some res) ->
  exists v1,
    versions w !! documentVersionId payload = Some v1
    /\ versions (fst (enablePages env payload numPages w))
       = demoted payload
           (<[documentVersionId payload := writeData (enablePagesData numPages) v1]>
              (versions w)).
Proof.
  unfold enablePages, demoted. step.
  destruct (versions w !! documentVersionId payload) as [v1|]; simpl; [|discriminate].
  intros Hres. exists v1. split; [reflexivity|].
  destruct (versionNumber payload) as [n|]; simpl in *.
  - destruct (n =? 0); simpl in *;
      destruct (revalidate env); simpl in *; try discriminate; reflexivity.
  - destruct (revalidate env); simpl in *; try discriminate; reflexivity.
Qed.

Lemma convertPages_versions env payload url numPages w res :
  snd (convertPages env payload url numPages w) = Fulfilled (Some res) ->
  exists vs1 v1,
    levelled <$> vs1 = levelled <$> versions w
    /\ vs1 !! documentVersionId payload = Some v1
    /\ versions (fst (convertPages env payload url numPages w))
       = demoted payload
           (<[documentVersionId payload := writeData (enablePagesData numPages) v1]>
              vs1).
Proof.
  unfold convertPages. step.
  set (w0 := withJournal _ w).
  pose proof (pageLoop_frame env (documentVersionId payload) url (teamId payload)
                numPages (Z.to_nat numPages) 0
                {| currentPage := 0; conversionWithoutError := true |} w0)
    as ([vars Hvars] & _ & Hlev).
  destruct (pageLoop _ _ _ _ _ _ _ _ w0) as [w1 r1]. simpl in *. subst r1.
  destruct (conversionWithoutError vars); simpl; [|discriminate].
  intros Hres.
  destruct (enablePages_versions env payload numPages w1 res Hres) as (v1 & Hv1 & Hfin).
  exists (versions w1), v1. auto.
Qed.

(** ** The journal of a rasterization run *)

Lemma emits_pageLoop env vid url team numPages fuel :
  forall i vars, emits pageEvent (pageLoop env vid url team numPages fuel i vars).
Proof.
  induction fuel as [|fuel IH]; intros i vars; simpl.
  - apply emits_quiet. reflexivity.
  - destruct (i <? numPages); simpl; [|apply emits_quiet; reflexivity].
    destruct (conversionWithoutError vars); simpl; [|apply emits_quiet; reflexivity].
    repeat emits_step. apply IH.
Qed.

Lemma emits_enablePages env payload numPages :
  emits pageEvent (enablePages env payload numPages).
Proof.
  unfold enablePages. repeat emits_step.
  destruct (versionNumber payload) as [n|]; [destruct (n =? 0)|];
    repeat emits_step.
Qed.

Lemma emits_convertPages env payload url numPages :
  emits pageEvent (convertPages env payload url numPages).
Proof.
  unfold convertPages. repeat emits_step; [apply emits_pageLoop|].
  destruct (negb _); repeat emits_step. apply emits_enablePages.
Qed.

Lemma pageEvent_rasterEvent e : pageEvent e = true -> rasterEvent e = true.
Proof. destruct e as [[]| | | | |]; simpl; auto. Qed.

Lemma emits_countThenConvert env payload url :
  emits rasterEvent (countThenConvert env payload url).
Proof.
  unfold countThenConvert.
  apply emits_bind; [emits_step|intros _].
  apply emits_bind; [repeat emits_step|intros [n|err]]; [|emits_step].
  destruct (n <? 1); repeat emits_step.
  apply (emits_mono pageEvent); [apply pageEvent_rasterEvent|].
  apply emits_convertPages.
Qed.

Lemma emits_convertPdfToImage env payload :
  emits rasterEvent (convertPdfToImage env payload).
Proof.
  unfold convertPdfToImage.
  apply emits_bind; [emits_step|intros _].
  apply emits_bind; [emits_step|intros [v|]]; [|repeat emits_step].
  apply emits_bind; [emits_step|intros _].
  apply emits_bind; [emits_step|intros [url|]]; [|repeat emits_step].
  destruct (String.eqb url EmptyString); [repeat emits_step|].
  pose proof (emits_countThenConvert env payload url).
  pose proof (emits_mono pageEvent rasterEvent _ pageEvent_rasterEvent
                (emits_convertPages env payload url (default 0 (v_numPages v)))).
  destruct (v_numPages v) as [n|]; [destruct ((n =? 0) || (n =? 1))|]; assumption.
Qed.

#[local] Arguments convertPages : simpl never.
#[local] Arguments enablePages : simpl never.
#[local] Arguments pageLoop : simpl never.

Lemma countThenConvert_counted env payload url w n :
  getPdfPageCount env = Fulfilled n ->
  1 <= n ->
  countThenConvert env payload url w
  = convertPages env payload url n (withJournal (journal w ++ [CountPages url]) w).
Proof.
  intros Hcount Hn. unfold countThenConvert. step. rewrite Hcount. simpl.
  destruct (Z.ltb_spec n 1); [lia|]. reflexivity.
Qed.


(** Unfolding a run whose version and signed url are there. *)
Lemma convertPdfToImage_retrieved env payload w v url :
  versions w !! documentVersionId payload = Some v ->
  getFile env = Fulfilled (Some url) ->
  url <> EmptyString ->
  convertPdfToImage env payload w
  = let w0 := withJournal
                (journal w ++ [Progress PdfToImage 0 "Initializing...";
                               Progress PdfToImage 10 "Retrieving file..."]) w in
    match v_numPages v with
    | None => countThenConvert env payload url w0
    | Some numPages =>
        if (numPages =? 0) || (numPages =? 1)
        then countThenConvert env payload url w0
        else convertPages env payload url numPages w0
    end.
Proof.
  intros Hv Hfile Hurl. unfold convertPdfToImage. step.
  rewrite Hv, Hfile. simpl.
  destruct (String.eqb_spec url EmptyString) as [|_]; [contradiction|].
  rewrite <- app_assoc. simpl.
  destruct (v_numPages v) as [n|]; [destruct ((n =? 0) || (n =? 1))|]; reflexivity.
Qed.



(** ** The versions after an upload *)

(** After the upload handler has created a version, that version is
    primary and it is the only version of its document that is. *)
Lemma uploadVersion_primary env d body w id :
  snd (uploadVersion env d body w) = Fulfilled id ->
  let after := versions (fst (uploadVersion env d body w)) in
  id = createdVersionId env
  /\ forall id' v', after !! id' = Some v' -> v_documentId v' = d ->
                    (v_isPrimary v' = true <-> id' = createdVersionId env).
Proof.
  unfold uploadVersion, createVersion, demoteOthers. step.
  destruct (versions w !! createdVersionId env) as [taken|] eqn:Hfree; simpl;
    [discriminate|].
  intros [= <-]. split; [reflexivity|].
  match goal with
  | |- context [<[_ := ?row]> (versions w)] => set (created := row)
  end.
  set (others := fun (id' : string) (v : DocumentVersion) =>
                   if String.eqb (v_documentId v) d
                      && negb (String.eqb id' (createdVersionId env))
                   then writeData notPrimaryData v else v).
  assert (forall v, others (createdVersionId env) v = v) as Hself.
  { intros v. unfold others. rewrite String.eqb_refl, andb_false_r. reflexivity. }
  assert (forall id' v, v_documentId (others id' v) = v_documentId v) as Hdoc.
  { intros id' v. unfold others. destruct (_ && _); reflexivity. }
  assert (forall id' v, id' <> createdVersionId env -> v_documentId v = d ->
                        v_isPrimary (others id' v) = false) as Hdemoted.
  { intros id' v Hne Hv. unfold others.
    rewrite Hv, String.eqb_refl. apply String.eqb_neq in Hne. rewrite Hne.
    reflexivity. }
  intros id' v' Hlook Hv'.
  rewrite !map_lookup_imap in Hlook.
  destruct (decide (id' = createdVersionId env)) as [->|Hne].
  - rewrite lookup_insert_eq in Hlook.
    change (Some (others (createdVersionId env)
                    (others (createdVersionId env) created)) = Some v') in Hlook.
    rewrite !Hself in Hlook. injection Hlook as <-. simpl. tauto.
  - rewrite lookup_insert_ne in Hlook by congruence.
    destruct (versions w !! id') as [u|]; [|discriminate].
    change (Some (others id' (others id' u)) = Some v') in Hlook.
    injection Hlook as <-. rewrite Hdoc in Hv'.
    rewrite (Hdemoted id' (others id' u) Hne Hv').
    split; [discriminate|contradiction].
Qed.

(** ** The page count of a run *)




(** ** A run that stops at a failing page *)

Lemma find_app_some {A} (f : A -> bool) l l' x :
  List.find f l = Some x -> List.find f (l ++ l') = Some x.
Proof.
  induction l as [|a l IH]; simpl; [discriminate|].
  destruct (f a); [done|]. exact IH.
Qed.

(** The rows a page call adds are rows of its page, and after a
    fulfilled call the page has a row. *)
Lemma convertPdfPageToImage_rows env vid n url team w :
  let call := convertPdfPageToImage env vid n url team w in
  (exists more,
      pages (fst call) = pages w ++ more
      /\ Forall (fun p => p_versionId p = vid /\ p_pageNumber p = n) more)
  /\ (isFulfilled (snd call) = true ->
      exists p, pageOf n vid (pages (fst call)) = Some p).
Proof.
  intros call.
  pose proof (convertPdfPageToImage_frame env vid n url team w)
    as (_ & _ & _ & _ & Hp).
  fold call in Hp.
  destruct (snd call) as [id|err]; simpl.
  - destruct (pageOf n vid (pages w)) as [existing|] eqn:Hex.
    + destruct Hp as [Hp _]. rewrite Hp. split; [|eauto].
      exists []. rewrite app_nil_r. auto.
    + destruct Hp as (p & Hp & _ & Hv & Hn). rewrite Hp. split.
      * exists [p]. auto.
      * intros _. exists p. unfold pageOf in *.
        rewrite find_app_none by exact Hex. simpl.
        rewrite Hn, Hv, Z.eqb_refl, String.eqb_refl. reflexivity.
  - split; [|discriminate]. exists []. rewrite app_nil_r. auto.
Qed.

Lemma convertPages_abort_at_three env payload url w v :
  versions w !! documentVersionId payload = Some v ->
  pageSucceeds (pageEnv env 1) = true ->
  pageSucceeds (pageEnv env 2) = true ->
  pageSucceeds (pageEnv env 3) = false ->
  let run := convertPages env payload url 5 w in
  snd run = Fulfilled None
  /\ journal (fst run)
     = journal w ++ [Progress PdfToImage 20 "Converting document...";
                     ConvertPage 1; Progress PdfToImage 20 "1 / 5 pages processed";
                     ConvertPage 2; Progress PdfToImage 40 "2 / 5 pages processed";
                     ConvertPage 3; Progress PdfToImage 60 "3 / 5 pages processed";
                     Progress PdfToImage 60 "Error processing page 3 of 5"]
  /\ (exists p1 p2,
         pageOf 1 (documentVersionId payload) (pages (fst run)) = Some p1
         /\ pageOf 2 (documentVersionId payload) (pages (fst run)) = Some p2)
  /\ (exists more,
         pages (fst run) = pages w ++ more
         /\ Forall (fun p => p_versionId p = documentVersionId payload
                             /\ (p_pageNumber p = 1 \/ p_pageNumber p = 2)) more)
  /\ levelled <$> versions (fst run) = levelled <$> versions w.
Proof.
  intros Hv H1 H2 H3. unfold convertPages. step.
  change (Z.to_nat 5) with 5%nat.
  set (vid := documentVersionId payload) in *. set (team := teamId payload).
  set (w0 := withJournal _ w).
  (* page 1 *)
  rewrite pageLoop_turn by (simpl; done). cbv zeta.
  change (0 + 1) with 1.
  set (w0' := withJournal (journal w0 ++ [ConvertPage 1]) w0).
  set (call1 := convertPdfPageToImage (pageEnv env 1) vid 1 url team w0').
  pose proof (convertPdfPageToImage_fulfilled (pageEnv env 1) vid 1 url team w0') as F1.
  fold call1 in F1. rewrite H1 in F1. simpl in F1.
  rewrite bool_decide_true in F1 by (subst w0' w0; simpl; eauto).
  pose proof (convertPdfPageToImage_frame (pageEnv env 1) vid 1 url team w0')
    as (J1 & _ & _ & L1 & _).
  pose proof (convertPdfPageToImage_rows (pageEnv env 1) vid 1 url team w0')
    as ([more1 [P1 M1]] & R1).
  fold call1 in J1, L1, P1, R1. destruct (R1 F1) as [p1 Hp1]. rewrite F1.
  set (w1 := withJournal _ (fst call1)).
  (* page 2 *)
  rewrite pageLoop_turn by (simpl; done). cbv zeta.
  change (1 + 1) with 2.
  set (w1' := withJournal (journal w1 ++ [ConvertPage 2]) w1).
  set (call2 := convertPdfPageToImage (pageEnv env 2) vid 2 url team w1').
  pose proof (convertPdfPageToImage_fulfilled (pageEnv env 2) vid 2 url team w1') as F2.
  fold call2 in F2. rewrite H2 in F2. simpl in F2.
  pose proof (convertPdfPageToImage_frame (pageEnv env 2) vid 2 url team w1')
    as (J2 & _ & _ & L2 & _).
  pose proof (convertPdfPageToImage_rows (pageEnv env 2) vid 2 url team w1')
    as ([more2 [P2 M2]] & R2).
  fold call2 in J2, L2, P2, R2. destruct (R2 F2) as [p2 Hp2]. rewrite F2.
  set (w2 := withJournal _ (fst call2)).
  (* page 3 *)
  rewrite pageLoop_turn by (simpl; done). cbv zeta.
  change (2 + 1) with 3.
  set (w2' := withJournal (journal w2 ++ [ConvertPage 3]) w2).
  set (call3 := convertPdfPageToImage (pageEnv env 3) vid 3 url team w2').
  pose proof (convertPdfPageToImage_fulfilled (pageEnv env 3) vid 3 url team w2') as F3.
  fold call3 in F3. rewrite H3 in F3. simpl in F3.
  pose proof (convertPdfPageToImage_frame (pageEnv env 3) vid 3 url team w2')
    as (J3 & _ & _ & L3 & _).
  pose proof (convertPdfPageToImage_rows (pageEnv env 3) vid 3 url team w2')
    as ([more3 [P3 M3]] & _).
  fold call3 in J3, L3, P3. rewrite F3.
  assert (more3 = []) as ->.
  { pose proof (convertPdfPageToImage_frame (pageEnv env 3) vid 3 url team w2')
      as (_ & _ & _ & _ & Hp).
    fold call3 in Hp. destruct (snd call3); [discriminate|].
    rewrite Hp in P3. rewrite <- (app_nil_r (pages w2')) in P3 at 1.
    apply app_inv_head in P3. congruence. }
  rewrite app_nil_r in P3.
  rewrite pageLoop_over by (right; reflexivity). simpl.
  split; [reflexivity|].
  assert (pages (fst call1) = pages w ++ more1) as P1' by exact P1.
  assert (pages (fst call2) = pages w ++ more1 ++ more2) as P2'.
  { rewrite P2. subst w1' w1. simpl. rewrite P1'. rewrite <- app_assoc. reflexivity. }
  assert (pages (fst call3) = pages w ++ more1 ++ more2) as P3'.
  { rewrite P3. subst w2' w2. simpl. exact P2'. }
  split; [|split; [|split]].
  - rewrite J3. subst w2' w2. simpl. rewrite J2. subst w1' w1. simpl.
    rewrite J1. subst w0' w0. simpl. rewrite <- !app_assoc. reflexivity.
  - exists p1, p2. rewrite P3. subst w2' w2. simpl. split; [|exact Hp2].
    rewrite P2. subst w1' w1. simpl. apply find_app_some. exact Hp1.
  - exists (more1 ++ more2). split; [exact P3'|].
    apply Forall_app. split; eapply Forall_impl; try eassumption;
      simpl; intros p [? ?]; auto.
  - rewrite L3. subst w2' w2. simpl. rewrite L2. subst w1' w1. simpl.
    rewrite L1. reflexivity.
Qed.

(** C2, as the code has it: when the third page of a document of five
    pages fails, the run returns without a result; the pages handed to
    the page conversion are 1, 2 and 3 and no other; pages 1 and 2
    have their rows and the only rows added are theirs; the page count
    and [hasPages] of the version are what they were; and the last
    percentage reported is 60. *)
Theorem sequential_abort_reports_sixty env payload w v url :
  versions w !! documentVersionId payload = Some v ->
  getFile env = Fulfilled (Some url) ->
  url <> EmptyString ->
  (v_numPages v = Some 5
   \/ ((v_numPages v = None \/ v_numPages v = Some 0 \/ v_numPages v = Some 1)
       /\ getPdfPageCount env = Fulfilled 5)) ->
  pageSucceeds (pageEnv env 1) = true ->
  pageSucceeds (pageEnv env 2) = true ->
  pageSucceeds (pageEnv env 3) = false ->
  let run := convertPdfToImage env payload w in
  snd run = Fulfilled None
  /\ (exists evs,
         journal (fst run) = journal w ++ evs
         /\ pagesTried evs = [1; 2; 3]
         /\ last (percentages PdfToImage evs) = Some 60)
  /\ (exists p1 p2,
         pageOf 1 (documentVersionId payload) (pages (fst run)) = Some p1
         /\ pageOf 2 (documentVersionId payload) (pages (fst run)) = Some p2)
  /\ (exists more,
         pages (fst run) = pages w ++ more
         /\ Forall (fun p => p_versionId p = documentVersionId payload
                             /\ (p_pageNumber p = 1 \/ p_pageNumber p = 2)) more)
  /\ (exists v',
         versions (fst run) !! documentVersionId payload = Some v'
         /\ v_numPages v' = v_numPages v
         /\ v_hasPages v' = v_hasPages v).
Proof.
  intros Hv Hfile Hurl Hcount H1 H2 H3 run.
  pose proof (convertPdfToImage_retrieved env payload w v url Hv Hfile Hurl) as Hrun.
  fold run in Hrun. cbv zeta in Hrun.
  set (retrieved := withJournal _ w) in Hrun.
  assert (exists pre,
             run = convertPages env payload url 5
                     (withJournal (journal w ++ pre) w)
             /\ pagesTried pre = [] /\ forallb rasterEvent pre = true)
    as (pre & Hpages & Hpre & _).
  { destruct Hcount as [Hfive | [Hprobe Hcounted]].
    - eexists. rewrite Hrun, Hfive. simpl. split; [reflexivity|]. split; reflexivity.
    - exists [Progress PdfToImage 0 "Initializing...";
              Progress PdfToImage 10 "Retrieving file..."; CountPages url].
      split; [|split; reflexivity].
      assert (run = countThenConvert env payload url retrieved) as ->.
      { rewrite Hrun. destruct Hprobe as [-> | [-> | ->]]; reflexivity. }
      rewrite (countThenConvert_counted env payload url retrieved 5 Hcounted)
        by lia.
      subst retrieved. simpl. rewrite <- app_assoc. reflexivity. }
  set (w0 := withJournal (journal w ++ pre) w) in Hpages.
  destruct (convertPages_abort_at_three env payload url w0 v Hv H1 H2 H3)
    as (Hres & Hj & Hrows & Hmore & Hlev).
  rewrite <- Hpages in Hres, Hj, Hrows, Hmore, Hlev.
  split; [exact Hres|]. split; [|split; [exact Hrows|split; [exact Hmore|]]].
  - eexists. split; [rewrite Hj; subst w0; simpl; rewrite <- app_assoc; reflexivity|].
    unfold pagesTried, percentages in *. rewrite !omap_app, Hpre.
    split; [reflexivity|].
    rewrite last_app. reflexivity.
  - destruct (versions (fst run) !! documentVersionId payload) as [v'|] eqn:Hv'.
    + destruct (levelled_lookup _ _ _ _ Hlev Hv') as (v0 & Hv0 & Hsame).
      subst w0. simpl in Hv0. rewrite Hv in Hv0. injection Hv0 as <-.
      destruct (levelled_columns _ _ Hsame) as (_ & _ & _ & Hn & Hh).
      exists v'. auto.
    + exfalso.
      assert ((levelled <$> versions (fst run)) !! documentVersionId payload
              = (levelled <$> versions w0) !! documentVersionId payload) as Hid
        by (rewrite Hlev; reflexivity).
      rewrite !lookup_fmap, Hv' in Hid. subst w0. simpl in Hid.
      rewrite Hv in Hid. discriminate.
Qed.

(** ** The retry loop *)

#[local] Arguments backoff : simpl never.




(** Three units of fuel are all the loop can use: with more it does
    the same. *)
Lemma submitLoop_fuel fetchAt fuel :
  forall request retryCount response w,
    (Z.to_nat (maxRetries - retryCount) <= fuel)%nat ->
    submitLoop fetchAt fuel request retryCount response w
    = submitLoop fetchAt (Z.to_nat (maxRetries - retryCount)) request retryCount
        response w.
Proof.
  induction fuel as [|fuel IH]; intros request retryCount response w Hfuel.
  - replace (Z.to_nat (maxRetries - retryCount)) with 0%nat by lia. reflexivity.
  - destruct (Z.ltb_spec retryCount maxRetries) as [Hlt|Hge].
    + replace (Z.to_nat (maxRetries - retryCount))
        with (S (Z.to_nat (maxRetries - (retryCount + 1)))) by lia.
      simpl. destruct (Z.ltb_spec retryCount maxRetries); [|lia]. simpl. step.
      destruct (fetchAt request) as [r|err]; simpl.
      * destruct (ok r); [reflexivity|].
        destruct ((500 <=? status r) && (status r <? 600)); [|reflexivity].
        apply IH. lia.
      * destruct (maxRetries <=? retryCount + 1); [reflexivity|].
        apply IH. lia.
    + replace (Z.to_nat (maxRetries - retryCount)) with 0%nat by lia.
      simpl. destruct (Z.ltb_spec retryCount maxRetries); [lia|]. reflexivity.
Qed.





#[local] Arguments submitConversion : simpl never.
#[local] Arguments documentWithVersion : simpl never.
#[local] Arguments sourceOf : simpl never.





(** ** The video optimizer *)

#[local] Arguments guardAndEncode : simpl never.
#[local] Arguments probeMetadata : simpl never.

Lemma optimizeVideo_probed env url team doc vid fileSize w v metadata :
  downloads env = true ->
  probeMetadata (ffprobe env) = Fulfilled metadata ->
  versions w !! vid = Some v ->
  optimizeVideo env url team doc vid fileSize w
  = guardAndEncode env team doc vid fileSize metadata (probed w vid v metadata).
Proof.
  unfold downloads, optimizeVideo, persistDuration. intros Hdown Hprobe Hv.
  destruct (videoFileUrl env); [|discriminate].
  destruct (videoMkdir env); [|discriminate].
  destruct (videoHasBody env) as [[|]|]; try discriminate.
  destruct (videoDownload env); [|discriminate].
  step. rewrite Hprobe. simpl. rewrite Hv. simpl.
  unfold probed. rewrite <- !app_assoc. reflexivity.
Qed.

Lemma emits_reportPercents percents : emits anyEvent (reportPercents percents).
Proof.
  induction percents as [|percent rest IH]; simpl; [emits_step|].
  apply emits_bind; [|intros _; exact IH].
  destruct (Qeq_bool percent 0); emits_step.
Qed.

Lemma record_record_then {A} e1 e2 (k : unit -> task A) w :
  emits anyEvent (k tt) ->
  exists evs,
    journal (fst ((record e1 ≫= fun _ => record e2 ≫= k) w))
    = journal w ++ e1 :: e2 :: evs.
Proof.
  intros Hk. unfold mbind, task_bind, andThen, record. simpl.
  destruct (Hk (withJournal ((journal w ++ [e1]) ++ [e2])
                  (withJournal (journal w ++ [e1]) w))) as (evs & Hj & _).
  exists evs. rewrite Hj. simpl. rewrite <- !app_assoc. reflexivity.
Qed.

(** What the encoding does once ffmpeg has been started. *)
Lemma guardAndEncode_encodes env team doc vid fileSize metadata w :
  fileSize <= fiveHundredMiB ->
  exists evs,
    journal (fst (guardAndEncode env team doc vid fileSize metadata w))
    = journal w ++ Progress VideoOptimization 40 "Processing video..."
                :: Transcode (1920 <? videoWidth metadata) (6000 * 2)
                     (jsRound (fps metadata * 2))
                :: evs.
Proof.
  intros Hsize. unfold guardAndEncode.
  destruct (Z.ltb_spec fiveHundredMiB fileSize); [lia|].
  cbv zeta. unfold updateProgress at 1.
  apply record_record_then.
  apply emits_bind; [apply emits_reportPercents|intros _].
  apply emits_bind; [emits_step|intros _].
  apply emits_bind; [emits_step|intros _].
  apply emits_bind; [emits_step|intros [type_ data]].
  destruct (falsy data); repeat emits_step.
Qed.

(** The skip branch of the guard. *)
Lemma guardAndEncode_skips env team doc vid fileSize metadata w :
  fiveHundredMiB < fileSize ->
  guardAndEncode env team doc vid fileSize metadata w
  = match removeTemp env with
    | Fulfilled _ =>
        (withJournal
           (journal w ++ [Progress VideoOptimization 100
                            "Completed (skipped large file)"]) w,
         Fulfilled (Some {| success := true;
                            resultMessage :=
                              "File size is too large, skipping optimization";
                            totalPages := None |}))
    | Rejected err => (w, Rejected err)
    end.
Proof.
  intros Hsize. unfold guardAndEncode.
  destruct (Z.ltb_spec fiveHundredMiB fileSize); [|lia].
  step. destruct (removeTemp env); reflexivity.
Qed.

(** C3, as the code has it: once a video has been downloaded and
    probed, ffmpeg is started exactly when the byte size is at most
    500 * 1024 * 1024; so at exactly 500 MiB, as one byte under, the
    video is re-encoded, and the re-encoding is skipped from one byte
    over. *)
Theorem size_guard_skips_only_above_500MiB env url team doc vid fileSize w v metadata :
  downloads env = true ->
  probeMetadata (ffprobe env) = Fulfilled metadata ->
  versions w !! vid = Some v ->
  exists evs,
    journal (fst (optimizeVideo env url team doc vid fileSize w)) = journal w ++ evs
    /\ existsb isTranscode evs = (fileSize <=? 500 * 1024 * 1024).
Proof.
  intros Hdown Hprobe Hv.
  rewrite (optimizeVideo_probed env url team doc vid fileSize w v metadata
             Hdown Hprobe Hv).
  destruct (Z.leb_spec fileSize (500 * 1024 * 1024)) as [Hle|Hgt].
  - destruct (guardAndEncode_encodes env team doc vid fileSize metadata
                (probed w vid v metadata) Hle) as (evs & Hj).
    eexists. rewrite Hj. unfold probed. simpl. rewrite <- app_assoc.
    split; [reflexivity|]. simpl. reflexivity.
  - rewrite guardAndEncode_skips by exact Hgt.
    destruct (removeTemp env); eexists; unfold probed; simpl;
      rewrite <- ?app_assoc; (split; [reflexivity|reflexivity]).
Qed.

(** C8: for a video over the threshold, downloaded and probed, the
    duration is on the version before the size guard runs; the run
    leaves every other column of that version, every other version,
    the pages and the bucket as they were; and it returns success
    once the temp directory is removed. *)
Theorem skip_path_persists_duration_only env url team doc vid fileSize w v metadata :
  downloads env = true ->
  probeMetadata (ffprobe env) = Fulfilled metadata ->
  versions w !! vid = Some v ->
  fiveHundredMiB < fileSize ->
  let run := optimizeVideo env url team doc vid fileSize w in
  run = guardAndEncode env team doc vid fileSize metadata (probed w vid v metadata)
  /\ (exists v', versions (probed w vid v metadata) !! vid = Some v'
                 /\ v_length v' = Some (duration metadata))
  /\ versions (fst run) = versions (probed w vid v metadata)
  /\ (exists v',
         versions (fst run) !! vid = Some v'
         /\ v_length v' = Some (duration metadata)
         /\ v_file v' = v_file v
         /\ v_originalFile v' = v_originalFile v
         /\ v_documentId v' = v_documentId v
         /\ v_type v' = v_type v
         /\ v_storageType v' = v_storageType v
         /\ v_numPages v' = v_numPages v
         /\ v_hasPages v' = v_hasPages v
         /\ v_isPrimary v' = v_isPrimary v
         /\ v_versionNumber v' = v_versionNumber v
         /\ v_isVertical v' = v_isVertical v
         /\ v_contentType v' = v_contentType v
         /\ v_fileSize v' = v_fileSize v)
  /\ (forall id, id <> vid -> versions (fst run) !! id = versions w !! id)
  /\ pages (fst run) = pages w
  /\ bucket (fst run) = bucket w
  /\ (isFulfilled (removeTemp env) = true ->
      snd run = Fulfilled (Some {| success := true;
                                   resultMessage :=
                                     "File size is too large, skipping optimization";
                                   totalPages := None |})).
Proof.
  intros Hdown Hprobe Hv Hsize run.
  assert (run = guardAndEncode env team doc vid fileSize metadata
                  (probed w vid v metadata)) as Hrun
    by exact (optimizeVideo_probed env url team doc vid fileSize w v metadata
                Hdown Hprobe Hv).
  split; [exact Hrun|].
  split; [eexists; unfold probed; simpl; rewrite lookup_insert_eq; done|].
  rewrite Hrun, guardAndEncode_skips by exact Hsize.
  destruct (removeTemp env) as [[]|err]; simpl.
  - split; [reflexivity|]. split.
    + eexists. rewrite lookup_insert_eq. repeat split; reflexivity.
    + split; [intros id Hid; rewrite lookup_insert_ne by congruence; reflexivity|].
      repeat split; reflexivity.
  - split; [reflexivity|]. split.
    + eexists. rewrite lookup_insert_eq. repeat split; reflexivity.
    + split; [intros id Hid; rewrite lookup_insert_ne by congruence; reflexivity|].
      split; [reflexivity|]. split; [reflexivity|]. discriminate.
Qed.

(** ** The percentages of a converter that succeeds *)

#[local] Arguments convertPdfToImage : simpl never.
#[local] Arguments submitLoop : simpl never.



#[local] Arguments savePdf : simpl never.







#[local] Arguments reportPercents : simpl never.




(** ** The regular expressions *)

Lemma append_cons c s t : String c s +:+ t = String c (s +:+ t).
Proof. reflexivity. Qed.

Lemma append_empty_l s : EmptyString +:+ s = s.
Proof. reflexivity. Qed.

Lemma append_empty_r s : s +:+ EmptyString = s.
Proof. induction s as [|c s IH]; [reflexivity|]. rewrite append_cons, IH. reflexivity. Qed.

Lemma append_assoc s t u : (s +:+ t) +:+ u = s +:+ (t +:+ u).
Proof.
  induction s as [|c s IH]; [reflexivity|].
  rewrite !append_cons, IH. reflexivity.
Qed.

Lemma substring_all s : String.substring 0 (String.length s) s = s.
Proof. induction s as [|c s IH]; simpl; [reflexivity|]. rewrite IH. reflexivity. Qed.

#[local] Arguments ascii_dec : simpl never.

Lemma string_prefix_cons a b p s :
  String.prefix (String a p) (String b s)
  = if ascii_dec a b then String.prefix p s else false.
Proof. reflexivity. Qed.

Lemma prefix_split p :
  forall s, String.prefix p s = true ->
            s = p +:+ String.substring (String.length p)
                        (String.length s - String.length p) s.
Proof.
  induction p as [|a p IH]; intros s Hp.
  - simpl. rewrite Nat.sub_0_r, substring_all. reflexivity.
  - destruct s as [|b s]; [discriminate|]. rewrite string_prefix_cons in Hp.
    destruct (ascii_dec a b) as [->|]; [|discriminate].
    rewrite append_cons. simpl. f_equal. exact (IH s Hp).
Qed.

Lemma prefix_append p t : String.prefix p (p +:+ t) = true.
Proof.
  induction p as [|a p IH]; [destruct t; reflexivity|].
  rewrite append_cons, string_prefix_cons.
  destruct (ascii_dec a a); [exact IH|contradiction].
Qed.

Lemma substring_append p t :
  String.substring (String.length p) (String.length (p +:+ t) - String.length p)
    (p +:+ t) = t.
Proof.
  induction p as [|a p IH].
  - rewrite append_empty_l. simpl. rewrite Nat.sub_0_r. apply substring_all.
  - rewrite append_cons. simpl. exact IH.
Qed.

Lemma dropPrefix_spec p s after :
  dropPrefix p s = Some after <-> s = p +:+ after.
Proof.
  unfold dropPrefix. split.
  - destruct (String.prefix p s) eqn:Hp; [|discriminate].
    intros [= <-]. exact (prefix_split p s Hp).
  - intros ->. rewrite prefix_append, substring_append. reflexivity.
Qed.

Lemma spanNoSlash_spec s :
  s = fst (spanNoSlash s) +:+ snd (spanNoSlash s)
  /\ hasSlash (fst (spanNoSlash s)) = false
  /\ (snd (spanNoSlash s) = EmptyString
      \/ exists rest, snd (spanNoSlash s) = String "/" rest).
Proof.
  induction s as [|c s (IH1 & IH2 & IH3)]; simpl; [auto|].
  destruct (isSlash c) eqn:Hc; simpl.
  - split; [reflexivity|]. split; [reflexivity|]. right. exists s.
    unfold isSlash in Hc. apply Ascii.eqb_eq in Hc. subst c. reflexivity.
  - destruct (spanNoSlash s) as [run tail]. simpl in *.
    rewrite append_cons, <- IH1, Hc. auto.
Qed.

Lemma spanNoSlash_run run rest :
  hasSlash run = false ->
  spanNoSlash (run +:+ String "/" rest) = (run, String "/" rest).
Proof.
  induction run as [|c run IH]; simpl; [reflexivity|].
  intros [Hc Hrun]%orb_false_iff. rewrite ?append_cons. simpl.
  rewrite Hc, (IH Hrun). reflexivity.
Qed.

Lemma matchDocAt_shape s id :
  matchDocAt s = Some id ->
  exists run after,
    s = id +:+ "/" +:+ after
    /\ id = "doc_" +:+ run /\ run <> EmptyString /\ hasSlash run = false.
Proof.
  unfold matchDocAt.
  destruct (dropPrefix "doc_" s) as [after|] eqn:Hdrop; [|discriminate].
  apply dropPrefix_spec in Hdrop. subst s.
  destruct (spanNoSlash_spec after) as (Hsplit & Hrun & Htail).
  destruct (spanNoSlash after) as [[|c run] [|t tail]]; simpl in *; try discriminate.
  intros [= <-]. destruct Htail as [|[rest [= -> ->]]]; [discriminate|].
  exists (String c run), rest. rewrite Hsplit.
  split; [|split; [reflexivity|split; [discriminate|exact Hrun]]].
  rewrite append_assoc. reflexivity.
Qed.

Lemma matchDocId_unfold url :
  matchDocId url
  = match matchDocAt url with
    | Some id => Some id
    | None => match url with
              | EmptyString => None
              | String _ rest => matchDocId rest
              end
    end.
Proof. destruct url; reflexivity. Qed.

(** X1.  The capture of [/(doc_[^\/]+)\//]: a match is [doc_] with one or
    more characters other than a slash, it sits in the url right before
    a slash, and no match starts further to the left. *)
Theorem matchDocId_shape url id :
  matchDocId url = Some id ->
  exists before run after,
    url = before +:+ id +:+ "/" +:+ after
    /\ id = "doc_" +:+ run /\ run <> EmptyString /\ hasSlash run = false
    /\ forall skipped rest, before = skipped +:+ rest -> rest <> EmptyString ->
         matchDocAt (rest +:+ id +:+ "/" +:+ after) = None.
Proof.
  induction url as [|c url IH]; rewrite matchDocId_unfold.
  - discriminate.
  - destruct (matchDocAt (String c url)) as [id'|] eqn:Hat.
    + intros [= ->]. destruct (matchDocAt_shape _ _ Hat) as (run & after & Hs & Hid & Hne & Hrun).
      exists EmptyString, run, after. rewrite append_empty_l.
      split; [exact Hs|]. split; [exact Hid|]. split; [exact Hne|]. split; [exact Hrun|].
      intros skipped rest Hsplit Hrest. destruct skipped; destruct rest; try discriminate.
      contradiction.
    + intros Hrest.
      destruct (IH Hrest) as (before & run & after & Hs & Hid & Hne & Hrun & Hleft).
      exists (String c before), run, after. rewrite append_cons, <- Hs.
      split; [reflexivity|]. split; [exact Hid|]. split; [exact Hne|].
      split; [exact Hrun|].
      intros skipped rest Hsplit Hnonempty.
      destruct skipped as [|c' skipped].
      * rewrite append_empty_l in Hsplit. subst rest.
        rewrite append_cons, <- Hs. exact Hat.
      * rewrite append_cons in Hsplit. injection Hsplit as _ Hsplit.
        exact (Hleft skipped rest Hsplit Hnonempty).
Qed.

Lemma prefix_before_slash p :
  hasSlash p = false ->
  forall team rest,
    String.prefix p (team +:+ String "/" rest) = true ->
    String.prefix p team = true.
Proof.
  induction p as [|a p IH]; intros Hp team rest; [destruct team; reflexivity|].
  simpl in Hp. apply orb_false_iff in Hp as [Ha Hp].
  destruct team as [|b team].
  - rewrite append_empty_l, string_prefix_cons.
    destruct (ascii_dec a "/") as [->|]; [discriminate|]. discriminate.
  - rewrite append_cons, !string_prefix_cons.
    destruct (ascii_dec a b); [|discriminate]. exact (IH Hp team rest).
Qed.

Lemma matchDocAt_none_without_prefix s :
  String.prefix "doc_" s = false -> matchDocAt s = None.
Proof. unfold matchDocAt, dropPrefix. intros ->. reflexivity. Qed.

Lemma matchDocId_skips team rest :
  mentionsDoc team = false ->
  matchDocId (team +:+ String "/" rest) = matchDocId rest.
Proof.
  induction team as [|c team IH].
  - intros _. rewrite append_empty_l, matchDocId_unfold.
    rewrite matchDocAt_none_without_prefix by reflexivity. reflexivity.
  - intros [Hhere Hlater]%orb_false_iff.
    rewrite matchDocId_unfold, matchDocAt_none_without_prefix.
    + rewrite append_cons. exact (IH Hlater).
    + destruct (String.prefix "doc_" (String c team +:+ String "/" rest)) eqn:Hp;
        [|reflexivity].
      apply prefix_before_slash in Hp; [congruence|reflexivity].
Qed.

Lemma matchDocId_at_id run rest :
  run <> EmptyString -> hasSlash run = false ->
  matchDocId (("doc_" +:+ run) +:+ String "/" rest) = Some ("doc_" +:+ run).
Proof.
  intros Hne Hrun. rewrite matchDocId_unfold.
  unfold matchDocAt.
  assert (dropPrefix "doc_" (("doc_" +:+ run) +:+ String "/" rest)
          = Some (run +:+ String "/" rest)) as ->.
  { apply dropPrefix_spec. rewrite append_assoc. reflexivity. }
  rewrite (spanNoSlash_run run rest Hrun).
  destruct run; [contradiction|reflexivity].
Qed.

(** X2.  The key under which [putFileInS3Server] stores a file for a
    document id names that document again: [matchDocId] of the key is
    the id, and the object at the key is the file. *)
Theorem stored_key_names_its_document env file team run w key :
  run <> EmptyString -> hasSlash run = false -> mentionsDoc team = false ->
  snd (putFileInS3Server env file team (Some ("doc_" +:+ run)) w)
  = Fulfilled (S3_PATH, key) ->
  matchDocId key = Some ("doc_" +:+ run)
  /\ bucket (fst (putFileInS3Server env file team (Some ("doc_" +:+ run)) w)) !! key
     = Some {| Body := buffer file; ContentType := type file |}.
Proof.
  intros Hne Hrun Hteam. unfold putFileInS3Server.
  destruct (pathParse (name file)) as [name_ ext].
  destruct (send env); simpl; [|discriminate].
  intros [= <-]. split.
  - change (matchDocId (team +:+ String "/" (("doc_" +:+ run)
                          +:+ String "/" (slugify name_ +:+ ext)))
            = Some ("doc_" +:+ run)).
    rewrite (matchDocId_skips team _ Hteam).
    exact (matchDocId_at_id run _ Hne Hrun).
  - apply lookup_insert_eq.
Qed.

Lemma hasDot_append s t : hasDot (s +:+ t) = hasDot s || hasDot t.
Proof.
  induction s as [|c s IH]; [reflexivity|].
  rewrite append_cons. simpl. rewrite IH, orb_assoc. reflexivity.
Qed.

Lemma stripExtension_cons c rest :
  stripExtension (String c rest)
  = if isDot c && negb (hasDot rest) && negb (String.eqb rest EmptyString)
    then EmptyString
    else String c (stripExtension rest).
Proof. reflexivity. Qed.

Lemma stripExtension_without_dot s : hasDot s = false -> stripExtension s = s.
Proof.
  induction s as [|c s IH]; [reflexivity|].
  simpl. intros [Hc Hs]%orb_false_iff.
  rewrite stripExtension_cons, Hc, (IH Hs). reflexivity.
Qed.

(** X3.  [name.replace] of [/\.[^.]+$/] by the empty string takes an
    extension off and nothing else: a base name followed by a dot and
    an extension (one or more characters, none a dot) gives back the
    base name, whatever dots the base name has; a name with no dot, and
    a name that ends in a dot, stay as they are. *)
Theorem stripExtension_takes_extension_off base ext :
  ext <> EmptyString -> hasDot ext = false ->
  stripExtension (base +:+ "." +:+ ext) = base
  /\ stripExtension ext = ext
  /\ stripExtension (base +:+ ".") = base +:+ ".".
Proof.
  intros Hne Hext. split; [|split].
  - induction base as [|c base IH].
    + rewrite append_empty_l. change ("." +:+ ext) with (String "." ext).
      rewrite stripExtension_cons, Hext.
      destruct ext; [contradiction|reflexivity].
    + rewrite append_cons, stripExtension_cons, IH.
      rewrite hasDot_append. change (hasDot ("." +:+ ext)) with true.
      rewrite orb_true_r, andb_false_r. reflexivity.
  - exact (stripExtension_without_dot ext Hext).
  - induction base as [|c base IH]; [reflexivity|].
    rewrite append_cons, stripExtension_cons, IH.
    destruct (isDot c); [|reflexivity].
    rewrite hasDot_append. simpl. rewrite orb_true_r. reflexivity.
Qed.

(** ** A rasterization run that goes through *)

Lemma pagesTried_app j1 j2 : pagesTried (j1 ++ j2) = pagesTried j1 ++ pagesTried j2.
Proof. unfold pagesTried. apply omap_app. Qed.

Lemma pageOf_extends n vid w w' p :
  extends w w' -> pageOf n vid (pages w) = Some p -> pageOf n vid (pages w') = Some p.
Proof.
  intros (_ & _ & [more ->]) Hp. unfold pageOf in *. apply find_app_some. exact Hp.
Qed.

(** A loop that ends without an error has handed every page from the
    counter on to the page conversion, once and in order, and has left
    a row for each one. *)
Lemma pageLoop_without_error env vid url team numPages fuel :
  forall i vars w vars',
    (Z.to_nat (numPages - i) <= fuel)%nat ->
    snd (pageLoop env vid url team numPages fuel i vars w) = Fulfilled vars' ->
    conversionWithoutError vars = true ->
    conversionWithoutError vars' = true ->
    let after := fst (pageLoop env vid url team numPages fuel i vars w) in
    (forall k, i < k <= numPages -> exists p, pageOf k vid (pages after) = Some p)
    /\ exists evs, journal after = journal w ++ evs
                   /\ pagesTried evs = seqZ (i + 1) (numPages - i).
Proof.
  induction fuel as [|fuel IH]; intros i vars w vars' Hfuel Hres Hok Hok' after.
  - split; [intros k Hk; lia|]. exists []. subst after. simpl. rewrite app_nil_r.
    split; [reflexivity|]. unfold seqZ. replace (Z.to_nat (numPages - i)) with 0%nat by lia.
    reflexivity.
  - destruct (Z.ltb_spec i numPages) as [Hi|Hi].
    + subst after. revert Hres. rewrite pageLoop_turn by assumption. cbv zeta.
      set (w0 := withJournal (journal w ++ [ConvertPage (i + 1)]) w).
      set (call := convertPdfPageToImage _ _ _ _ _ w0).
      set (w1 := withJournal _ (fst call)).
      destruct (isFulfilled (snd call)) eqn:Hcall.
      * intros Hres.
        destruct (IH (i + 1) _ w1 vars' ltac:(lia) Hres eq_refl Hok')
          as (Hrows & evs & Hj & Htried).
        pose proof (convertPdfPageToImage_rows (pageEnv env (i + 1)) vid (i + 1)
                      url team w0) as (_ & Hrow).
        fold call in Hrow. destruct (Hrow Hcall) as [p Hp].
        pose proof (pageLoop_frame env vid url team numPages fuel (i + 1)
                      {| currentPage := i + 1; conversionWithoutError := true |} w1)
          as (_ & Hext & _).
        pose proof (convertPdfPageToImage_frame (pageEnv env (i + 1)) vid (i + 1)
                      url team w0) as (Hcj & _).
        fold call in Hcj.
        split.
        -- intros k Hk. destruct (Z.eq_dec k (i + 1)) as [->|Hne].
           ++ exists p. eapply pageOf_extends; [exact Hext|exact Hp].
           ++ apply Hrows. lia.
        -- exists (ConvertPage (i + 1)
                     :: Progress PdfToImage (pagePercentage (i + 1) numPages)
                          (pretty (i + 1) +:+ " / " +:+ pretty numPages
                             +:+ " pages processed") :: evs).
           split.
           ++ rewrite Hj. subst w1. simpl. rewrite Hcj. subst w0. simpl.
              rewrite <- !app_assoc. reflexivity.
           ++ change (i + 1 :: pagesTried evs = seqZ (i + 1) (numPages - i)).
              rewrite Htried, (seqZ_cons (i + 1) (numPages - i)) by lia.
              f_equal. f_equal; lia.
      * rewrite pageLoop_over by (right; reflexivity).
        intros [= <-]. discriminate.
    + subst after. revert Hres. rewrite pageLoop_over by (left; lia).
      intros _. split; [intros k Hk; lia|]. exists []. simpl. rewrite app_nil_r.
      split; [reflexivity|]. unfold seqZ.
      replace (Z.to_nat (numPages - i)) with 0%nat by lia. reflexivity.
Qed.

(** What the last step does when it goes through. *)
Lemma enablePages_fulfilled env payload numPages w res :
  snd (enablePages env payload numPages w) = Fulfilled res ->
  res = Some {| success := true;
                resultMessage := "Successfully converted PDF to images";
                totalPages := Some numPages |}
  /\ pages (fst (enablePages env payload numPages w)) = pages w
  /\ journal (fst (enablePages env payload numPages w))
     = journal w ++ [Progress PdfToImage 90 "Enabling pages...";
                     Progress PdfToImage 95 "Revalidating link...";
                     Progress PdfToImage 100 "Processing complete"].
Proof.
  unfold enablePages. step.
  destruct (versions w !! documentVersionId payload) as [v1|]; simpl; [|discriminate].
  destruct (versionNumber payload) as [n|]; simpl;
    [destruct (n =? 0); simpl|];
    destruct (revalidate env); simpl; try discriminate;
    intros [= <-]; rewrite <- !app_assoc; auto.
Qed.

Lemma demoted_pages payload (vs : gmap string DocumentVersion) id v :
  vs !! id = Some v ->
  exists v', demoted payload vs !! id = Some v'
             /\ v_numPages v' = v_numPages v /\ v_hasPages v' = v_hasPages v
             /\ v_file v' = v_file v /\ v_type v' = v_type v.
Proof.
  intros Hv. unfold demoted.
  destruct (versionNumber payload) as [n|]; [destruct (n =? 0)|]; eauto 6.
  rewrite lookup_fmap, Hv. simpl.
  destruct (otherVersions (documentId payload) n v); eauto 6.
Qed.

Lemma convertPages_success env payload url numPages w res :
  snd (convertPages env payload url numPages w) = Fulfilled (Some res) ->
  let after := fst (convertPages env payload url numPages w) in
  totalPages res = Some numPages
  /\ (forall k, 1 <= k <= numPages ->
        exists p, pageOf k (documentVersionId payload) (pages after) = Some p)
  /\ (exists evs, journal after = journal w ++ evs
                  /\ pagesTried evs = seqZ 1 numPages)
  /\ exists v', versions after !! documentVersionId payload = Some v'
                /\ v_numPages v' = Some numPages /\ v_hasPages v' = true.
Proof.
  intros Hres after.
  destruct (convertPages_versions env payload url numPages w res Hres)
    as (vs1 & v1 & _ & _ & Hversions).
  fold after in Hversions.
  revert Hres Hversions. subst after. unfold convertPages. step.
  set (w0 := withJournal _ w).
  pose proof (pageLoop_frame env (documentVersionId payload) url (teamId payload)
                numPages (Z.to_nat numPages) 0
                {| currentPage := 0; conversionWithoutError := true |} w0)
    as ([vars Hvars] & _ & _).
  pose proof (pageLoop_without_error env (documentVersionId payload) url
                (teamId payload) numPages (Z.to_nat numPages) 0
                {| currentPage := 0; conversionWithoutError := true |} w0 vars
                ltac:(lia) Hvars eq_refl) as Hloop.
  destruct (pageLoop _ _ _ _ _ _ _ _ w0) as [w1 r1]. simpl in *. subst r1.
  destruct (conversionWithoutError vars); simpl; [|discriminate].
  destruct (Hloop eq_refl) as (Hrows & evs & Hj & Htried).
  intros Hres Hversions.
  destruct (enablePages_fulfilled env payload numPages w1 _ Hres)
    as ([= ->] & Hpages & Hjournal).
  split; [reflexivity|]. split; [|split].
  - intros k Hk. rewrite Hpages. apply Hrows. lia.
  - eexists. rewrite Hjournal, Hj. subst w0. simpl. rewrite <- !app_assoc.
    split; [reflexivity|].
    rewrite pagesTried_app, (pagesTried_app evs), Htried. simpl.
    rewrite app_nil_r, Z.sub_0_r. reflexivity.
  - rewrite Hversions.
    destruct (demoted_pages payload
                (<[documentVersionId payload := writeData (enablePagesData numPages) v1]> vs1)
                (documentVersionId payload) _ (lookup_insert_eq _ _ _))
      as (v' & Hv' & Hn & Hh & _).
    exists v'. auto.
Qed.

Lemma countThenConvert_fulfilled env payload url w res :
  snd (countThenConvert env payload url w) = Fulfilled (Some res) ->
  exists n, getPdfPageCount env = Fulfilled n /\ 1 <= n.
Proof.
  unfold countThenConvert. step.
  destruct (getPdfPageCount env) as [n|]; simpl; [|discriminate].
  destruct (Z.ltb_spec n 1); simpl; [discriminate|]. eauto.
Qed.

(** X4.  A run that returns its result object has handed every page from 1
    to the count it reports to the page conversion, once and in order;
    each of these pages has a row in the page table, and the version
    carries the count and has its pages enabled. *)
Theorem rasterization_result_means_every_page env payload w res :
  snd (convertPdfToImage env payload w) = Fulfilled (Some res) ->
  let after := fst (convertPdfToImage env payload w) in
  exists numPages,
    res = {| success := true;
             resultMessage := "Successfully converted PDF to images";
             totalPages := Some numPages |}
    /\ (forall k, 1 <= k <= numPages ->
          exists p, pageOf k (documentVersionId payload) (pages after) = Some p)
    /\ (exists evs, journal after = journal w ++ evs
                    /\ pagesTried evs = seqZ 1 numPages)
    /\ exists v', versions after !! documentVersionId payload = Some v'
                  /\ v_numPages v' = Some numPages /\ v_hasPages v' = true.
Proof.
  destruct (versions w !! documentVersionId payload) as [v|] eqn:Hv;
    [|unfold convertPdfToImage; step; rewrite Hv; discriminate].
  destruct (getFile env) as [[url|]|] eqn:Hfile;
    [|unfold convertPdfToImage; step; rewrite Hv, Hfile; discriminate..].
  destruct (String.eqb_spec url EmptyString) as [->|Hurl];
    [unfold convertPdfToImage; step; rewrite Hv, Hfile; discriminate|].
  rewrite (convertPdfToImage_retrieved env payload w v url Hv Hfile Hurl).
  cbv zeta. set (w0 := withJournal _ w).
  assert (forall n pre,
             pagesTried pre = [] ->
             snd (convertPages env payload url n (withJournal (journal w ++ pre) w))
             = Fulfilled (Some res) ->
             let after := fst (convertPages env payload url n
                                 (withJournal (journal w ++ pre) w)) in
             exists numPages,
               res = {| success := true;
                        resultMessage := "Successfully converted PDF to images";
                        totalPages := Some numPages |}
               /\ (forall k, 1 <= k <= numPages ->
                     exists p, pageOf k (documentVersionId payload) (pages after) = Some p)
               /\ (exists evs, journal after = journal w ++ evs
                               /\ pagesTried evs = seqZ 1 numPages)
               /\ exists v', versions after !! documentVersionId payload = Some v'
                             /\ v_numPages v' = Some numPages /\ v_hasPages v' = true)
    as Hpages.
  { intros n pre Hpre Hres after.
    destruct (convertPages_success env payload url n _ res Hres)
      as (Htotal & Hrows & (evs & Hj & Htried) & Hversion).
    exists n. split; [|split; [exact Hrows|split; [|exact Hversion]]].
    - revert Hres Htotal. unfold convertPages. step.
      destruct (pageLoop _ _ _ _ _ _ _ _ _) as [w1 [vars|]]; simpl; [|discriminate].
      destruct (conversionWithoutError vars); simpl; [|discriminate].
      intros Hres _.
      destruct (enablePages_fulfilled env payload n _ _ Hres) as ([= ->] & _).
      reflexivity.
    - exists (pre ++ evs). subst after. rewrite Hj. simpl.
      rewrite app_assoc. split; [reflexivity|].
      rewrite pagesTried_app, Hpre, Htried. reflexivity. }
  assert (snd (countThenConvert env payload url w0) = Fulfilled (Some res) ->
          let after := fst (countThenConvert env payload url w0) in
          exists numPages,
            res = {| success := true;
                     resultMessage := "Successfully converted PDF to images";
                     totalPages := Some numPages |}
            /\ (forall k, 1 <= k <= numPages ->
                  exists p, pageOf k (documentVersionId payload) (pages after) = Some p)
            /\ (exists evs, journal after = journal w ++ evs
                            /\ pagesTried evs = seqZ 1 numPages)
            /\ exists v', versions after !! documentVersionId payload = Some v'
                          /\ v_numPages v' = Some numPages /\ v_hasPages v' = true)
    as Hcount.
  { intros Hres.
    destruct (countThenConvert_fulfilled env payload url w0 res Hres) as (n & Hn & Hpos).
    revert Hres. rewrite (countThenConvert_counted env payload url w0 n Hn Hpos).
    subst w0. simpl. rewrite <- app_assoc. apply Hpages. reflexivity. }
  destruct (v_numPages v) as [n|]; [destruct ((n =? 0) || (n =? 1))|].
  - exact Hcount.
  - apply Hpages. reflexivity.
  - exact Hcount.
Qed.

(** ** A rasterization run that returns nothing *)

Lemma convertPages_nothing env payload url numPages w :
  snd (convertPages env payload url numPages w) = Fulfilled None ->
  levelled <$> versions (fst (convertPages env payload url numPages w))
  = levelled <$> versions w
  /\ extends w (fst (convertPages env payload url numPages w))
  /\ bool_decide (numPages <= 0) = false.
Proof.
  unfold convertPages. step.
  set (w0 := withJournal _ w).
  pose proof (pageLoop_frame env (documentVersionId payload) url (teamId payload)
                numPages (Z.to_nat numPages) 0
                {| currentPage := 0; conversionWithoutError := true |} w0)
    as ([vars Hvars] & Hext & Hlev).
  pose proof (pageLoop_over env (documentVersionId payload) url (teamId payload)
                numPages (Z.to_nat numPages) 0
                {| currentPage := 0; conversionWithoutError := true |} w0) as Hover.
  destruct (pageLoop _ _ _ _ _ _ _ _ w0) as [w1 r1]. simpl in *. subst r1.
  destruct (conversionWithoutError vars) eqn:Hok; simpl.
  - intros Hres. destruct (enablePages_fulfilled env payload numPages w1 _ Hres)
      as ([=] & _).
  - intros _. split; [exact Hlev|]. split; [exact Hext|].
    apply bool_decide_eq_false. intros Hn.
    specialize (Hover (or_introl Hn)). injection Hover as _ ->. discriminate.
Qed.

Lemma convertPdfToImage_nothing env payload w :
  snd (convertPdfToImage env payload w) = Fulfilled None ->
  levelled <$> versions (fst (convertPdfToImage env payload w))
  = levelled <$> versions w
  /\ extends w (fst (convertPdfToImage env payload w)).
Proof.
  destruct (versions w !! documentVersionId payload) as [v|] eqn:Hv;
    [|unfold convertPdfToImage; step; rewrite Hv; simpl; intros _;
      split; [reflexivity|exact (extends_refl w)]].
  destruct (getFile env) as [[url|]|] eqn:Hfile;
    [|unfold convertPdfToImage; step; rewrite Hv, Hfile; simpl;
      first [discriminate|intros _; split; [reflexivity|exact (extends_refl w)]]..].
  destruct (String.eqb_spec url EmptyString) as [->|Hurl];
    [unfold convertPdfToImage; step; rewrite Hv, Hfile; simpl; intros _;
     split; [reflexivity|exact (extends_refl w)]|].
  rewrite (convertPdfToImage_retrieved env payload w v url Hv Hfile Hurl).
  cbv zeta. set (w0 := withJournal _ w).
  assert (forall w', versions w' = versions w -> extends w w' ->
             forall n, snd (convertPages env payload url n w') = Fulfilled None ->
             levelled <$> versions (fst (convertPages env payload url n w'))
             = levelled <$> versions w
             /\ extends w (fst (convertPages env payload url n w'))) as Hpages.
  { intros w' Hsame Hext n Hres.
    destruct (convertPages_nothing env payload url n w' Hres) as (Hlev & Hext' & _).
    rewrite Hlev, Hsame. split; [reflexivity|].
    exact (extends_trans _ _ _ Hext Hext'). }
  assert (snd (countThenConvert env payload url w0) = Fulfilled None ->
          levelled <$> versions (fst (countThenConvert env payload url w0))
          = levelled <$> versions w
          /\ extends w (fst (countThenConvert env payload url w0))) as Hcount.
  { unfold countThenConvert. step.
    destruct (getPdfPageCount env) as [n|]; simpl; [|discriminate].
    destruct (n <? 1); simpl.
    - intros _. split; [reflexivity|exact (extends_refl w)].
    - apply Hpages; [reflexivity|exact (extends_refl w)]. }
  destruct (v_numPages v) as [n|]; [destruct ((n =? 0) || (n =? 1))|].
  - exact Hcount.
  - apply Hpages; [reflexivity|exact (extends_refl w)].
  - exact Hcount.
Qed.

(** X5.  A run that returns without a result object (the version or its
    signed url is missing, the page count is below 1, or a page
    failed) has written nothing to a version but the orientation that
    page 1 sets: the versions are the same rows, and page count,
    [hasPages] and [isPrimary] of each are what they were; teams and
    documents are untouched and the page table has only grown. *)
Theorem rasterization_without_result_keeps_versions env payload w :
  snd (convertPdfToImage env payload w) = Fulfilled None ->
  let after := fst (convertPdfToImage env payload w) in
  levelled <$> versions after = levelled <$> versions w
  /\ (forall id v', versions after !! id = Some v' ->
        exists v, versions w !! id = Some v
                  /\ v_numPages v' = v_numPages v
                  /\ v_hasPages v' = v_hasPages v
                  /\ v_isPrimary v' = v_isPrimary v)
  /\ teams after = teams w /\ documents after = documents w
  /\ exists more, pages after = pages w ++ more.
Proof.
  intros Hres after.
  destruct (convertPdfToImage_nothing env payload w Hres) as (Hlev & Ht & Hd & Hp).
  split; [exact Hlev|]. split; [|auto].
  intros id v' Hv'.
  destruct (levelled_lookup _ _ _ _ Hlev Hv') as (v & Hv & Hsame).
  destruct (levelled_columns _ _ Hsame) as (_ & _ & Hprimary & Hn & Hh).
  exists v. auto.
Qed.

(** ** A page count that cannot be had *)

(** X6.  When the stored page count is missing, 0 or 1 and [getPdfPageCount]
    throws, the run throws "Failed to get number of pages" whatever the
    error was; when it gives a count below 1 the run reports 0 percent
    and returns nothing.  Either way no page is converted and nothing
    is written. *)
Theorem page_count_failure_stops_the_run env payload w v url :
  versions w !! documentVersionId payload = Some v ->
  getFile env = Fulfilled (Some url) ->
  url <> EmptyString ->
  v_numPages v = None \/ v_numPages v = Some 0 \/ v_numPages v = Some 1 ->
  let run := convertPdfToImage env payload w in
  let asked := [Progress PdfToImage 0 "Initializing...";
                Progress PdfToImage 10 "Retrieving file...";
                CountPages url] in
  (forall error, getPdfPageCount env = Rejected error ->
     run = (withJournal (journal w ++ asked) w,
            Rejected {| message := "Failed to get number of pages" |}))
  /\ (forall n, getPdfPageCount env = Fulfilled n -> n < 1 ->
        run = (withJournal
                 (journal w ++ asked
                    ++ [Progress PdfToImage 0 "Failed to get number of pages"]) w,
               Fulfilled None)).
Proof.
  intros Hv Hfile Hurl Hstored run asked.
  assert (run = countThenConvert env payload url
                  (withJournal
                     (journal w ++ [Progress PdfToImage 0 "Initializing...";
                                    Progress PdfToImage 10 "Retrieving file..."]) w))
    as ->.
  { subst run. rewrite (convertPdfToImage_retrieved env payload w v url Hv Hfile Hurl).
    destruct Hstored as [-> | [-> | ->]]; reflexivity. }
  unfold countThenConvert. step. split.
  - intros error ->. simpl. rewrite <- app_assoc. reflexivity.
  - intros n -> Hn. simpl. destruct (Z.ltb_spec n 1); [|lia].
    simpl. rewrite <- !app_assoc. reflexivity.
Qed.

(** ** A rasterization run whose pages all convert *)

Lemma levelled_is_Some (vs vs' : gmap string DocumentVersion) id :
  levelled <$> vs' = levelled <$> vs -> is_Some (vs !! id) -> is_Some (vs' !! id).
Proof.
  intros Hsame [v Hv].
  assert ((levelled <$> vs') !! id = (levelled <$> vs) !! id) as Hid
    by (rewrite Hsame; reflexivity).
  rewrite !lookup_fmap, Hv in Hid. simpl in Hid.
  destruct (vs' !! id); [eauto|discriminate].
Qed.

Lemma pageLoop_all_succeed env vid url team numPages fuel :
  forall i vars w,
    conversionWithoutError vars = true ->
    is_Some (versions w !! vid) ->
    (forall k, i < k <= numPages -> pageSucceeds (pageEnv env k) = true) ->
    exists vars',
      snd (pageLoop env vid url team numPages fuel i vars w) = Fulfilled vars'
      /\ conversionWithoutError vars' = true.
Proof.
  induction fuel as [|fuel IH]; intros i vars w Hok Hversion Hpages.
  - exists vars. auto.
  - destruct (Z.ltb_spec i numPages) as [Hi|Hi].
    + rewrite pageLoop_turn by assumption. cbv zeta.
      set (w0 := withJournal (journal w ++ [ConvertPage (i + 1)]) w).
      set (call := convertPdfPageToImage _ _ _ _ _ w0).
      pose proof (convertPdfPageToImage_fulfilled (pageEnv env (i + 1)) vid (i + 1)
                    url team w0) as Hcall.
      fold call in Hcall. rewrite Hpages in Hcall by lia.
      rewrite bool_decide_true, orb_true_r in Hcall by exact Hversion.
      rewrite Hcall. apply IH; [reflexivity| |intros k Hk; apply Hpages; lia].
      pose proof (convertPdfPageToImage_frame (pageEnv env (i + 1)) vid (i + 1)
                    url team w0) as (_ & _ & _ & Hlev & _).
      fold call in Hlev. simpl. exact (levelled_is_Some _ _ _ Hlev Hversion).
    + rewrite pageLoop_over by (left; lia). exists vars. auto.
Qed.

(** The last step on a version that is there. *)
Lemma enablePages_run env payload numPages w v :
  versions w !! documentVersionId payload = Some v ->
  snd (enablePages env payload numPages w)
  = match revalidate env with
    | Fulfilled _ =>
        Fulfilled (Some {| success := true;
                           resultMessage := "Successfully converted PDF to images";
                           totalPages := Some numPages |})
    | Rejected error => Rejected error
    end
  /\ versions (fst (enablePages env payload numPages w))
     = demoted payload
         (<[documentVersionId payload := writeData (enablePagesData numPages) v]>
            (versions w)).
Proof.
  intros Hv. unfold enablePages, demoted. step. rewrite Hv. simpl.
  destruct (versionNumber payload) as [n|]; simpl;
    [destruct (n =? 0); simpl|];
    destruct (revalidate env); simpl; auto.
Qed.

Lemma convertPages_all_succeed env payload url numPages w :
  is_Some (versions w !! documentVersionId payload) ->
  (forall k, 1 <= k <= numPages -> pageSucceeds (pageEnv env k) = true) ->
  snd (convertPages env payload url numPages w)
  = match revalidate env with
    | Fulfilled _ =>
        Fulfilled (Some {| success := true;
                           resultMessage := "Successfully converted PDF to images";
                           totalPages := Some numPages |})
    | Rejected error => Rejected error
    end
  /\ exists v', versions (fst (convertPages env payload url numPages w))
                  !! documentVersionId payload = Some v'
                /\ v_numPages v' = Some numPages /\ v_hasPages v' = true.
Proof.
  intros Hversion Hpages. unfold convertPages. step.
  set (w0 := withJournal _ w).
  pose proof (pageLoop_all_succeed env (documentVersionId payload) url (teamId payload)
                numPages (Z.to_nat numPages) 0
                {| currentPage := 0; conversionWithoutError := true |} w0
                eq_refl Hversion ltac:(intros k Hk; apply Hpages; lia))
    as (vars & Hvars & Hok).
  pose proof (pageLoop_frame env (documentVersionId payload) url (teamId payload)
                numPages (Z.to_nat numPages) 0
                {| currentPage := 0; conversionWithoutError := true |} w0)
    as (_ & _ & Hlev).
  destruct (pageLoop _ _ _ _ _ _ _ _ w0) as [w1 r1]. simpl in *. subst r1.
  rewrite Hok. simpl.
  destruct (levelled_is_Some _ _ _ Hlev Hversion) as [v1 Hv1].
  destruct (enablePages_run env payload numPages w1 v1 Hv1) as [Hres Hversions].
  split; [exact Hres|]. rewrite Hversions.
  destruct (demoted_pages payload
              (<[documentVersionId payload := writeData (enablePagesData numPages) v1]>
                 (versions w1))
              (documentVersionId payload) _ (lookup_insert_eq _ _ _))
    as (v' & Hv' & Hn & Hh & _).
  exists v'. auto.
Qed.

(** X7.  With the version and its signed url at hand, a page count to go by
    (the stored one when it is 2 or more, the counted one otherwise) and
    every page up to that count converting, the run enables the pages:
    the version carries the count and [hasPages], and the run returns
    its result object with that count, unless the request to the
    revalidation endpoint fails, in which case the run throws that
    error with the pages already enabled. *)
Theorem rasterization_goes_through env payload w v url n :
  versions w !! documentVersionId payload = Some v ->
  getFile env = Fulfilled (Some url) ->
  url <> EmptyString ->
  (v_numPages v = Some n /\ 2 <= n)
  \/ ((v_numPages v = None \/ v_numPages v = Some 0 \/ v_numPages v = Some 1)
      /\ getPdfPageCount env = Fulfilled n /\ 1 <= n) ->
  (forall k, 1 <= k <= n -> pageSucceeds (pageEnv env k) = true) ->
  let run := convertPdfToImage env payload w in
  snd run
  = match revalidate env with
    | Fulfilled _ =>
        Fulfilled (Some {| success := true;
                           resultMessage := "Successfully converted PDF to images";
                           totalPages := Some n |})
    | Rejected error => Rejected error
    end
  /\ exists v', versions (fst run) !! documentVersionId payload = Some v'
                /\ v_numPages v' = Some n /\ v_hasPages v' = true.
Proof.
  intros Hv Hfile Hurl Hcount Hpages run. subst run.
  rewrite (convertPdfToImage_retrieved env payload w v url Hv Hfile Hurl).
  cbv zeta. set (w0 := withJournal _ w).
  destruct Hcount as [[Hstored Hn] | [Hstored [Hcounted Hn]]].
  - rewrite Hstored.
    destruct (Z.eqb_spec n 0); [lia|]. destruct (Z.eqb_spec n 1); [lia|]. simpl.
    apply convertPages_all_succeed; [|exact Hpages].
    subst w0. simpl. eauto.
  - assert (match v_numPages v with
            | None => countThenConvert env payload url w0
            | Some numPages =>
                if (numPages =? 0) || (numPages =? 1)
                then countThenConvert env payload url w0
                else convertPages env payload url numPages w0
            end = countThenConvert env payload url w0) as ->
      by (destruct Hstored as [-> | [-> | ->]]; reflexivity).
    rewrite (countThenConvert_counted env payload url w0 n Hcounted Hn).
    apply convertPages_all_succeed; [|exact Hpages].
    subst w0. simpl. eauto.
Qed.

(** ** What a rasterization never writes *)

Lemma filed_levelled (vs vs' : gmap string DocumentVersion) :
  levelled <$> vs' = levelled <$> vs -> filed <$> vs' = filed <$> vs.
Proof.
  intros Hsame.
  assert (forall us : gmap string DocumentVersion,
             filed <$> us = filed <$> (levelled <$> us)) as Hthrough.
  { intros us. rewrite <- map_fmap_compose. apply map_fmap_ext. reflexivity. }
  rewrite (Hthrough vs'), (Hthrough vs), Hsame. reflexivity.
Qed.

Lemma filed_insert (vs : gmap string DocumentVersion) id v d :
  vs !! id = Some v -> filed (writeData d v) = filed v ->
  filed <$> <[id := writeData d v]> vs = filed <$> vs.
Proof.
  intros Hv Hd. rewrite fmap_insert, Hd.
  apply insert_id. rewrite lookup_fmap, Hv. reflexivity.
Qed.

Lemma filed_demote (vs : gmap string DocumentVersion) (where_ : DocumentVersion -> bool) :
  filed <$> ((fun v => if where_ v then writeData notPrimaryData v else v) <$> vs)
  = filed <$> vs.
Proof.
  rewrite <- map_fmap_compose. apply map_fmap_ext.
  intros id v _. simpl. destruct (where_ v); reflexivity.
Qed.

Lemma enablePages_files env payload numPages w :
  filed <$> versions (fst (enablePages env payload numPages w)) = filed <$> versions w.
Proof.
  unfold enablePages. step.
  destruct (versions w !! documentVersionId payload) as [v1|] eqn:Hv1; simpl;
    [|reflexivity].
  pose proof (filed_insert (versions w) (documentVersionId payload) v1
                (enablePagesData numPages) Hv1 eq_refl) as Hinsert.
  destruct (versionNumber payload) as [n|]; simpl;
    [destruct (n =? 0); simpl|];
    destruct (revalidate env); simpl; rewrite ?filed_demote; exact Hinsert.
Qed.

Lemma convertPages_files env payload url numPages w :
  filed <$> versions (fst (convertPages env payload url numPages w))
  = filed <$> versions w.
Proof.
  unfold convertPages. step.
  set (w0 := withJournal _ w).
  pose proof (pageLoop_frame env (documentVersionId payload) url (teamId payload)
                numPages (Z.to_nat numPages) 0
                {| currentPage := 0; conversionWithoutError := true |} w0)
    as ([vars Hvars] & _ & Hlev).
  destruct (pageLoop _ _ _ _ _ _ _ _ w0) as [w1 r1]. simpl in *. subst r1.
  apply filed_levelled in Hlev.
  destruct (conversionWithoutError vars); simpl.
  - rewrite enablePages_files. exact Hlev.
  - exact Hlev.
Qed.

Lemma countThenConvert_files env payload url w :
  filed <$> versions (fst (countThenConvert env payload url w)) = filed <$> versions w.
Proof.
  unfold countThenConvert. step.
  destruct (getPdfPageCount env) as [n|]; simpl; [|reflexivity].
  destruct (n <? 1); simpl; [reflexivity|].
  rewrite convertPages_files. reflexivity.
Qed.

(** Whatever a rasterization run does and however it ends, it leaves
    the file, the type and the storage type of every version alone. *)
Lemma convertPdfToImage_files env payload w :
  filed <$> versions (fst (convertPdfToImage env payload w)) = filed <$> versions w.
Proof.
  unfold convertPdfToImage. step.
  destruct (versions w !! documentVersionId payload) as [v|]; simpl; [|reflexivity].
  destruct (getFile env) as [[url|]|]; simpl; [|reflexivity..].
  destruct (String.eqb url EmptyString); simpl; [reflexivity|].
  destruct (v_numPages v) as [n|]; [destruct ((n =? 0) || (n =? 1))|];
    rewrite ?countThenConvert_files, ?convertPages_files; reflexivity.
Qed.

Lemma filed_lookup (vs vs' : gmap string DocumentVersion) id v :
  filed <$> vs' = filed <$> vs -> vs !! id = Some v ->
  exists v', vs' !! id = Some v' /\ filed v' = filed v.
Proof.
  intros Hsame Hv.
  assert ((filed <$> vs') !! id = (filed <$> vs) !! id) as Hid
    by (rewrite Hsame; reflexivity).
  rewrite !lookup_fmap, Hv in Hid. simpl in Hid.
  destruct (vs' !! id) as [v'|]; simpl in Hid; [|discriminate].
  exists v'. split; [reflexivity|]. congruence.
Qed.

Lemma requests_app j1 j2 : requests (j1 ++ j2) = (requests j1 + requests j2)%nat.
Proof. unfold requests. rewrite filter_app, length_app. reflexivity. Qed.

Lemma waits_app j1 j2 : waits (j1 ++ j2) = waits j1 ++ waits j2.
Proof. unfold waits. apply omap_app. Qed.

Lemma raster_no_requests evs :
  forallb rasterEvent evs = true -> requests evs = 0%nat /\ waits evs = [].
Proof.
  induction evs as [|e evs IH]; simpl; [auto|].
  intros [He Hevs]%andb_true_iff. destruct (IH Hevs) as [Hr Hw].
  unfold requests, waits in *. simpl.
  destruct e as [[]| | | | |]; simpl in *; try discriminate; auto.
Qed.

(** ** A conversion whose previews fail *)

Lemma sourceOf_version w d v name_ orig :
  sourceOf (documentWithVersion w d v) = Some (name_, orig) ->
  exists ver, versions w !! v = Some ver /\ v_documentId ver = d.
Proof.
  unfold sourceOf, documentWithVersion.
  destruct (documents w !! d); [|discriminate].
  destruct (versions w !! v) as [ver|]; [|discriminate].
  destruct (String.eqb_spec (v_documentId ver) d); [|discriminate]. eauto.
Qed.

(** Saving the PDF when the store takes it and the version is there:
    the result is the success object whatever the rasterization did. *)
Lemma savePdf_saved stage previews done s3 raster d v t fileName orig buf w ver :
  isFulfilled (send s3) = true ->
  versions w !! v = Some ver ->
  let run := savePdf stage previews done s3 raster d v t fileName orig buf w in
  snd run = Fulfilled (Some {| success := true; resultMessage := done;
                               totalPages := None |})
  /\ (exists evs, journal (fst run) = journal w ++ evs
                  /\ requests evs = 0%nat /\ waits evs = [])
  /\ exists v', versions (fst run) !! v = Some v'
                /\ filed v' = (storageKey t
                                 (default (newId s3) (matchDocId orig)) fileName,
                               "pdf", S3_PATH).
Proof.
  intros Hsend Hver. unfold savePdf, putFileServer, putFileInS3Server, storageKey.
  step. destruct (pathParse fileName) as [name_ ext]. simpl.
  destruct (send s3); simpl; [|discriminate].
  rewrite append_slash_nonempty. simpl. rewrite Hver. simpl.
  match goal with
  | |- context [convertPdfToImage ?e ?p ?W] =>
      destruct (emits_convertPdfToImage e p W) as (evs & Hj & Hevs);
      pose proof (convertPdfToImage_files e p W) as Hfiles;
      destruct (convertPdfToImage e p W) as [w1 r1]
  end.
  simpl in *. split; [reflexivity|]. split.
  - eexists. rewrite Hj. simpl. rewrite <- !app_assoc. split; [reflexivity|].
    destruct (raster_no_requests evs Hevs) as [Hr Hw].
    rewrite requests_app, waits_app, (requests_app evs), (waits_app evs), Hr, Hw.
    split; reflexivity.
  - destruct (filed_lookup _ _ v _ Hfiles (lookup_insert_eq _ _ _)) as (v' & Hv' & Hf).
    exists v'. split; [exact Hv'|]. rewrite Hf. reflexivity.
Qed.

Lemma submitConversion_first_ok stage fetchAt w r :
  fetchAt 0%nat = Fulfilled r -> ok r = true ->
  submitConversion stage fetchAt w
  = (withJournal (journal w ++ [Submit]) w, Fulfilled r).
Proof.
  intros Hfetch Hok. unfold submitConversion, submitLoop.
  change (Z.to_nat maxRetries) with 3%nat. step.
  rewrite Hfetch. simpl. rewrite Hok. simpl. rewrite Hok. reflexivity.
Qed.

(** X8.  A conversion through the conversion service whose first request is
    answered with the PDF, and whose PDF the store takes, returns its
    success object after that one request, and the version then points
    to the stored PDF, whatever becomes of the page previews: an
    error of the rasterization is caught and the result does not tell. *)
Theorem conversion_succeeds_whatever_the_previews env d v t w name_ orig url r buf :
  bool_decide (t ∈ teams w) = true ->
  sourceOf (documentWithVersion w d v) = Some (name_, orig) ->
  sourceUrl env = Fulfilled url ->
  fetchAt env 0%nat = Fulfilled r ->
  ok r = true ->
  arrayBuffer r = Fulfilled buf ->
  isFulfilled (send (convertS3 env)) = true ->
  forall run done,
    (run = convertCadToPdf env d v t w
     /\ done = "Successfully converted CAD file to PDF")
    \/ (run = convertOfficeToPdfRemote env d v t w
        /\ done = "Successfully converted Office document to PDF") ->
    snd run = Fulfilled (Some {| success := true; resultMessage := done;
                                 totalPages := None |})
    /\ (exists evs, journal (fst run) = journal w ++ evs
                    /\ requests evs = 1%nat /\ waits evs = [])
    /\ exists v', versions (fst run) !! v = Some v'
                  /\ v_file v'
                     = storageKey t (default (newId (convertS3 env)) (matchDocId orig))
                         (name_ +:+ ".pdf")
                  /\ v_type v' = "pdf"
                  /\ v_storageType v' = S3_PATH.
Proof.
  intros Hteam Hsource Hurl Hfetch Hok Hbuf Hsend run done Hrun.
  destruct (sourceOf_version w d v name_ orig Hsource) as (ver & Hver & _).
  assert (exists stage previews pre,
             run = savePdf stage previews done (convertS3 env) (rasterEnv env)
                     d v t (name_ +:+ ".pdf") orig buf
                     (withJournal (journal w ++ pre) w)
             /\ requests pre = 1%nat /\ waits pre = [])
    as (stage & previews & pre & -> & Hreq & Hwaits).
  { destruct Hrun as [[-> ->] | [-> ->]].
    - exists CadToPdf, 80. eexists.
      unfold convertCadToPdf. step. rewrite Hteam. simpl.
      change (documentWithVersion (withJournal _ w) d v) with (documentWithVersion w d v).
      rewrite Hsource. simpl. rewrite Hurl. simpl.
      rewrite (submitConversion_first_ok CadToPdf (fetchAt env) _ r Hfetch Hok).
      simpl. rewrite Hbuf. simpl. rewrite <- !app_assoc. simpl.
      split; [reflexivity|]. split; reflexivity.
    - exists OfficeToPdf, 40. eexists.
      unfold convertOfficeToPdfRemote. step. rewrite Hteam. simpl.
      change (documentWithVersion (withJournal _ w) d v) with (documentWithVersion w d v).
      rewrite Hsource. simpl. rewrite Hurl. simpl.
      rewrite (submitConversion_first_ok OfficeToPdf (fetchAt env) _ r Hfetch Hok).
      simpl. rewrite Hbuf. simpl. rewrite <- !app_assoc. simpl.
      split; [reflexivity|]. split; reflexivity. }
  destruct (savePdf_saved stage previews done (convertS3 env) (rasterEnv env)
              d v t (name_ +:+ ".pdf") orig buf (withJournal (journal w ++ pre) w)
              ver Hsend Hver)
    as (Hres & (evs & Hj & Hr & Hw) & (v' & Hv' & Hfiled)).
  split; [exact Hres|]. split.
  - exists (pre ++ evs). rewrite Hj. simpl. rewrite app_assoc.
    split; [reflexivity|].
    rewrite requests_app, waits_app, Hreq, Hwaits, Hr, Hw. split; reflexivity.
  - exists v'. split; [exact Hv'|]. injection Hfiled as -> -> ->. auto.
Qed.

(** ** A conversion that has nothing to convert *)

Lemma sourceOf_missing w d v :
  documents w !! d = None
  \/ versions w !! v = None
  \/ (exists ver, versions w !! v = Some ver
                  /\ (v_documentId ver <> d
                      \/ falsy (v_originalFile ver) = true
                      \/ falsy (v_contentType ver) = true)) ->
  sourceOf (documentWithVersion w d v) = None.
Proof.
  unfold sourceOf, documentWithVersion.
  intros [Hd | [Hv | (ver & Hv & Hver)]].
  - rewrite Hd. reflexivity.
  - destruct (documents w !! d); [|reflexivity]. rewrite Hv. reflexivity.
  - destruct (documents w !! d); [|reflexivity]. rewrite Hv.
    destruct (String.eqb_spec (v_documentId ver) d) as [Heq|]; [|reflexivity].
    destruct Hver as [Hne | [-> | ->]]; [contradiction|reflexivity|].
    rewrite orb_true_r. reflexivity.
Qed.

(** X9.  A converter asked about a team that is not there, a document that
    is not there, a version that is not there or is a version of
    another document, or a version without original file or without
    content type, reports 0 percent and returns nothing: it makes no
    request to the conversion service and leaves versions, pages and
    bucket alone. *)
Theorem no_conversion_without_source env d v t w :
  t ∉ teams w
  \/ documents w !! d = None
  \/ versions w !! v = None
  \/ (exists ver, versions w !! v = Some ver
                  /\ (v_documentId ver <> d
                      \/ falsy (v_originalFile ver) = true
                      \/ falsy (v_contentType ver) = true)) ->
  forall run,
    run = convertCadToPdf env d v t w \/ run = convertOfficeToPdfRemote env d v t w ->
    snd run = Fulfilled None
    /\ (exists evs, journal (fst run) = journal w ++ evs
                    /\ requests evs = 0%nat
                    /\ (last (percentages CadToPdf evs) = Some 0
                        \/ last (percentages OfficeToPdf evs) = Some 0))
    /\ versions (fst run) = versions w
    /\ pages (fst run) = pages w
    /\ bucket (fst run) = bucket w.
Proof.
  intros Hgiven.
  assert (bool_decide (t ∈ teams w) = false
          \/ sourceOf (documentWithVersion w d v) = None) as Hmissing.
  { destruct Hgiven as [Hteam | Hsource].
    - left. apply bool_decide_eq_false. exact Hteam.
    - right. apply sourceOf_missing. exact Hsource. }
  clear Hgiven. intros run [-> | ->].
  - unfold convertCadToPdf. step.
    destruct (bool_decide (t ∈ teams w)) eqn:Hteam; simpl.
    + destruct Hmissing as [|Hsource]; [discriminate|].
      change (documentWithVersion (withJournal _ w) d v) with (documentWithVersion w d v).
      rewrite Hsource. simpl. split; [reflexivity|]. split; [|auto].
      eexists. rewrite <- app_assoc. split; [reflexivity|]. split; [reflexivity|].
      left. reflexivity.
    + split; [reflexivity|]. split; [|auto].
      eexists. rewrite <- app_assoc. split; [reflexivity|]. split; [reflexivity|].
      left. reflexivity.
  - unfold convertOfficeToPdfRemote. step.
    destruct (bool_decide (t ∈ teams w)) eqn:Hteam; simpl.
    + destruct Hmissing as [|Hsource]; [discriminate|].
      change (documentWithVersion (withJournal _ w) d v) with (documentWithVersion w d v).
      rewrite Hsource. simpl. split; [reflexivity|]. split; [|auto].
      eexists. rewrite <- app_assoc. split; [reflexivity|]. split; [reflexivity|].
      right. reflexivity.
    + split; [reflexivity|]. split; [|auto].
      eexists. rewrite <- app_assoc. split; [reflexivity|]. split; [reflexivity|].
      right. reflexivity.
Qed.

(** ** The office converter that runs libreoffice-convert *)

(** X10.  With the document downloaded, an error of libreoffice-convert, and
    an error of the store when the PDF is uploaded, is thrown on as
    "Document conversion failed: " with the message of the error, after
    a progress update of 0 percent; the version and the bucket are
    then as they were. *)
Theorem office_conversion_failure_is_wrapped
    env d v t w name_ orig url response fileBuffer error :
  bool_decide (t ∈ teams w) = true ->
  sourceOf (documentWithVersion w d v) = Some (name_, orig) ->
  officeSourceUrl env = Fulfilled url ->
  isFulfilled (officeMkdir env) = true ->
  officeDownload env = Fulfilled response ->
  ok response = true ->
  arrayBuffer response = Fulfilled fileBuffer ->
  isFulfilled (officeWriteFile env) = true ->
  libreConvert env = Rejected error
  \/ (isFulfilled (libreConvert env) = true /\ send (officeS3 env) = Rejected error) ->
  let run := convertOfficeToPdf env d v t w in
  snd run = Rejected {| message := "Document conversion failed: " +:+ message error |}
  /\ (exists evs, journal (fst run) = journal w ++ evs
                  /\ last (percentages OfficeToPdf evs) = Some 0)
  /\ versions (fst run) = versions w
  /\ pages (fst run) = pages w
  /\ bucket (fst run) = bucket w.
Proof.
  intros Hteam Hsource Hurl Hmkdir Hdownload Hok Hbuf Hwrite Hfails run. subst run.
  unfold convertOfficeToPdf. step. rewrite Hteam. simpl.
  change (documentWithVersion (withJournal _ w) d v) with (documentWithVersion w d v).
  rewrite Hsource. simpl. rewrite Hurl. simpl.
  destruct (officeMkdir env); [|discriminate]. simpl.
  rewrite Hdownload. simpl. rewrite Hok. simpl. rewrite Hbuf. simpl.
  destruct (officeWriteFile env); [|discriminate]. simpl.
  destruct Hfails as [-> | [Hconverted Hsend]]; simpl.
  - split; [reflexivity|]. split; [|auto].
    eexists. rewrite <- !app_assoc. split; [reflexivity|]. reflexivity.
  - destruct (libreConvert env) as [pdfBuffer|]; [|discriminate]. simpl.
    unfold savePdf, putFileServer, putFileInS3Server. step.
    destruct (pathParse (stripExtension name_ +:+ ".pdf")) as [base ext].
    rewrite Hsend. simpl.
    split; [reflexivity|]. split; [|auto].
    eexists. rewrite <- !app_assoc. split; [reflexivity|]. reflexivity.
Qed.

(** ** The video optimizer: what is written, and when *)

(** X11.  A run that does not get to the metadata of the video (no signed
    url, no temp directory, a response without body, a failed download
    or a failed probe) throws, starts no encoding, and writes nothing;
    a probe that finds no video stream throws "No video stream
    found". *)
Theorem failed_probe_writes_nothing env url team doc vid fileSize w :
  downloads env = false \/ isFulfilled (probeMetadata (ffprobe env)) = false ->
  let run := optimizeVideo env url team doc vid fileSize w in
  isFulfilled (snd run) = false
  /\ (exists evs, journal (fst run) = journal w ++ evs
                  /\ existsb isTranscode evs = false)
  /\ versions (fst run) = versions w
  /\ pages (fst run) = pages w
  /\ bucket (fst run) = bucket w
  /\ (downloads env = true ->
      forall data, ffprobe env = Fulfilled data -> videoStream data = None ->
                   snd run = Rejected {| message := "No video stream found" |}).
Proof.
  intros Hfails run. subst run. unfold optimizeVideo, persistDuration, downloads in *.
  step.
  destruct (videoFileUrl env); simpl in *;
    [|split; [reflexivity|split; [eexists; split; reflexivity|]];
      repeat split; discriminate].
  destruct (videoMkdir env); simpl in *;
    [|split; [reflexivity|split; [eexists; rewrite <- app_assoc; split; reflexivity|]];
      repeat split; discriminate].
  destruct (videoHasBody env) as [[|]|]; simpl in *;
    [| split; [reflexivity|split; [eexists; rewrite <- app_assoc; split; reflexivity|]];
       repeat split; discriminate
     | split; [reflexivity|split; [eexists; rewrite <- app_assoc; split; reflexivity|]];
       repeat split; discriminate].
  destruct (videoDownload env); simpl in *;
    [|split; [reflexivity|split; [eexists; rewrite <- !app_assoc; split; reflexivity|]];
      repeat split; discriminate].
  destruct Hfails as [|Hprobe]; [discriminate|].
  destruct (probeMetadata (ffprobe env)) as [metadata|error] eqn:Hmeta;
    [discriminate|]. simpl.
  split; [reflexivity|].
  split; [eexists; rewrite <- !app_assoc; split; reflexivity|].
  repeat split.
  intros _ data Hdata Hnone. unfold probeMetadata in Hmeta.
  rewrite Hdata, Hnone in Hmeta. congruence.
Qed.




(** ** Deleting and copying in the object store *)

Lemma chunksFrom_spec contents fuel :
  forall i,
    (length contents - i <= fuel)%nat ->
    concat (chunksFrom fuel i contents) = drop i contents
    /\ Forall (fun chunk => (1 <= length chunk <= 1000)%nat) (chunksFrom fuel i contents)
    /\ length (chunksFrom fuel i contents) = ((length contents - i + 999) / 1000)%nat.
Proof.
  induction fuel as [|fuel IH]; intros i Hfuel.
  - simpl. rewrite drop_ge by lia.
    split; [reflexivity|]. split; [constructor|].
    replace (length contents - i + 999)%nat with 999%nat by lia. reflexivity.
  - cbn [chunksFrom]. destruct (Nat.ltb_spec i (length contents)) as [Hi|Hi].
    + destruct (IH (i + 1000)%nat ltac:(lia)) as (Hconcat & Hsizes & Hcount).
      split; [|split].
      * simpl. rewrite Hconcat, <- drop_drop. apply take_drop.
      * constructor; [|exact Hsizes].
        rewrite length_take, length_drop. lia.
      * cbn [length]. rewrite Hcount.
        destruct (le_lt_dec 1000 (length contents - i)) as [Hfull|Hlast].
        -- replace (length contents - i + 999)%nat
             with ((length contents - (i + 1000) + 999) + 1 * 1000)%nat by lia.
           rewrite Nat.div_add by lia. lia.
        -- replace (length contents - (i + 1000))%nat with 0%nat by lia.
           change (S ((0 + 999) / 1000)) with 1%nat.
           apply (Nat.div_unique _ _ 1 (length contents - i - 1)); lia.
    + rewrite drop_ge by lia.
      split; [reflexivity|]. split; [constructor|].
      replace (length contents - i + 999)%nat with 999%nat by lia. reflexivity.
Qed.

(** X13.  The chunks that [deleteTeamFilesFromS3Server] cuts the listed keys
    into are the listed keys, in order, each key once; every chunk has
    at least 1 and at most 1000 keys, and there are as few chunks as
    that allows. *)
Theorem chunksOf_partition contents :
  concat (chunksOf contents) = contents
  /\ Forall (fun chunk => (1 <= length chunk <= 1000)%nat) (chunksOf contents)
  /\ length (chunksOf contents) = ((length contents + 999) / 1000)%nat.
Proof.
  destruct (chunksFrom_spec contents (length contents) 0 ltac:(lia))
    as (Hconcat & Hsizes & Hcount).
  unfold chunksOf. rewrite Nat.sub_0_r in Hcount. auto.
Qed.

Lemma deleteChunks_sent store chunks :
  forall sent,
    exists done,
      fst (deleteChunks store chunks sent) = sent ++ (DeleteObjects <$> done)
      /\ done `prefix_of` chunks
      /\ (isFulfilled (snd (deleteChunks store chunks sent)) = true -> done = chunks).
Proof.
  induction chunks as [|chunk rest IH]; intros sent; simpl.
  - exists []. rewrite app_nil_r. split; [reflexivity|]. split; [reflexivity|auto].
  - destruct (store sent (DeleteObjects chunk)) as [listing|error]; simpl.
    + destruct (IH (sent ++ [DeleteObjects chunk])) as (done & Hsent & Hprefix & Hall).
      exists (chunk :: done). rewrite Hsent, <- app_assoc.
      split; [reflexivity|]. split; [apply prefix_cons; exact Hprefix|].
      intros Hok. rewrite (Hall Hok). reflexivity.
    + exists [chunk]. split; [reflexivity|].
      split; [apply prefix_cons, prefix_nil|discriminate].
Qed.

(** X14.  Whatever the store answers and however deep the calls go, the
    function sends nothing but listings under the prefix of the team
    and deletions of at least 1 and at most 1000 keys. *)
Theorem team_files_commands store fuel teamId :
  forall sent,
    exists commands,
      fst (deleteTeamFilesFromS3Server store fuel teamId sent) = sent ++ commands
      /\ Forall (teamCommand teamId) commands.
Proof.
  induction fuel as [|fuel IH]; intros sent; simpl.
  - exists []. rewrite app_nil_r. split; [reflexivity|constructor].
  - set (listed := sent ++ [ListObjectsV2 (teamId +:+ "/")]).
    destruct (store sent (ListObjectsV2 (teamId +:+ "/"))) as [listing|error];
      [|exists [ListObjectsV2 (teamId +:+ "/")];
        split; [reflexivity|repeat constructor]].
    destruct (nothingListed listing);
      [exists [ListObjectsV2 (teamId +:+ "/")];
       split; [reflexivity|repeat constructor]|].
    destruct (deleteChunks_sent store (chunksOf (default [] (Contents listing))) listed)
      as (done & Hsent & Hprefix & _).
    assert (Forall (teamCommand teamId) (DeleteObjects <$> done)) as Hdone.
    { destruct (chunksFrom_spec (default [] (Contents listing))
                  (length (default [] (Contents listing))) 0 ltac:(lia))
        as (_ & Hsizes & _).
      fold (chunksOf (default [] (Contents listing))) in Hsizes.
      destruct Hprefix as [more Hmore]. rewrite Hmore in Hsizes.
      apply Forall_app in Hsizes as [Hsizes _].
      apply Forall_fmap. exact Hsizes. }
    destruct (deleteChunks store _ listed) as [sent1 [[]|error]]; simpl in *.
    + destruct (IsTruncated listing).
      * destruct (IH sent1) as (commands & Hrest & Hcommands).
        destruct (deleteTeamFilesFromS3Server store fuel teamId sent1)
          as [sent2 [b|]]; simpl in *; subst sent2 sent1 listed;
          (eexists; rewrite <- !app_assoc; split; [reflexivity|]);
          (constructor; [reflexivity|]); apply Forall_app; auto.
      * subst sent1 listed. eexists. rewrite <- app_assoc. split; [reflexivity|].
        constructor; [reflexivity|exact Hdone].
    + subst sent1 listed. eexists. rewrite <- app_assoc. split; [reflexivity|].
      constructor; [reflexivity|exact Hdone].
Qed.

Ltac open_round :=
  repeat match goal with
         | |- _ /\ _ => split
         | |- _ <-> _ => split
         | |- forall _, _ => intro
         | H : _ /\ _ |- _ => destruct H
         | H : Fulfilled _ = Fulfilled _ |- _ => injection H as <-
         end.

(** X15.  What the function returns is decided by its first listing and the
    deletions that follow it: it returns [false] exactly when that
    listing is rejected, or lists something and one of the deletions
    of its chunks is rejected.  A listing that lists nothing is
    answered with [true] and no deletion; and what the call that
    follows a truncated listing returns is never passed on, so a
    failure there still ends in [true].  A listing that is not
    truncated ends the run. *)
Theorem team_files_result_is_that_of_the_first_round store fuel teamId sent :
  let listing := store sent (ListObjectsV2 (teamId +:+ "/")) in
  let listed := sent ++ [ListObjectsV2 (teamId +:+ "/")] in
  let run := deleteTeamFilesFromS3Server store (S fuel) teamId sent in
  (snd run = Some false <->
   match listing with
   | Rejected _ => True
   | Fulfilled listedObjects =>
       nothingListed listedObjects = false
       /\ isFulfilled (snd (deleteChunks store
                              (chunksOf (default [] (Contents listedObjects)))
                              listed)) = false
   end)
  /\ (forall listedObjects,
        listing = Fulfilled listedObjects -> nothingListed listedObjects = true ->
        run = (listed, Some true))
  /\ (forall listedObjects,
        listing = Fulfilled listedObjects -> IsTruncated listedObjects = false ->
        snd run <> None)
  /\ (forall listedObjects,
        listing = Fulfilled listedObjects -> nothingListed listedObjects = false ->
        isFulfilled (snd (deleteChunks store
                            (chunksOf (default [] (Contents listedObjects)))
                            listed)) = true ->
        IsTruncated listedObjects = true ->
        forall answer,
          snd (deleteTeamFilesFromS3Server store fuel teamId
                 (fst (deleteChunks store
                         (chunksOf (default [] (Contents listedObjects))) listed)))
          = Some answer ->
          snd run = Some true).
Proof.
  intros listing listed run. subst run. simpl. fold listing. fold listed.
  destruct listing as [listedObjects|error];
    [|open_round; try discriminate; reflexivity].
  open_round;
    destruct (nothingListed listedObjects); simpl in *; try congruence;
    destruct (deleteChunks store _ listed) as [sent1 [[]|?]]; simpl in *;
    try congruence;
    destruct (IsTruncated listedObjects); try congruence;
    destruct (deleteTeamFilesFromS3Server store fuel teamId sent1) as [? [?|]];
    simpl in *; congruence.
Qed.

(** X16.  [deleteFileFromS3] answers [true] exactly when the prefix is not
    empty, the listing came back with something in it and the one
    deletion of what was listed went through.  With an empty prefix it
    sends nothing; otherwise it lists once and deletes at most once,
    all the listed keys in that one command, [IsTruncated] or not. *)
Theorem deleteFile_lists_once_deletes_once store data sent :
  let run := deleteFileFromS3 store data sent in
  let listed := sent ++ [ListObjectsV2 data] in
  (snd run = true <->
   data <> EmptyString
   /\ exists keys truncated,
        keys <> []
        /\ store sent (ListObjectsV2 data)
           = Fulfilled {| Contents := Some keys; IsTruncated := truncated |}
        /\ isFulfilled (store listed (DeleteObjects keys)) = true)
  /\ (data = EmptyString -> fst run = sent)
  /\ (data <> EmptyString ->
      fst run = listed
      \/ exists keys truncated,
           store sent (ListObjectsV2 data)
           = Fulfilled {| Contents := Some keys; IsTruncated := truncated |}
           /\ fst run = listed ++ [DeleteObjects keys]).
Proof.
  intros run listed. subst run. unfold deleteFileFromS3.
  destruct (String.eqb_spec data EmptyString) as [->|Hdata]; simpl.
  - split; [split; [discriminate|intros [? _]; contradiction]|].
    split; [reflexivity|contradiction].
  - fold listed. split; [|split; [contradiction|intros _]].
    + destruct (store sent (ListObjectsV2 data)) as [[contents truncated]|error];
        [|split; [discriminate|intros (_ & ? & ? & _ & ? & _); discriminate]].
      unfold nothingListed. simpl.
      destruct contents as [[|key keys]|]; simpl.
      * split; [discriminate|]. intros (_ & ? & ? & ? & [= <- <-] & _). contradiction.
      * destruct (store listed (DeleteObjects (key :: keys))) eqn:Hdelete; simpl.
        -- split; [|reflexivity]. intros _. split; [exact Hdata|].
           exists (key :: keys), truncated. rewrite Hdelete.
           split; [discriminate|split; reflexivity].
        -- split; [discriminate|]. intros (_ & ? & ? & _ & [= <- <-] & Hok).
           rewrite Hdelete in Hok. discriminate.
      * split; [discriminate|]. intros (_ & ? & ? & _ & [=] & _).
    + destruct (store sent (ListObjectsV2 data)) as [[contents truncated]|error];
        [|left; reflexivity].
      unfold nothingListed. simpl.
      destruct contents as [[|key keys]|]; simpl; [left; reflexivity| |left; reflexivity].
      right. exists (key :: keys), truncated.
      destruct (store listed (DeleteObjects (key :: keys))); split; reflexivity.
Qed.

Lemma hasSlash_lastSegment s : hasSlash (lastSegment s) = false.
Proof.
  induction s as [|c s IH]; [reflexivity|]. simpl.
  destruct (isSlash c || hasSlash s) eqn:Hslash; [exact IH|]. exact Hslash.
Qed.

Lemma lastSegment_after_slash s t :
  hasSlash t = false -> lastSegment (s +:+ String "/" t) = t.
Proof.
  intros Ht. induction s as [|c s IH].
  - rewrite append_empty_l. simpl. destruct t; [reflexivity|].
    simpl in *. rewrite Ht. reflexivity.
  - rewrite append_cons. simpl.
    assert (hasSlash (s +:+ String "/" t) = true) as ->.
    { clear IH. induction s as [|c' s IHs]; [reflexivity|].
      rewrite append_cons. simpl. rewrite IHs. apply orb_true_r. }
    rewrite orb_true_r. exact IH.
Qed.

Lemma lastSegment_splits s :
  exists directory, s = directory +:+ lastSegment s
                    /\ (directory = EmptyString
                        \/ exists d, directory = d +:+ "/").
Proof.
  induction s as [|c s (directory & Hs & Hdirectory)].
  - exists EmptyString. auto.
  - simpl. destruct (isSlash c) eqn:Hc; simpl.
    + unfold isSlash in Hc. apply Ascii.eqb_eq in Hc. subst c.
      exists (String "/" directory). rewrite append_cons, <- Hs.
      split; [reflexivity|]. right.
      destruct Hdirectory as [-> | [d ->]].
      * exists EmptyString. reflexivity.
      * exists (String "/" d). reflexivity.
    + destruct (hasSlash s) eqn:Hs'.
      * exists (String c directory). rewrite append_cons, <- Hs.
        split; [reflexivity|]. right.
        destruct Hdirectory as [-> | [d ->]].
        -- exfalso. rewrite append_empty_l in Hs.
           rewrite Hs, hasSlash_lastSegment in Hs'. discriminate.
        -- exists (String c d). reflexivity.
      * exists EmptyString. auto.
Qed.

(** X17.  A copy keeps the name of the file: the destination key is the
    team, the new document id and what follows the last slash of the
    source key, so the destination has the last segment of the source
    and, for a document id of the usual form, is found again under
    that id.  Whatever makes the store reject the copy, the error
    thrown is "Failed to copy file in S3". *)
Theorem copy_keeps_the_file_name store uploadBucket documentId teamId filePath sent :
  let run := copyFileInS3Server store uploadBucket documentId teamId filePath sent in
  let destinationKey := teamId +:+ "/" +:+ documentId +:+ "/" +:+ lastSegment filePath in
  fst run = sent ++ [CopyObject (uploadBucket +:+ "/" +:+ filePath) destinationKey]
  /\ (exists directory, filePath = directory +:+ lastSegment filePath
                        /\ (directory = EmptyString \/ exists d, directory = d +:+ "/"))
  /\ lastSegment destinationKey = lastSegment filePath
  /\ (forall run_, run_ <> EmptyString -> hasSlash run_ = false ->
        documentId = "doc_" +:+ run_ -> mentionsDoc teamId = false ->
        matchDocId destinationKey = Some documentId)
  /\ match store sent (CopyObject (uploadBucket +:+ "/" +:+ filePath) destinationKey) with
     | Fulfilled _ => snd run = Fulfilled (S3_PATH, (filePath, destinationKey))
     | Rejected _ => snd run = Rejected {| message := "Failed to copy file in S3" |}
     end.
Proof.
  intros run destinationKey. subst run. unfold copyFileInS3Server. fold destinationKey.
  simpl. split; [|split; [apply lastSegment_splits|split; [|split]]].
  - destruct (store sent _); reflexivity.
  - subst destinationKey.
    change (lastSegment ((teamId +:+ "/" +:+ documentId) +:+ String "/" (lastSegment filePath))
            = lastSegment filePath) || idtac.
    rewrite <- (lastSegment_after_slash (teamId +:+ "/" +:+ documentId)
                  (lastSegment filePath) (hasSlash_lastSegment filePath)) at 2.
    f_equal. rewrite !append_assoc. reflexivity.
  - intros run_ Hne Hrun -> Hteam. subst destinationKey.
    change (matchDocId (teamId +:+ String "/" (("doc_" +:+ run_)
                          +:+ String "/" (lastSegment filePath)))
            = Some ("doc_" +:+ run_)).
    rewrite (matchDocId_skips teamId _ Hteam).
    exact (matchDocId_at_id run_ _ Hne Hrun).
  - destruct (store sent _); reflexivity.
Qed.

(** ** The rate limiter *)

#[local] Arguments Qceiling : simpl never.

Lemma replay_app requests duration identifier earlier later redis :
  replay requests duration identifier (earlier ++ later) redis
  = replay requests duration identifier later
      (replay requests duration identifier earlier redis).
Proof.
  revert redis. induction earlier as [|now earlier IH]; intros redis; [reflexivity|].
  simpl. apply IH.
Qed.

Lemma filter_filter_implies {A} (f g : A -> bool) l :
  (forall a, In a l -> f a = true -> g a = true) ->
  List.filter f (List.filter g l) = List.filter f l.
Proof.
  induction l as [|a l IH]; intros Himp; [reflexivity|]. simpl.
  destruct (g a) eqn:Hg; simpl.
  - rewrite IH by (intros; apply Himp; simpl; auto). reflexivity.
  - destruct (f a) eqn:Hf.
    + rewrite (Himp a (or_introl eq_refl) Hf) in Hg. discriminate.
    + apply IH. intros; apply Himp; simpl; auto.
Qed.

Lemma filter_all {A} (f : A -> bool) l :
  Forall (fun a => f a = true) l -> List.filter f l = l.
Proof.
  induction 1 as [|a l Ha _ IH]; [reflexivity|]. simpl. rewrite Ha, IH. reflexivity.
Qed.

Lemma filter_cons_if {A} (f : A -> bool) a l :
  List.filter f (a :: l) = if f a then a :: List.filter f l else List.filter f l.
Proof. reflexivity. Qed.

(** A member for each time, scored with it. *)
Lemma zRemRangeByScore_times max times :
  Forall (fun t => 0 <= t) times ->
  zRemRangeByScore 0 max ((fun t => (pretty t, t)) <$> times)
  = (fun t => (pretty t, t)) <$> List.filter (fun t => max <? t) times.
Proof.
  unfold zRemRangeByScore.
  induction 1 as [|t times Ht _ IH]; [reflexivity|].
  rewrite fmap_cons, !filter_cons_if, IH. cbv beta. cbn [snd].
  destruct (Z.leb_spec 0 t); [|lia].
  destruct (Z.leb_spec t max); destruct (Z.ltb_spec max t); try lia; reflexivity.
Qed.

Lemma zAdd_later now times :
  Forall (fun t => t < now) times ->
  zAdd now (pretty now) ((fun t => (pretty t, t)) <$> times)
  = (fun t => (pretty t, t)) <$> (times ++ [now]).
Proof.
  intros Hbefore. unfold zAdd. rewrite fmap_app. f_equal.
  apply filter_all. apply Forall_fmap.
  eapply Forall_impl; [exact Hbefore|]. intros t Ht. unfold compose. cbv beta in *. cbn [fst].
  destruct (String.eqb_spec (pretty t) (pretty now)) as [Heq|]; [|reflexivity].
  apply (inj pretty) in Heq. lia.
Qed.

Lemma increasing_cons t times :
  increasing (t :: times) = true ->
  increasing times = true /\ Forall (fun later => t < later) times.
Proof.
  revert t. induction times as [|next times IH]; intros t; [auto|].
  intros [Hnext Hrest]%andb_true_iff. apply Z.ltb_lt in Hnext.
  split; [exact Hrest|]. constructor; [exact Hnext|].
  destruct (IH next Hrest) as [_ Hlater].
  eapply Forall_impl; [exact Hlater|]. intros later Hlt. cbv beta in *. lia.
Qed.

Lemma strictly_before earlier now :
  increasing (earlier ++ [now]) = true -> Forall (fun t => t < now) earlier.
Proof.
  induction earlier as [|t earlier IH]; [constructor|].
  rewrite <- app_comm_cons. intros Hsorted.
  apply increasing_cons in Hsorted as [Hrest Hhead].
  constructor; [|exact (IH Hrest)].
  rewrite List.Forall_forall in Hhead. apply Hhead. apply in_elt.
Qed.

Lemma strictly_sorted_front (earlier : list Z) now :
  increasing (earlier ++ [now]) = true -> increasing earlier = true.
Proof.
  induction earlier as [|t earlier IH]; [reflexivity|].
  intros Hsorted. destruct earlier as [|next earlier]; [reflexivity|].
  rewrite <- !app_comm_cons in *.
  apply andb_true_iff in Hsorted as [Hnext Hrest].
  apply andb_true_iff. split; [exact Hnext|]. exact (IH Hrest).
Qed.

(** The sorted set of an identifier after requests at strictly
    increasing times: the times of the window that ends at the last
    request. *)
Lemma replay_window requests duration identifier times :
  0 < duration ->
  forall redis,
    redis !! ("papermark:rl:" +:+ identifier) = None ->
    increasing times = true ->
    Forall (fun t => 0 <= t) times ->
    default [] (zset <$> replay requests duration identifier times redis
                           !! ("papermark:rl:" +:+ identifier))
    = (fun t => (pretty t, t))
        <$> List.filter (fun t => default 0 (last times) - duration * 1000 <? t) times.
Proof.
  clear slugify pathParse. intros Hduration redis Hfresh.
  induction times as [|now earlier IH] using rev_ind; intros Hsorted Hpositive.
  - simpl. rewrite Hfresh. reflexivity.
  - rewrite replay_app. simpl.
    apply Forall_app in Hpositive as [Hpositive Hnow].
    pose proof (strictly_before earlier now Hsorted) as Hbefore.
    specialize (IH (strictly_sorted_front earlier now Hsorted) Hpositive).
    rewrite lookup_insert_eq. simpl. rewrite IH, last_snoc. simpl.
    rewrite zRemRangeByScore_times
      by (apply List.Forall_forall; intros t Ht;
          apply (proj1 (List.Forall_forall _ _) Hpositive);
          apply filter_In in Ht; tauto).
    rewrite filter_filter_implies.
    + rewrite zAdd_later.
      * rewrite List.filter_app. simpl.
        destruct (Z.ltb_spec (now - duration * 1000) now); [reflexivity|lia].
      * apply List.Forall_forall. intros t Ht. apply filter_In in Ht as [Ht _].
        exact (proj1 (List.Forall_forall _ _) Hbefore t Ht).
    + intros t Hin Ht. apply Z.ltb_lt in Ht. apply Z.ltb_lt.
      destruct (last earlier) as [previous|] eqn:Hlast; simpl.
      * assert (previous < now); [|lia].
        apply (proj1 (List.Forall_forall _ _) Hbefore).
        apply last_Some in Hlast as [front ->]. apply in_elt.
      * apply last_None in Hlast. subst earlier. destruct Hin.
Qed.

(** X18.  The sliding window: for an identifier that starts with no key,
    after requests at times that go up strictly, a request at a later
    time counts itself and the earlier requests made less than
    [duration] seconds before it, and that count decides the answer; a
    request made exactly [duration] seconds earlier no longer counts. *)
Theorem sliding_window_counts_the_last_seconds
    requests duration identifier earlier now redis :
  0 < duration ->
  redis !! ("papermark:rl:" +:+ identifier) = None ->
  increasing (earlier ++ [now]) = true ->
  Forall (fun t => 0 <= t) earlier ->
  let count := 1 + countAfter (now - duration * 1000) earlier in
  snd (limit requests duration Executed identifier now
         (replay requests duration identifier earlier redis))
  = {| rl_success := count <=? requests;
       rl_limit := requests;
       rl_remaining := Z.max 0 (requests - count);
       rl_reset := now + duration * 1000 |}.
Proof.
  clear slugify pathParse. intros Hduration Hfresh Hsorted Hpositive count.
  pose proof (replay_window requests duration identifier earlier Hduration redis
                Hfresh (strictly_sorted_front earlier now Hsorted) Hpositive)
    as Hwindow.
  pose proof (strictly_before earlier now Hsorted) as Hbefore.
  unfold limit. cbn [snd]. rewrite Hwindow.
  rewrite zRemRangeByScore_times
    by (apply List.Forall_forall; intros t Ht;
        apply (proj1 (List.Forall_forall _ _) Hpositive);
        apply filter_In in Ht; tauto).
  rewrite filter_filter_implies.
  - rewrite zAdd_later
      by (apply List.Forall_forall; intros t Ht; apply filter_In in Ht as [Ht _];
          exact (proj1 (List.Forall_forall _ _) Hbefore t Ht)).
    assert (orNumber
              (Some (zCard ((fun t => (pretty t, t))
                              <$> (List.filter (fun t => now - duration * 1000 <? t)
                                     earlier ++ [now])))) 0
            = count) as ->; [|reflexivity].
    unfold orNumber, zCard, count, countAfter.
    rewrite length_fmap, length_app. simpl.
    destruct (Z.eqb_spec (Z.of_nat (length (List.filter
                                              (fun t => now - duration * 1000 <? t)
                                              earlier) + 1)) 0); lia.
  - intros t Hin Ht. apply Z.ltb_lt in Ht. apply Z.ltb_lt.
    destruct (last earlier) as [previous|] eqn:Hlast; simpl.
    + assert (previous < now); [|lia].
      apply (proj1 (List.Forall_forall _ _) Hbefore).
      apply last_Some in Hlast as [front ->]. apply in_elt.
    + apply last_None in Hlast. subst earlier. destruct Hin.
Qed.

Lemma filter_filter_same {A} (f g : A -> bool) l :
  List.filter g (List.filter f (List.filter g l)) = List.filter f (List.filter g l).
Proof.
  apply filter_all. apply List.Forall_forall. intros a Ha.
  apply filter_In in Ha as [Ha _]. apply filter_In in Ha as [_ Hg]. exact Hg.
Qed.

Lemma filter_idempotent {A} (f : A -> bool) l :
  List.filter f (List.filter f l) = List.filter f l.
Proof.
  apply filter_all. apply List.Forall_forall. intros a Ha.
  apply filter_In in Ha as [_ Hf]. exact Hf.
Qed.

(** Adding the same member with the same score after the same removal
    changes nothing. *)
Lemma zAdd_twice min max score value (set : list (string * Z)) :
  zAdd score value
    (zRemRangeByScore min max (zAdd score value (zRemRangeByScore min max set)))
  = zAdd score value (zRemRangeByScore min max set).
Proof.
  unfold zAdd, zRemRangeByScore.
  rewrite !List.filter_app, !filter_filter_same.
  rewrite <- app_assoc. f_equal.
  simpl. destruct (negb _); simpl; rewrite ?String.eqb_refl; reflexivity.
Qed.

Lemma limit_twice requests duration identifier now (redis : gmap string RedisKey) :
  let once := limit requests duration Executed identifier now redis in
  limit requests duration Executed identifier now (fst once) = once.
Proof.
  intros once. subst once. unfold limit. cbn [fst].
  rewrite lookup_insert_eq. cbn [fmap option_fmap option_map default zset]. unfold id.
  rewrite zAdd_twice, insert_insert_eq. reflexivity.
Qed.

(** X19.  Requests of one identifier in the same millisecond count as one:
    the member added is the time itself, so the second request, and
    any number of them, leaves the sorted set as the first one left it
    and gets the answer of the first. *)
Theorem requests_in_one_millisecond_count_once
    requests duration identifier now (redis : gmap string RedisKey) n :
  let once := limit requests duration Executed identifier now redis in
  replay requests duration identifier (replicate (S n) now) redis = fst once
  /\ limit requests duration Executed identifier now
       (replay requests duration identifier (replicate (S n) now) redis)
     = once.
Proof.
  intros once.
  assert (replay requests duration identifier (replicate (S n) now) redis = fst once)
    as Hstate.
  { subst once. induction n as [|n IH]; [reflexivity|].
    change (replicate (S (S n)) now) with ([now] ++ replicate (S n) now).
    rewrite replay_app. cbn [replay].
    change (replicate (S n) now) with (now :: replicate n now) in *.
    cbn [replay] in *.
    rewrite limit_twice. exact IH. }
  split; [exact Hstate|]. rewrite Hstate. apply limit_twice.
Qed.

Lemma ceiling_of_one_and_a_half duration :
  0 <= duration -> duration <= Qceiling (inject_Z duration * (3 # 2)).
Proof.
  intros Hduration. rewrite <- (Qceiling_Z duration) at 1.
  apply Qceiling_resp_le.
  unfold Qle, Qmult, inject_Z. cbn [Qnum Qden]. lia.
Qed.

(** X20.  What an answer says: the limit is the configured one and the reset
    is one window after the request; a request is refused only when
    Redis executed the transaction, and then none remain; when Redis
    fails the request is let through with one remaining and the state
    is not touched; and after an executed request the key lives at
    least as long as the window, so a member that still counts is
    never lost to the expiry. *)
Theorem rate_limit_refuses_only_on_the_count
    requests duration reply identifier now (redis : gmap string RedisKey) :
  let run := limit requests duration reply identifier now redis in
  rl_limit (snd run) = requests
  /\ rl_reset (snd run) = now + duration * 1000
  /\ 0 <= rl_remaining (snd run)
  /\ (rl_success (snd run) = false ->
      rl_remaining (snd run) = 0
      /\ (reply = NullReply -> requests < 0)
      /\ forall error, reply <> ExecError error)
  /\ (forall error, reply = ExecError error ->
        run = (redis, {| rl_success := true; rl_limit := requests;
                         rl_remaining := 1;
                         rl_reset := now + duration * 1000 |}))
  /\ (reply = Executed -> 0 <= duration ->
      exists key seconds,
        fst run !! ("papermark:rl:" +:+ identifier) = Some key
        /\ expire key = Some seconds
        /\ duration * 1000 <= seconds * 1000
        /\ In (pretty now, now) (zset key)).
Proof.
  intros run. subst run. unfold limit.
  destruct reply as [| |error]; cbn [fst snd rl_limit rl_reset rl_remaining rl_success].
  - split; [reflexivity|]. split; [reflexivity|]. split; [lia|].
    split; [|split; [discriminate|]].
    + intros Hrefused. apply Z.leb_gt in Hrefused.
      split; [lia|]. split; discriminate.
    + intros _ Hduration. eexists _, _. rewrite lookup_insert_eq.
      split; [reflexivity|]. split; [reflexivity|].
      split; [pose proof (ceiling_of_one_and_a_half duration Hduration); lia|].
      unfold zAdd. apply in_or_app. right. left. reflexivity.
  - split; [reflexivity|]. split; [reflexivity|]. split; [lia|].
    split; [|split; discriminate].
    intros Hrefused. apply Z.leb_gt in Hrefused.
    split; [lia|]. split; [intros _; lia|discriminate].
  - split; [reflexivity|]. split; [reflexivity|]. split; [lia|].
    split; [discriminate|]. split; [reflexivity|discriminate].
Qed.

(** ** Webhooks *)

Lemma promiseAll_fulfilled {A} first (settled : list (outcome A)) values :
  promiseAll first settled = Fulfilled values <-> settled = Fulfilled <$> values.
Proof.
  unfold promiseAll. revert values.
  induction settled as [|[a|error] settled IH]; intros values.
  - simpl. split.
    + intros [= <-]. reflexivity.
    + destruct values; [reflexivity|discriminate].
  - cbn [omap list_omap]. cbn [omap list_omap] in IH.
    destruct (omap (fun o : outcome A =>
                      match o with Rejected e => Some e | Fulfilled _ => None end)
                   settled) as [|e errors].
    + split.
      * intros [= <-]. rewrite fmap_cons. f_equal. apply IH. reflexivity.
      * destruct values as [|b values]; [discriminate|].
        rewrite fmap_cons. intros [= -> Hrest].
        apply IH in Hrest. injection Hrest as ->. reflexivity.
    + split; [discriminate|].
      destruct values as [|b values]; [discriminate|].
      rewrite fmap_cons. intros [= -> Hrest]. apply IH in Hrest. discriminate.
  - cbn [omap list_omap].
    split; [discriminate|]. destruct values; discriminate.
Qed.

(** X21.  One endpoint that is down does not stand in the way of the
    others: with a payload prepared, [sendWebhooks] fulfils exactly
    when every signature could be made, and then gives one delivery
    for each webhook, in their order and with its url; a delivery says
    success exactly when the endpoint answered with a status in the
    200s, and a request that failed is a delivery without success that
    carries the message of the error.  With no webhook nothing is
    prepared or sent. *)
Theorem webhook_deliveries_stand_alone env webhooks payload :
  webhooks <> [] ->
  prepareWebhookPayload env = Fulfilled payload ->
  (isFulfilled (sendWebhooks env webhooks) = true
   <-> Forall (fun webhook =>
                 isFulfilled (createWebhookSignature env (secret webhook) payload)
                 = true) webhooks)
  /\ (forall deliveries,
        sendWebhooks env webhooks = Fulfilled deliveries ->
        exists sent,
          deliveries = Some sent
          /\ length sent = length webhooks
          /\ forall i webhook,
               webhooks !! i = Some webhook ->
               exists delivery signature,
                 sent !! i = Some delivery
                 /\ createWebhookSignature env (secret webhook) payload
                    = Fulfilled signature
                 /\ deliveryUrl delivery = webhookUrl webhook
                 /\ match postTo env webhook signature payload with
                    | Fulfilled response =>
                        deliverySuccess delivery = ok response
                        /\ deliveryStatus delivery = Some (status response)
                    | Rejected error =>
                        deliverySuccess delivery = false
                        /\ deliveryError delivery = Some (message error)
                    end)
  /\ sendWebhooks env [] = Fulfilled None.
Proof.
  intros Hsome Hpayload.
  assert (sendWebhooks env webhooks
          = match promiseAll (firstRejection env)
                    (sendWebhookDirectly env payload <$> webhooks) with
            | Fulfilled deliveries => Fulfilled (Some deliveries)
            | Rejected error => Rejected error
            end) as Hsend.
  { unfold sendWebhooks. destruct webhooks; [contradiction|].
    rewrite Hpayload. reflexivity. }
  split; [|split; [|reflexivity]].
  - rewrite Hsend. split.
    + destruct (promiseAll _ _) as [sent|] eqn:Hall; [|discriminate]. intros _.
      apply promiseAll_fulfilled in Hall.
      apply Forall_forall. intros webhook Hin.
      apply list_elem_of_lookup in Hin as [i Hi].
      assert ((sendWebhookDirectly env payload <$> webhooks) !! i
              = (Fulfilled <$> sent) !! i) as Hat by (rewrite Hall; reflexivity).
      rewrite !list_lookup_fmap, Hi in Hat. simpl in Hat.
      destruct (sent !! i); [|discriminate]. simpl in Hat.
      unfold sendWebhookDirectly in Hat.
      destruct (createWebhookSignature env (secret webhook) payload);
        [reflexivity|discriminate].
    + intros Hsigned.
      assert (exists sent, sendWebhookDirectly env payload <$> webhooks
                           = Fulfilled <$> sent) as [sent Hsent].
      { clear Hsend Hsome. induction Hsigned as [|webhook webhooks Hone _ [sent IH]].
        - exists []. reflexivity.
        - destruct (sendWebhookDirectly env payload webhook) as [delivery|] eqn:Hsent.
          + exists (delivery :: sent). rewrite !fmap_cons, Hsent, IH. reflexivity.
          + unfold sendWebhookDirectly in Hsent.
            destruct (createWebhookSignature env (secret webhook) payload) as [signature|];
              [|discriminate].
            destruct (postTo env webhook signature payload); discriminate. }
      apply promiseAll_fulfilled with (first := firstRejection env) in Hsent.
      rewrite Hsent. reflexivity.
  - intros deliveries. rewrite Hsend.
    destruct (promiseAll _ _) as [sent|] eqn:Hall; [|discriminate].
    intros [= <-]. exists sent. split; [reflexivity|].
    apply promiseAll_fulfilled in Hall.
    split.
    + apply (f_equal length) in Hall. rewrite !length_fmap in Hall. congruence.
    + intros i webhook Hi.
      assert ((sendWebhookDirectly env payload <$> webhooks) !! i
              = (Fulfilled <$> sent) !! i) as Hat by (rewrite Hall; reflexivity).
      rewrite !list_lookup_fmap, Hi in Hat. simpl in Hat.
      destruct (sent !! i) as [delivery|]; [|discriminate]. simpl in Hat.
      unfold sendWebhookDirectly in Hat.
      destruct (createWebhookSignature env (secret webhook) payload) as [signature|];
        [|discriminate].
      exists delivery, signature. split; [reflexivity|]. split; [reflexivity|].
      destruct (postTo env webhook signature payload);
        injection Hat as <-; simpl; auto.
Qed.

(** ** The upload of a version and the conversion it starts *)

Lemma uploadVersion_created env d body w id :
  snd (uploadVersion env d body w) = Fulfilled id ->
  let after := fst (uploadVersion env d body w) in
  versions w !! createdVersionId env = None
  /\ (exists v, versions after !! createdVersionId env = Some v
                /\ v_documentId v = d
                /\ v_isPrimary v = true
                /\ v_versionNumber v = currentVersionNumber env + 1)
  /\ pages after = pages w /\ bucket after = bucket w /\ journal after = journal w.
Proof.
  unfold uploadVersion, createVersion, demoteOthers. step.
  destruct (versions w !! createdVersionId env) as [taken|] eqn:Hfree; simpl;
    [discriminate|].
  intros _. split; [reflexivity|]. split; [|auto].
  eexists. rewrite !map_lookup_imap, lookup_insert_eq. simpl.
  rewrite !(String.eqb_refl (createdVersionId env)). cbn [negb].
  rewrite !andb_false_r. split; [reflexivity|]. auto.
Qed.

Lemma uploadVersion_rejected env d body w error :
  snd (uploadVersion env d body w) = Rejected error ->
  fst (uploadVersion env d body w) = w.
Proof.
  unfold uploadVersion, createVersion, demoteOthers. step.
  destruct (versions w !! createdVersionId env); simpl; [reflexivity|discriminate].
Qed.

#[local] Arguments uploadVersion : simpl never.
#[local] Arguments startedJobs : simpl never.

Ltac answered :=
  simpl;
  repeat match goal with
         | |- _ /\ _ => split
         | |- _ <-> _ => split
         end;
  try assumption;
  try (intros; discriminate);
  try (intros; congruence);
  try (intros [? | ?]; discriminate);
  try (intros; reflexivity);
  try (intros; split; reflexivity);
  try (intros; simpl; lia);
  try (intros ? []).

Lemma versionsHandle_answer env method teamId documentId body w :
  let run := versionsHandle env method teamId documentId body w in
  exists reply jobs,
    snd run = Fulfilled (reply, jobs)
    /\ (replyStatus reply = 405 <-> method <> "POST")
    /\ (method <> "POST" -> replyAllow reply = Some ["GET"])
    /\ (replyStatus reply = 405 \/ replyStatus reply = 401 -> fst run = w /\ jobs = [])
    /\ (method = "POST" -> sessionUser env = None -> replyStatus reply = 401)
    /\ (length jobs <= 1)%nat
    /\ forall job, In job jobs ->
         exists version,
           versions (fst run) !! newVersionId env = Some version
           /\ versions w !! newVersionId env = None
           /\ v_documentId version = documentId
           /\ v_isPrimary version = true
           /\ match job with
              | ConvertOfficeToPdfJob document versionId team =>
                  (uploadType body = "docs" \/ uploadType body = "slides")
                  /\ document = documentId /\ versionId = newVersionId env
                  /\ team = teamId
              | OptimizeVideoJob url team docId versionId size =>
                  uploadType body = "video"
                  /\ url = uploadUrl body /\ team = teamId
                  /\ docId = splitSlash (uploadUrl body) !! 1%nat
                  /\ versionId = newVersionId env
                  /\ size = orNumber (uploadFileSize body) 0
              | ConvertPdfToImageJob payload =>
                  uploadType body = "pdf"
                  /\ payload = {| documentId := documentId;
                                  documentVersionId := newVersionId env;
                                  teamId := teamId;
                                  versionNumber := Some (v_versionNumber version) |}
              end.
Proof.
  intros run. subst run. unfold versionsHandle.
  destruct (String.eqb_spec method "POST") as [->|Hmethod]; simpl.
  - destruct (sessionUser env) as [userId|]; simpl.
    + step.
      destruct (teamWithDocument env) as [document|error]; simpl.
      * destruct (latestVersionNumber document) as [latest|error]; simpl.
        -- match goal with
           | |- context [uploadVersion ?e ?d ?b ?W] =>
               pose proof (uploadVersion_created e d b W) as Hcreated;
               pose proof (uploadVersion_rejected e d b W) as Hrejected;
               destruct (uploadVersion e d b W) as [w1 [id|error]]
           end; simpl in *.
           ++ destruct (Hcreated id eq_refl)
                as (Hfree & (version & Hversion & Hdocument & Hprimary & Hnumber) & _).
              set (jobs := startedJobs teamId documentId body (newVersionId env)
                             (latest + 1)).
              assert ((length jobs <= 1)%nat
                      /\ forall job, In job jobs ->
                           match job with
                           | ConvertOfficeToPdfJob document versionId team =>
                               (uploadType body = "docs" \/ uploadType body = "slides")
                               /\ document = documentId
                               /\ versionId = newVersionId env /\ team = teamId
                           | OptimizeVideoJob url team docId versionId size =>
                               uploadType body = "video"
                               /\ url = uploadUrl body /\ team = teamId
                               /\ docId = splitSlash (uploadUrl body) !! 1%nat
                               /\ versionId = newVersionId env
                               /\ size = orNumber (uploadFileSize body) 0
                           | ConvertPdfToImageJob payload =>
                               uploadType body = "pdf"
                               /\ payload
                                  = {| documentId := documentId;
                                       documentVersionId := newVersionId env;
                                       teamId := teamId;
                                       versionNumber := Some (latest + 1) |}
                           end) as [Hlength Hjobs].
              { subst jobs. unfold startedJobs.
                destruct (String.eqb_spec (uploadType body) "docs") as [Hdocs|];
                  destruct (String.eqb_spec (uploadType body) "slides") as [Hslides|];
                  destruct (String.eqb_spec (uploadType body) "video") as [Hvideo|];
                  destruct (String.eqb_spec (uploadType body) "pdf") as [Hpdf|];
                  try congruence; simpl;
                  (split; [lia|]); intros job Hin;
                  repeat (destruct Hin as [<- | Hin]; [auto 10|]); destruct Hin. }
              assert (forall job, In job jobs ->
                        exists version0,
                          versions w1 !! newVersionId env = Some version0
                          /\ versions w !! newVersionId env = None
                          /\ v_documentId version0 = documentId
                          /\ v_isPrimary version0 = true
                          /\ match job with
                             | ConvertOfficeToPdfJob document versionId team =>
                                 (uploadType body = "docs" \/ uploadType body = "slides")
                                 /\ document = documentId
                                 /\ versionId = newVersionId env /\ team = teamId
                             | OptimizeVideoJob url team docId versionId size =>
                                 uploadType body = "video"
                                 /\ url = uploadUrl body /\ team = teamId
                                 /\ docId = splitSlash (uploadUrl body) !! 1%nat
                                 /\ versionId = newVersionId env
                                 /\ size = orNumber (uploadFileSize body) 0
                             | ConvertPdfToImageJob payload =>
                                 uploadType body = "pdf"
                                 /\ payload
                                    = {| documentId := documentId;
                                         documentVersionId := newVersionId env;
                                         teamId := teamId;
                                         versionNumber :=
                                           Some (v_versionNumber version0) |}
                             end) as Hstarted.
              { intros job Hin. exists version. rewrite Hnumber.
                split; [exact Hversion|]. split; [exact Hfree|].
                split; [exact Hdocument|]. split; [exact Hprimary|].
                exact (Hjobs job Hin). }
              destruct (String.eqb (uploadType body) "sheet"
                        && match document with
                           | Some info => infoAdvancedExcelEnabled info
                           | None => false
                           end); simpl;
                [destruct (copyFileToBucketServer env); simpl|];
                eexists _, jobs; (split; [reflexivity|]); answered.
           ++ eexists _, []. split; [reflexivity|].
              rewrite (Hrejected error eq_refl). answered.
        -- eexists _, []. split; [reflexivity|]. answered.
      * eexists _, []. split; [reflexivity|]. answered.
    + eexists _, []. split; [reflexivity|]. answered.
  - eexists _, []. split; [reflexivity|]. answered.
Qed.

(** X22.  What the handler leaves when it has answered: the handler always
    answers; 405 is the answer to every method but POST (GET too,
    though the [Allow] header then names GET) and 401 the answer
    without a session, both with nothing written and nothing started;
    at most one conversion is started, and only for a version that has
    been created as the primary version of the document: the office
    conversion for the types docs and slides, the video optimization
    for video, with the second segment of the url as its document id
    and a missing file size as 0, the rasterization for pdf, with the
    number of the created version. *)
Theorem versions_handler_starts_one_job env method teamId documentId body w :
  let run := versionsHandle env method teamId documentId body w in
  exists reply jobs,
    snd run = Fulfilled (reply, jobs)
    /\ (replyStatus reply = 405 <-> method <> "POST")
    /\ (method <> "POST" -> replyAllow reply = Some ["GET"])
    /\ (replyStatus reply = 405 \/ replyStatus reply = 401 -> fst run = w /\ jobs = [])
    /\ (method = "POST" -> sessionUser env = None -> replyStatus reply = 401)
    /\ (length jobs <= 1)%nat
    /\ forall job, In job jobs ->
         exists version,
           versions (fst run) !! newVersionId env = Some version
           /\ versions w !! newVersionId env = None
           /\ v_documentId version = documentId
           /\ v_isPrimary version = true
           /\ match job with
              | ConvertOfficeToPdfJob document versionId team =>
                  (uploadType body = "docs" \/ uploadType body = "slides")
                  /\ document = documentId /\ versionId = newVersionId env
                  /\ team = teamId
              | OptimizeVideoJob url team docId versionId size =>
                  uploadType body = "video"
                  /\ url = uploadUrl body /\ team = teamId
                  /\ docId = splitSlash (uploadUrl body) !! 1%nat
                  /\ versionId = newVersionId env
                  /\ size = orNumber (uploadFileSize body) 0
              | ConvertPdfToImageJob payload =>
                  uploadType body = "pdf"
                  /\ payload = {| documentId := documentId;
                                  documentVersionId := newVersionId env;
                                  teamId := teamId;
                                  versionNumber := Some (v_versionNumber version) |}
              end.
Proof. exact (versionsHandle_answer env method teamId documentId body w). Qed.

(** *** Who is primary after the rasterization of an upload *)

Lemma promotes_refl payload vs : promotes payload vs vs.
Proof. intros id v Hv. exists v. auto. Qed.

Lemma promotes_trans payload vs1 vs2 vs3 :
  promotes payload vs1 vs2 -> promotes payload vs2 vs3 -> promotes payload vs1 vs3.
Proof.
  intros H12 H23 id v3 Hv3.
  destruct (H23 id v3 Hv3) as (v2 & Hv2 & Hd23 & Hn23 & Hp23).
  destruct (H12 id v2 Hv2) as (v1 & Hv1 & Hd12 & Hn12 & Hp12).
  exists v1. split; [exact Hv1|]. split; [congruence|]. split; [congruence|].
  destruct Hp23 as [Hsame | [Hpromoted | (Hdemoted & n & Hn & Hother)]].
  - rewrite Hsame. exact Hp12.
  - right. left. exact Hpromoted.
  - right. right. split; [exact Hdemoted|]. exists n. split; [exact Hn|].
    unfold otherVersions in *. rewrite <- Hd12, <- Hn12. exact Hother.
Qed.

Lemma promotes_levelled payload (vs vs' : gmap string DocumentVersion) :
  levelled <$> vs' = levelled <$> vs -> promotes payload vs vs'.
Proof.
  intros Hsame id v' Hv'.
  destruct (levelled_lookup _ _ _ _ Hsame Hv') as (v & Hv & Hlevel).
  destruct (levelled_columns _ _ Hlevel) as (Hd & Hn & Hp & _).
  exists v. split; [exact Hv|]. split; [congruence|]. split; [congruence|].
  left. congruence.
Qed.

Lemma promotes_enable payload (vs : gmap string DocumentVersion) v numPages :
  vs !! documentVersionId payload = Some v ->
  promotes payload vs
    (<[documentVersionId payload := writeData (enablePagesData numPages) v]> vs).
Proof.
  intros Hv id v' Hv'.
  destruct (decide (id = documentVersionId payload)) as [->|Hne].
  - rewrite lookup_insert_eq in Hv'. injection Hv' as <-.
    exists v. split; [exact Hv|]. split; [reflexivity|]. split; [reflexivity|].
    right. left. auto.
  - rewrite lookup_insert_ne in Hv' by congruence.
    exists v'. auto.
Qed.

Lemma promotes_demote payload (vs : gmap string DocumentVersion) n :
  versionNumber payload = Some n ->
  promotes payload vs
    ((fun v => if otherVersions (documentId payload) n v
               then writeData notPrimaryData v else v) <$> vs).
Proof.
  intros Hn id v' Hv'. rewrite lookup_fmap in Hv'.
  destruct (vs !! id) as [v|] eqn:Hv; [|discriminate].
  simpl in Hv'. injection Hv' as <-. exists v. split; [reflexivity|].
  destruct (otherVersions (documentId payload) n v) eqn:Hother.
  - split; [reflexivity|]. split; [reflexivity|]. right. right.
    split; [reflexivity|]. exists n. auto.
  - auto.
Qed.

Lemma enablePages_promotes env payload numPages w :
  promotes payload (versions w) (versions (fst (enablePages env payload numPages w))).
Proof.
  unfold enablePages. step.
  destruct (versions w !! documentVersionId payload) as [v1|] eqn:Hv1; simpl;
    [|apply promotes_refl].
  pose proof (promotes_enable payload (versions w) v1 numPages Hv1) as Henable.
  destruct (versionNumber payload) as [n|] eqn:Hn; simpl;
    [destruct (n =? 0); simpl|];
    destruct (revalidate env); simpl; try exact Henable;
    (eapply promotes_trans; [exact Henable|]); apply promotes_demote; exact Hn.
Qed.

Lemma convertPages_promotes env payload url numPages w :
  promotes payload (versions w)
    (versions (fst (convertPages env payload url numPages w))).
Proof.
  unfold convertPages. step.
  set (w0 := withJournal _ w).
  pose proof (pageLoop_frame env (documentVersionId payload) url (teamId payload)
                numPages (Z.to_nat numPages) 0
                {| currentPage := 0; conversionWithoutError := true |} w0)
    as ([vars Hvars] & _ & Hlev).
  destruct (pageLoop _ _ _ _ _ _ _ _ w0) as [w1 r1]. simpl in *. subst r1.
  apply (promotes_levelled payload) in Hlev.
  destruct (conversionWithoutError vars); simpl.
  - eapply promotes_trans; [exact Hlev|]. apply enablePages_promotes.
  - exact Hlev.
Qed.

(** However a rasterization run ends, it promotes no version but its
    own and demotes only the versions its payload names. *)
Lemma convertPdfToImage_promotes env payload w :
  promotes payload (versions w) (versions (fst (convertPdfToImage env payload w))).
Proof.
  unfold convertPdfToImage. step.
  destruct (versions w !! documentVersionId payload) as [v|]; simpl;
    [|apply promotes_refl].
  destruct (getFile env) as [[url|]|]; simpl; [|apply promotes_refl..].
  destruct (String.eqb url EmptyString); simpl; [apply promotes_refl|].
  assert (forall w', versions w' = versions w ->
             promotes payload (versions w)
               (versions (fst (countThenConvert env payload url w')))) as Hcount.
  { intros w' Hsame. unfold countThenConvert. step.
    destruct (getPdfPageCount env) as [n|]; simpl;
      [|rewrite Hsame; apply promotes_refl].
    destruct (n <? 1); simpl; [rewrite Hsame; apply promotes_refl|].
    rewrite <- Hsame. apply (convertPages_promotes env payload url n
                               (withJournal (journal w' ++ [CountPages url]) w')). }
  destruct (v_numPages v) as [n|]; [destruct ((n =? 0) || (n =? 1))|].
  - apply Hcount. reflexivity.
  - match goal with
    | |- context [convertPages ?e ?p ?u ?k ?W] =>
        exact (convertPages_promotes e p u k W)
    end.
  - apply Hcount. reflexivity.
Qed.

(** X23.  A PDF uploaded through the handler stays the one primary version of
    its document through the rasterization the handler starts for it,
    however that rasterization ends: the handler has made the new
    version primary and every other version of the document not
    primary, and the rasterization, started with the number of the new
    version, promotes nothing else and does not demote it. *)
Theorem uploaded_pdf_stays_the_only_primary
    env raster teamId documentId body w reply payload :
  snd (versionsHandle env "POST" teamId documentId body w)
  = Fulfilled (reply, [ConvertPdfToImageJob payload]) ->
  let uploaded := fst (versionsHandle env "POST" teamId documentId body w) in
  let after := fst (convertPdfToImage raster payload uploaded) in
  (exists version, versions after !! newVersionId env = Some version
                   /\ v_documentId version = documentId
                   /\ v_isPrimary version = true)
  /\ forall id version,
       versions after !! id = Some version ->
       v_documentId version = documentId ->
       (v_isPrimary version = true <-> id = newVersionId env).
Proof.
  intros Hanswer uploaded after.
  (* what the handler has left *)
  assert (exists latest advanced,
             uploaded = fst (uploadVersion
                               {| currentVersionNumber := latest;
                                  advancedExcelEnabled := advanced;
                                  createdVersionId := newVersionId env |}
                               documentId body w)
             /\ isFulfilled (snd (uploadVersion
                                    {| currentVersionNumber := latest;
                                       advancedExcelEnabled := advanced;
                                       createdVersionId := newVersionId env |}
                                    documentId body w)) = true
             /\ payload = {| documentId := documentId;
                             documentVersionId := newVersionId env;
                             teamId := teamId;
                             versionNumber := Some (latest + 1) |})
    as (latest & advanced & Huploaded & Hfulfilled & Hpayload).
  { subst uploaded after. revert Hanswer. unfold versionsHandle. simpl.
    destruct (sessionUser env) as [userId|]; simpl; [|discriminate]. step.
    destruct (teamWithDocument env) as [document|]; simpl; [|discriminate].
    destruct (latestVersionNumber document) as [latest|]; simpl; [|discriminate].
    match goal with
    | |- context [uploadVersion ?e ?d ?b ?W] =>
        destruct (uploadVersion e d b W) as [w1 [id|]] eqn:Hupload
    end; simpl; [|discriminate].
    intros Hjobs. exists latest. eexists. rewrite Hupload. simpl.
    assert (startedJobs teamId documentId body (newVersionId env) (latest + 1)
            = [ConvertPdfToImageJob payload]) as Hstarted.
    { destruct (String.eqb (uploadType body) "sheet" && _); simpl in Hjobs;
        [destruct (copyFileToBucketServer env); simpl in Hjobs|];
        congruence. }
    split; [|split; [reflexivity|]].
    - destruct (String.eqb (uploadType body) "sheet" && _); simpl;
        [destruct (copyFileToBucketServer env)|]; reflexivity.
    - unfold startedJobs in Hstarted.
      destruct (String.eqb (uploadType body) "docs" || String.eqb (uploadType body) "slides");
        destruct (String.eqb (uploadType body) "video");
        destruct (String.eqb (uploadType body) "pdf");
        simpl in Hstarted; congruence. }
  set (upload := {| currentVersionNumber := latest;
                    advancedExcelEnabled := advanced;
                    createdVersionId := newVersionId env |}) in *.
  destruct (snd (uploadVersion upload documentId body w)) as [id|] eqn:Hid;
    [|discriminate].
  destruct (uploadVersion_created upload documentId body w id Hid)
    as (_ & (created & Hcreated & Hdocument & Hprimary & Hnumber) & _).
  destruct (uploadVersion_primary upload documentId body w id Hid) as [_ Honly].
  cbv zeta in Honly. rewrite <- Huploaded in Hcreated, Honly.
  unfold upload in Hcreated, Hnumber, Honly.
  cbn [createdVersionId currentVersionNumber] in Hcreated, Hnumber, Honly.
  pose proof (convertPdfToImage_promotes raster payload uploaded) as Hpromotes.
  pose proof (convertPdfToImage_files raster payload uploaded) as Hfiles.
  fold after in Hpromotes, Hfiles.
  assert (forall version,
             versions after !! newVersionId env = Some version ->
             v_documentId version = documentId /\ v_isPrimary version = true) as Hnew.
  { intros version Hversion.
    destruct (Hpromotes _ _ Hversion) as (before & Hbefore & Hd & Hn & Hp).
    simpl in Hbefore. rewrite Hcreated in Hbefore. injection Hbefore as <-.
    split; [congruence|].
    destruct Hp as [Hsame | [[_ Hp] | (_ & n & Hpn & Hother)]]; [congruence|exact Hp|].
    exfalso. rewrite Hpayload in Hpn. simpl in Hpn. injection Hpn as <-.
    unfold otherVersions in Hother. rewrite Hnumber in Hother. simpl in Hother.
    rewrite Z.eqb_refl, andb_false_r in Hother. discriminate. }
  split.
  - destruct (filed_lookup _ _ _ _ Hfiles Hcreated) as (version & Hversion & _).
    exists version. split; [exact Hversion|]. apply Hnew. exact Hversion.
  - intros id' version Hversion Hdoc. split.
    + intros Htrue.
      destruct (Hpromotes _ _ Hversion) as (before & Hbefore & Hd & Hn & Hp).
      destruct Hp as [Hsame | [[Hid' _] | [Hfalse _]]].
      * apply (Honly id' before Hbefore); congruence.
      * rewrite Hid', Hpayload. reflexivity.
      * congruence.
    + intros ->. apply (Hnew version Hversion).
Qed.

(** X24.  A video uploaded without a [fileSize] in the body is handed to
    ffmpeg once it has been downloaded and probed, whatever its size
    on disk: the handler starts the optimizer with [fileSize || 0],
    and the guard of the optimizer compares that 0 with 500 MiB.
    [docId] only travels on to the upload of the result, so the
    encoding starts for any value of it. *)
Theorem video_uploaded_without_size_is_encoded
    env video teamId documentId body w reply url team docId versionId size
    metadata doc :
  uploadFileSize body = None ->
  snd (versionsHandle env "POST" teamId documentId body w)
  = Fulfilled (reply, [OptimizeVideoJob url team docId versionId size]) ->
  downloads video = true ->
  probeMetadata (ffprobe video) = Fulfilled metadata ->
  let uploaded := fst (versionsHandle env "POST" teamId documentId body w) in
  exists evs,
    journal (fst (optimizeVideo video url team doc versionId size uploaded))
    = journal uploaded ++ evs
    /\ existsb isTranscode evs = true.
Proof.
  intros Hsize Hanswer Hdown Hprobe uploaded.
  destruct (versionsHandle_answer env "POST" teamId documentId body w)
    as (reply' & jobs & Hrun & _ & _ & _ & _ & _ & Hjobs).
  cbv zeta in Hrun, Hjobs. rewrite Hanswer in Hrun. injection Hrun as <- <-.
  destruct (Hjobs _ (or_introl eq_refl))
    as (version & Hversion & _ & _ & _ & _ & _ & _ & _ & -> & ->).
  fold uploaded in Hversion. rewrite Hsize. simpl orNumber.
  rewrite (optimizeVideo_probed video url team doc (newVersionId env) 0 uploaded
             version metadata Hdown Hprobe Hversion).
  destruct (guardAndEncode_encodes video team doc (newVersionId env) 0 metadata
              (probed uploaded (newVersionId env) version metadata))
    as (evs & Hj); [unfold fiveHundredMiB; lia|].
  eexists. rewrite Hj. unfold probed. simpl. rewrite <- app_assoc.
  split; [reflexivity|].
  reflexivity.
Qed.


(** ** The dataroom documents handler *)

(** X25.  What a request to the dataroom documents handler can do to the
    store.  The users and the folders are never written.  The placed
    documents either stay as they were, or the request was a POST of a
    member of the team and exactly one row was appended: that of the
    posted document in this dataroom, in the folder found under the
    path "/" + folderPathName (so under "/undefined" when the body has
    no [folderPathName]) or in no folder when there is none.  The row
    stays also when [getFeatureFlags] then fails and the answer is the
    error handler's.  A notification is scheduled only with a 201, for
    the created row, ten minutes later. *)
Theorem dataroom_handler_places_one_document env method teamId dataroomId body store :
  let run := dataroomDocumentsHandle env method teamId dataroomId body store in
  let reply := fst (snd run) in
  teamUsers (fst run) = teamUsers store
  /\ dataroomFolders (fst run) = dataroomFolders store
  /\ ((dataroomDocuments (fst run) = dataroomDocuments store
       /\ dataroomStatus reply <> Some 201)
      \/ exists userId id,
           method = "POST"
           /\ dataroomSession env = Some userId
           /\ (teamId, userId) ∈ teamUsers store
           /\ createdDataroomDocumentId env = Fulfilled id
           /\ dataroomDocuments (fst run)
              = dataroomDocuments store
                ++ [{| placedId := id;
                       placedDocumentId := bodyDocumentId body;
                       placedDataroomId := dataroomId;
                       placedFolderId :=
                         dataroomFolders store
                         !! (dataroomId,
                             "/" +:+ default "undefined" (folderPathName body)) |}]
           /\ (dataroomStatus reply = Some 201
               <-> isFulfilled (roomChangeNotifications env) = true))
  /\ (forall task, In task (snd (snd run)) ->
        exists userId id,
          dataroomStatus reply = Some 201
          /\ dataroomSession env = Some userId
          /\ createdDataroomDocumentId env = Fulfilled id
          /\ roomChangeNotifications env = Fulfilled true
          /\ snd (snd run) = [task]
          /\ task = {| scheduledPayload :=
                         {| notifiedDataroomId := dataroomId;
                            notifiedDataroomDocumentId := id;
                            notifiedSenderUserId := userId;
                            notifiedTeamId := teamId |};
                       delayMs := 600000 |})
  /\ (method <> "GET" -> method <> "POST" ->
      dataroomStatus reply = Some 405
      /\ dataroomAllow reply = Some ["GET"; "POST"]).
Proof.
  intros run reply. subst reply run. unfold dataroomDocumentsHandle.
  destruct (String.eqb_spec method "GET") as [->|Hget].
  { destruct (dataroomSession env) as [userId|]; simpl;
      [destruct (bool_decide ((teamId, userId) ∈ teamUsers store)); simpl|];
      (repeat split; try (left; split; [reflexivity|discriminate]);
       try contradiction; congruence). }
  destruct (String.eqb_spec method "POST") as [->|Hpost].
  2:{ simpl. repeat split; try (left; split; [reflexivity|discriminate]);
        try contradiction; congruence. }
  destruct (dataroomSession env) as [userId|]; simpl.
  2:{ repeat split; try (left; split; [reflexivity|discriminate]);
        try contradiction; congruence. }
  destruct (bool_decide_reflect ((teamId, userId) ∈ teamUsers store)) as [Hmember|Hnot];
    simpl.
  2:{ repeat split; try (left; split; [reflexivity|discriminate]);
        try contradiction; congruence. }
  destruct (createdDataroomDocumentId env) as [id|error]; simpl.
  2:{ repeat split; try (left; split; [reflexivity|discriminate]);
        try contradiction; congruence. }
  destruct (roomChangeNotifications env) as [[|]|error]; simpl.
  - split; [reflexivity|]. split; [reflexivity|]. split.
    + right. exists userId, id. repeat split; auto.
    + split; [|congruence].
      intros task [<-|[]]. exists userId, id. repeat split; reflexivity.
  - split; [reflexivity|]. split; [reflexivity|]. split.
    + right. exists userId, id. repeat split; auto.
    + split; [contradiction|congruence].
  - split; [reflexivity|]. split; [reflexivity|]. split.
    + right. exists userId, id. repeat split; auto; discriminate.
    + split; [contradiction|congruence].
Qed.

End Pipeline.

(** * Concrete runs *)

(** ** C1: equal lengths *)

(** On equal lengths it is the JPEG encoding that the page call stores,
    not the PNG encoding. *)
Lemma tie_stores_jpeg_counterexample :
  length (asPNG tiedPixmap) = length (asJPEG tiedPixmap)
  /\ chooseEncoding (asPNG tiedPixmap) (asJPEG tiedPixmap) = (asJPEG tiedPixmap, "jpeg")
  /\ bucket (fst (convertPdfPageToImage plainSlug splitExtension (goodPage 1)
                    "ver_1" 1 signedUrl "team_1" oneVersion))
       !! "team_1/doc_1/page-1.jpeg"
     = Some {| Body := asJPEG tiedPixmap; ContentType := "image/jpeg" |}
  /\ asJPEG tiedPixmap <> asPNG tiedPixmap.
Proof. vm_compute. repeat split; discriminate. Qed.

Lemma encoding_selection_witness :
  loadPage (goodPage 1) = Fulfilled letterPage
  /\ toPixmap letterPage = Fulfilled tiedPixmap
  /\ exists key stored,
       bucket (fst (convertPdfPageToImage plainSlug splitExtension (goodPage 1)
                      "ver_1" 1 signedUrl "team_1" oneVersion)) !! key = Some stored
       /\ Body stored = asJPEG tiedPixmap.
Proof.
  split; [reflexivity|]. split; [reflexivity|].
  destruct (encoding_selection_stores_smaller_jpeg_on_tie plainSlug splitExtension
              (goodPage 1) "ver_1" 1 signedUrl "team_1" oneVersion letterPage
              tiedPixmap "page_1" eq_refl eq_refl)
    as (key & stored & Hkey & Hbody & _); [vm_compute; reflexivity|].
  exists key, stored. split; [exact Hkey|exact Hbody].
Defined.

(** ** C6: the same page twice *)

Lemma page_rasterization_idempotent_witness :
  let first := convertPdfPageToImage plainSlug splitExtension (goodPage 1)
                 "ver_1" 1 signedUrl "team_1" oneVersion in
  let again := convertPdfPageToImage plainSlug splitExtension (goodPage 7)
                 "ver_1" 1 signedUrl "team_1" (fst first) in
  snd first = Fulfilled "page_1"
  /\ pageOf 1 "ver_1" (pages oneVersion) = None
  /\ pages (fst again) = pages (fst first)
  /\ (forall id2, snd again = Fulfilled id2 -> id2 = "page_1")
  /\ exists p, rowsOf 1 "ver_1" (pages (fst again)) = [p].
Proof.
  intros first again.
  assert (snd first = Fulfilled "page_1") as Hfirst by (vm_compute; reflexivity).
  assert (pageOf 1 "ver_1" (pages oneVersion) = None) as Hnone by reflexivity.
  destruct (page_rasterization_idempotent plainSlug splitExtension (goodPage 1)
              (goodPage 7) "ver_1" 1 signedUrl "team_1" oneVersion) as [_ Htwice].
  destruct (Htwice "page_1" Hfirst) as (Hpages & Hid & Hrows).
  destruct (Hrows Hnone) as (p & Hp & _).
  split; [exact Hfirst|]. split; [exact Hnone|]. split; [exact Hpages|].
  split; [exact Hid|]. exists p. exact Hp.
Defined.

(** ** C2: five pages, the third fails *)

(** The last percentage the run reports is 60, not 40. *)
Lemma third_page_fails_counterexample :
  let run := convertPdfToImage plainSlug splitExtension thirdPageFails (pdfPayload (Some 2)) oneVersion in
  snd run = Fulfilled None
  /\ pagesTried (journal (fst run)) = [1; 2; 3]
  /\ percentages PdfToImage (journal (fst run)) = [0; 10; 20; 20; 40; 60; 60]
  /\ last (percentages PdfToImage (journal (fst run))) <> Some 40.
Proof. vm_compute. repeat split; discriminate. Qed.

Lemma sequential_abort_witness :
  versions oneVersion !! "ver_1" = Some (uploaded "pdf" 2 true)
  /\ pageSucceeds (pageEnv thirdPageFails 3) = false
  /\ (let run := convertPdfToImage plainSlug splitExtension thirdPageFails (pdfPayload (Some 2)) oneVersion in
      snd run = Fulfilled None
      /\ exists v', versions (fst run) !! "ver_1" = Some v'
                    /\ v_numPages v' = None /\ v_hasPages v' = false).
Proof.
  split; [reflexivity|]. split; [reflexivity|].
  destruct (sequential_abort_reports_sixty plainSlug splitExtension thirdPageFails
              (pdfPayload (Some 2)) oneVersion (uploaded "pdf" 2 true) signedUrl)
    as (Hres & _ & _ & _ & v' & Hv' & Hn & Hh);
    [reflexivity|reflexivity|discriminate|right; split; [left|]; reflexivity
    |reflexivity|reflexivity|reflexivity|].
  split; [exact Hres|]. exists v'. split; [exact Hv'|]. split; assumption.
Defined.

(** ** C10: the stored page count *)


(** ** C5: who is primary after a rasterization *)


(** The two versions are those the upload handler leaves when a PDF is
    uploaded while the office document is still being converted. *)
Example two_versions_after_the_second_upload :
  versions (fst (uploadVersion nextUpload "doc_1" pdfUpload officeVersion))
  = versions twoVersions.
Proof. vm_compute. reflexivity. Qed.

(** The same holds of the rasterization run itself when it is given no
    version number. *)
Example rasterization_without_version_number :
  let run := convertPdfToImage plainSlug splitExtension (rendering 1) (pdfPayload None) twoVersions in
  isFulfilled (snd run) = true
  /\ (v_isPrimary <$> versions (fst run) !! "ver_1") = Some true
  /\ (v_isPrimary <$> versions (fst run) !! "ver_2") = Some true.
Proof. vm_compute. repeat split. Qed.


(** ** C4 and C7: the conversion service fails *)


(** With the service answering 503 there is a third wait, of 8000 ms,
    after the last request, and the "Conversion failed" error. *)
Example overloaded_service_waits_after_last_request :
  let run := convertCadToPdf plainSlug splitExtension overloaded
               "doc_1" "ver_1" "team_1" oneVersion in
  snd run = Rejected {| message := "Conversion failed: Service Unavailable 503" |}
  /\ requests (journal (fst run)) = 3%nat
  /\ waits (journal (fst run)) = [2000; 4000; 8000]
  /\ retryWaits (journal (fst run)) = [2000; 4000].
Proof. vm_compute. repeat split. Qed.



(** ** C3 and C8: the size guard of the video optimizer *)

(** A video of exactly 500 MiB is handed to ffmpeg and replaced by the
    optimized file: it is not skipped. *)
Lemma exactly_500MiB_is_encoded_counterexample :
  let run := optimize (500 * 1024 * 1024) in
  snd run = Fulfilled (Some {| success := true;
                               resultMessage := "Successfully optimized video";
                               totalPages := None |})
  /\ existsb isTranscode (journal (fst run)) = true
  /\ (v_file <$> versions (fst run) !! "ver_1") = Some "team_1/doc_1/optimized.mp4".
Proof. vm_compute. repeat split. Qed.

Example one_byte_under_500MiB_is_encoded :
  existsb isTranscode (journal (fst (optimize (500 * 1024 * 1024 - 1)))) = true.
Proof. vm_compute. reflexivity. Qed.

Example one_byte_over_500MiB_is_skipped :
  let run := optimize (500 * 1024 * 1024 + 1) in
  existsb isTranscode (journal (fst run)) = false
  /\ (v_file <$> versions (fst run) !! "ver_1") = Some "team_1/doc_1/report.pdf".
Proof. vm_compute. repeat split. Qed.

Lemma size_guard_witness :
  downloads clip = true
  /\ probeMetadata (ffprobe clip) = Fulfilled clipMetadata
  /\ exists evs,
       journal (fst (optimize (500 * 1024 * 1024))) = evs
       /\ existsb isTranscode evs = true.
Proof.
  split; [reflexivity|]. split; [reflexivity|].
  destruct (size_guard_skips_only_above_500MiB clip "team_1/doc_1/clip.mp4"
              "team_1" "doc_1" "ver_1" (500 * 1024 * 1024) oneVersion
              (uploaded "pdf" 2 true) clipMetadata eq_refl eq_refl eq_refl)
    as (evs & Hj & Hevs).
  exists evs. split; [exact Hj|exact Hevs].
Defined.

Lemma skip_path_witness :
  fiveHundredMiB < 700 * 1024 * 1024
  /\ (let run := optimize (700 * 1024 * 1024) in
      (exists v', versions (fst run) !! "ver_1" = Some v'
                  /\ v_length v' = Some 13
                  /\ v_file v' = "team_1/doc_1/report.pdf")
      /\ snd run = Fulfilled (Some {| success := true;
                                      resultMessage :=
                                        "File size is too large, skipping optimization";
                                      totalPages := None |})).
Proof.
  split; [reflexivity|].
  destruct (skip_path_persists_duration_only clip "team_1/doc_1/clip.mp4"
              "team_1" "doc_1" "ver_1" (700 * 1024 * 1024) oneVersion
              (uploaded "pdf" 2 true) clipMetadata eq_refl eq_refl eq_refl eq_refl)
    as (_ & _ & _ & (v' & Hv' & Hlen & Hfile & _) & _ & _ & _ & Hres).
  split; [|exact (Hres eq_refl)].
  exists v'. split; [exact Hv'|]. split; [exact Hlen|exact Hfile].
Defined.

(** ** C9: the percentages of a run *)


Example rasterization_of_seven_pages :
  percentages PdfToImage (journal (fst (convertPdfToImage plainSlug splitExtension (rendering 7) (pdfPayload (Some 2)) oneVersion)))
  = [0; 10; 20; 14; 29; 43; 57; 71; 86; 100; 90; 95; 100].
Proof. vm_compute. reflexivity. Qed.


(** ** The regular expressions *)

Example matchDocId_in_signed_url : matchDocId signedUrl = Some "doc_1".
Proof. reflexivity. Qed.

Example matchDocId_needs_a_slash : matchDocId "doc_1" = None.
Proof. reflexivity. Qed.

Example stripExtension_last_dot_only : stripExtension "a.b.docx" = "a.b".
Proof. reflexivity. Qed.


(** ** Keys and names *)

Lemma matchDocId_shape_witness :
  matchDocId "team_1/doc_1/report.pdf" = Some "doc_1"
  /\ exists before run after,
       "team_1/doc_1/report.pdf" = before +:+ "doc_1" +:+ "/" +:+ after
       /\ "doc_1" = "doc_" +:+ run /\ run <> EmptyString /\ hasSlash run = false.
Proof.
  split; [reflexivity|].
  destruct (matchDocId_shape "team_1/doc_1/report.pdf" "doc_1" eq_refl)
    as (before & run & after & Hurl & Hid & Hrun & Hslash & _).
  exists before, run, after. auto.
Defined.

(** The leftmost id is the one taken. *)
Example matchDocId_takes_the_first_id :
  matchDocId "team_1/doc_1/doc_2/report.pdf" = Some "doc_1"
  /\ matchDocId "doc_/doc_2/report.pdf" = Some "doc_2"
  /\ matchDocId "team_1/doc_1" = None.
Proof. vm_compute. repeat split. Qed.

Lemma stored_key_names_its_document_witness :
  snd (putFileInS3Server plainSlug splitExtension takingStore reportFile "team_1"
         (Some "doc_1") oneVersion)
  = Fulfilled (S3_PATH, "team_1/doc_1/report.pdf")
  /\ matchDocId "team_1/doc_1/report.pdf" = Some "doc_1".
Proof.
  split; [reflexivity|].
  apply (stored_key_names_its_document plainSlug splitExtension takingStore
           reportFile "team_1" "1" oneVersion "team_1/doc_1/report.pdf");
    [discriminate|reflexivity|reflexivity|reflexivity].
Defined.

Lemma stripExtension_takes_extension_off_witness :
  hasDot "pdf" = false
  /\ stripExtension ("report.final" +:+ "." +:+ "pdf") = "report.final".
Proof.
  split; [reflexivity|].
  apply (stripExtension_takes_extension_off "report.final" "pdf");
    [discriminate|reflexivity].
Defined.

(** ** Rasterization *)

Lemma rasterization_result_means_every_page_witness :
  let run := convertPdfToImage plainSlug splitExtension (rendering 4)
               (pdfPayload (Some 2)) oneVersion in
  snd run = Fulfilled (Some {| success := true;
                               resultMessage := "Successfully converted PDF to images";
                               totalPages := Some 4 |})
  /\ forall k, 1 <= k <= 4 ->
       exists p, pageOf k "ver_1" (pages (fst run)) = Some p.
Proof.
  intros run.
  assert (snd run = Fulfilled (Some {| success := true;
                                       resultMessage :=
                                         "Successfully converted PDF to images";
                                       totalPages := Some 4 |})) as Hrun
    by (vm_compute; reflexivity).
  split; [exact Hrun|].
  destruct (rasterization_result_means_every_page plainSlug splitExtension
              (rendering 4) (pdfPayload (Some 2)) oneVersion _ Hrun)
    as (numPages & Hres & Hpages & _).
  injection Hres as <-. exact Hpages.
Defined.

Lemma rasterization_without_result_keeps_versions_witness :
  let run := convertPdfToImage plainSlug splitExtension thirdPageFails
               (pdfPayload (Some 2)) oneVersion in
  snd run = Fulfilled None
  /\ levelled <$> versions (fst run) = levelled <$> versions oneVersion.
Proof.
  intros run.
  assert (snd run = Fulfilled None) as Hrun by (vm_compute; reflexivity).
  split; [exact Hrun|].
  exact (proj1 (rasterization_without_result_keeps_versions plainSlug splitExtension
                  thirdPageFails (pdfPayload (Some 2)) oneVersion Hrun)).
Defined.

Lemma page_count_failure_stops_the_run_witness :
  versions oneVersion !! "ver_1" = Some (uploaded "pdf" 2 true)
  /\ getPdfPageCount uncountable = Rejected {| message := "cannot open document" |}
  /\ snd (convertPdfToImage plainSlug splitExtension uncountable (pdfPayload (Some 2))
            oneVersion)
     = Rejected {| message := "Failed to get number of pages" |}.
Proof.
  split; [reflexivity|]. split; [reflexivity|].
  destruct (page_count_failure_stops_the_run plainSlug splitExtension uncountable
              (pdfPayload (Some 2)) oneVersion (uploaded "pdf" 2 true) signedUrl)
    as [Hrejected _];
    [reflexivity|reflexivity|discriminate|left; reflexivity|].
  rewrite (Hrejected _ eq_refl). reflexivity.
Defined.

Lemma rasterization_goes_through_witness :
  versions oneVersion !! "ver_1" = Some (uploaded "pdf" 2 true)
  /\ getPdfPageCount (rendering 4) = Fulfilled 4
  /\ snd (convertPdfToImage plainSlug splitExtension (rendering 4) (pdfPayload (Some 2))
            oneVersion)
     = Fulfilled (Some {| success := true;
                          resultMessage := "Successfully converted PDF to images";
                          totalPages := Some 4 |}).
Proof.
  split; [reflexivity|]. split; [reflexivity|].
  refine (proj1 (rasterization_goes_through plainSlug splitExtension (rendering 4)
                   (pdfPayload (Some 2)) oneVersion (uploaded "pdf" 2 true) signedUrl 4
                   eq_refl eq_refl _ _ _)).
  - discriminate.
  - right. split; [left; reflexivity|]. split; [reflexivity|lia].
  - intros k _. reflexivity.
Defined.

(** ** Conversions *)

Lemma conversion_succeeds_whatever_the_previews_witness :
  sourceOf (documentWithVersion officeVersion "doc_1" "ver_1")
  = Some ("report.pdf", "team_1/doc_1/report.pdf")
  /\ fetchAt converting 0%nat = Fulfilled (answer 200 "OK")
  /\ snd (convertCadToPdf plainSlug splitExtension converting "doc_1" "ver_1" "team_1"
            officeVersion)
     = Fulfilled (Some {| success := true;
                          resultMessage := "Successfully converted CAD file to PDF";
                          totalPages := None |}).
Proof.
  split; [reflexivity|]. split; [reflexivity|].
  refine (proj1 (conversion_succeeds_whatever_the_previews plainSlug splitExtension
                   converting "doc_1" "ver_1" "team_1" officeVersion
                   "report.pdf" "team_1/doc_1/report.pdf" signedUrl
                   (answer 200 "OK") [Byte.x25]
                   eq_refl eq_refl eq_refl eq_refl eq_refl eq_refl eq_refl
                   _ _ (or_introl (conj eq_refl eq_refl)))).
Defined.

Lemma no_conversion_without_source_witness :
  versions officeVersion !! "ver_9" = None
  /\ snd (convertCadToPdf plainSlug splitExtension converting "doc_1" "ver_9" "team_1"
            officeVersion)
     = Fulfilled None.
Proof.
  split; [reflexivity|].
  refine (proj1 (no_conversion_without_source plainSlug splitExtension converting
                   "doc_1" "ver_9" "team_1" officeVersion
                   (or_intror (or_intror (or_introl eq_refl)))
                   _ (or_introl eq_refl))).
Defined.

Lemma office_conversion_failure_is_wrapped_witness :
  libreConvert brokenLibreOffice
  = Rejected {| message := "Could not find soffice binary" |}
  /\ snd (convertOfficeToPdf plainSlug splitExtension brokenLibreOffice
            "doc_1" "ver_1" "team_1" officeVersion)
     = Rejected {| message :=
                     "Document conversion failed: Could not find soffice binary" |}.
Proof.
  split; [reflexivity|].
  refine (proj1 (office_conversion_failure_is_wrapped plainSlug splitExtension
                   brokenLibreOffice "doc_1" "ver_1" "team_1" officeVersion
                   "report.pdf" "team_1/doc_1/report.pdf" signedUrl
                   (answer 200 "OK") [Byte.x25]
                   {| message := "Could not find soffice binary" |}
                   eq_refl eq_refl eq_refl eq_refl eq_refl eq_refl eq_refl eq_refl
                   (or_introl eq_refl))).
Defined.

(** ** The video optimizer *)

Lemma failed_probe_writes_nothing_witness :
  isFulfilled (probeMetadata (ffprobe soundOnly)) = false
  /\ (let run := optimizeVideo soundOnly "team_1/doc_1/clip.mp4" "team_1" "doc_1"
                   "ver_1" 1000 oneVersion in
      snd run = Rejected {| message := "No video stream found" |}
      /\ versions (fst run) = versions oneVersion).
Proof.
  split; [reflexivity|].
  destruct (failed_probe_writes_nothing soundOnly "team_1/doc_1/clip.mp4" "team_1"
              "doc_1" "ver_1" 1000 oneVersion (or_intror eq_refl))
    as (_ & _ & Hversions & _ & _ & Hstream).
  split; [|exact Hversions].
  exact (Hstream eq_refl _ eq_refl eq_refl).
Defined.


(** ** The object store *)

(** The answer is [true] although the second round of deletions was
    refused: the recursive call is awaited, and what it returns is
    dropped. *)
Example later_rounds_are_not_reported :
  let run := deleteTeamFilesFromS3Server refusingLater 5 "team_1" [] in
  snd run = Some true
  /\ (exists first second,
        fst run = [ListObjectsV2 "team_1/"; DeleteObjects first;
                   ListObjectsV2 "team_1/"; DeleteObjects second]
        /\ refusingLater [ListObjectsV2 "team_1/"; DeleteObjects first;
                          ListObjectsV2 "team_1/"] (DeleteObjects second)
           = Rejected {| message := "SlowDown" |}).
Proof.
  vm_compute. split; [reflexivity|]. eexists. eexists. split; reflexivity.
Qed.

(** ** The rate limiter *)

Lemma sliding_window_counts_the_last_seconds_witness :
  increasing ([1000; 5000; 11000] ++ [15000]) = true
  /\ snd (limit 3 10 Executed "203.0.113.7" 15000
            (replay 3 10 "203.0.113.7" [1000; 5000; 11000] ∅))
     = {| rl_success := true; rl_limit := 3; rl_remaining := 1; rl_reset := 25000 |}.
Proof.
  split; [reflexivity|].
  refine (sliding_window_counts_the_last_seconds 3 10 "203.0.113.7"
            [1000; 5000; 11000] 15000 ∅ _ _ eq_refl _).
  - lia.
  - apply lookup_empty.
  - repeat constructor; lia.
Defined.

(** Ten requests in one millisecond leave one member in the window:
    the eleventh request of that millisecond is let through. *)
Example burst_in_one_millisecond :
  snd (limit 10 10 Executed "203.0.113.7" 15000
         (replay 10 10 "203.0.113.7" (replicate 10 15000) ∅))
  = {| rl_success := true; rl_limit := 10; rl_remaining := 9; rl_reset := 25000 |}.
Proof. vm_compute. reflexivity. Qed.

(** ** Webhooks *)

Lemma webhook_deliveries_stand_alone_witness :
  prepareWebhookPayload hooks = Fulfilled "link.created"
  /\ isFulfilled (sendWebhooks hooks [upHook; downHook]) = true.
Proof.
  split; [reflexivity|].
  destruct (webhook_deliveries_stand_alone hooks [upHook; downHook] "link.created")
    as [[_ Hsigned] _]; [discriminate|reflexivity|].
  apply Hsigned. repeat constructor.
Defined.

(** ** The versions handler *)

Lemma uploaded_pdf_stays_the_only_primary_witness :
  let uploaded := fst (versionsHandle uploader "POST" "team_1" "doc_1" pdfUpload
                         officeVersion) in
  let after := fst (convertPdfToImage plainSlug splitExtension thirdPageFails
                      {| documentId := "doc_1"; documentVersionId := "ver_2";
                         teamId := "team_1"; versionNumber := Some 3 |} uploaded) in
  (exists reply,
     snd (versionsHandle uploader "POST" "team_1" "doc_1" pdfUpload officeVersion)
     = Fulfilled (reply, [ConvertPdfToImageJob
                            {| documentId := "doc_1"; documentVersionId := "ver_2";
                               teamId := "team_1"; versionNumber := Some 3 |}]))
  /\ forall id version,
       versions after !! id = Some version ->
       v_documentId version = "doc_1" ->
       (v_isPrimary version = true <-> id = "ver_2").
Proof.
  intros uploaded after.
  split; [eexists; vm_compute; reflexivity|].
  refine (proj2 (uploaded_pdf_stays_the_only_primary plainSlug splitExtension
                   uploader thirdPageFails "team_1" "doc_1" pdfUpload officeVersion
                   {| replyStatus := 200; replyAllow := None;
                      replyBody := NewVersion "doc_1" |}
                   {| documentId := "doc_1"; documentVersionId := "ver_2";
                      teamId := "team_1"; versionNumber := Some 3 |} _)).
  vm_compute. reflexivity.
Defined.

Lemma video_uploaded_without_size_is_encoded_witness :
  uploadFileSize videoUpload = None
  /\ (let uploaded := fst (versionsHandle uploader "POST" "team_1" "doc_1" videoUpload
                             officeVersion) in
      exists evs,
        journal (fst (optimizeVideo clip "team_1/doc_1/clip.mp4" "team_1" "doc_1"
                        "ver_2" 0 uploaded))
        = journal uploaded ++ evs
        /\ existsb isTranscode evs = true).
Proof.
  split; [reflexivity|].
  refine (video_uploaded_without_size_is_encoded uploader clip "team_1" "doc_1"
            videoUpload officeVersion
            {| replyStatus := 200; replyAllow := None;
               replyBody := NewVersion "doc_1" |}
            "team_1/doc_1/clip.mp4" "team_1" (Some "doc_1") "ver_2" 0 clipMetadata
            "doc_1" eq_refl _ eq_refl eq_refl).
  vm_compute. reflexivity.
Defined.

(** ** The dataroom documents handler *)

(** A document posted without [folderPathName] goes to no folder, and
    its row stays when the flags of the team cannot be read. *)
Example placed_although_the_flags_fail :
  let run := dataroomDocumentsHandle
               (placing (Rejected {| message := "flags unavailable" |}))
               "POST" "team_1" "room_1"
               {| bodyDocumentId := "doc_1"; folderPathName := None |} room in
  dataroomDocuments (fst run)
  = [{| placedId := "placed_1"; placedDocumentId := "doc_1";
        placedDataroomId := "room_1"; placedFolderId := None |}]
  /\ dataroomStatus (fst (snd run)) = None
  /\ snd (snd run) = [].
Proof. vm_compute. repeat split. Qed.
